(** * The149 store: ledger procedures and client store

    Shallow embedding of
    - [supabase/migrations/20240000000001_initial_schema.sql]: the tables,
      the notification and balance triggers and [handle_expense]; the
      procedure [handle_sale], which the store calls but the migration does
      not define, is modelled from the specification's RecordSale;
    - [src/lib/store.ts]: the zustand store (fetchAllData, addCategory,
      updateStock, updatePrice, deleteCategory, completeSale);
    - the SalesMode, Deposits and Expenses components' submit handlers.

    Further modules embed fetchUserProfile and setUserProfile of the
    store, the handlers of the Inventory component, the paging of the
    expense list and the quantity effects of SalesMode.

    SQL [integer] columns are 32-bit: arithmetic leaving the range raises
    [integer out of range] (there is no wrap-around in PostgreSQL).
    JavaScript numbers are modelled by [Z]: the amounts, prices and stock
    counts handled here are integral. *)

From Stdlib Require Import ZArith Lia Sorted.
From stdpp Require Import base option list strings pretty gmap.

Local Open Scope Z_scope.

(** ** The database (SQL migration) *)
Module Sql.

Definition uuid := string.
Definition timestamp := string.

(** Columns of [profiles] read by the procedures. *)
Record profile := {
  prof_id : uuid;
  prof_name : string;
  prof_designation : string;
  prof_is_admin : bool;
  prof_is_approved : bool
}.

Record category_row := {
  cat_id : uuid;
  cat_price : Z;
  cat_stock : Z;
  cat_user_id : uuid
}.

(** One element of the [items] jsonb array of a sale:
    [{category: {id, price, stock}, quantity}]. *)
Record sale_item := {
  item_category_id : uuid;
  item_price : Z;
  item_stock : Z;
  item_quantity : Z
}.

(** The [payment] jsonb object of a sale. *)
Record payment := {
  pay_cash : Z;
  pay_online : Z;
  pay_slipImage : option string
}.

Record sale_row := {
  sale_id : uuid;
  sale_user_id : uuid;
  sale_created_by : uuid;
  sale_timestamp : timestamp;
  sale_items : list sale_item;
  sale_total : Z;
  sale_payment : payment
}.

Record expense_row := {
  exp_id : uuid;
  exp_created_by : uuid;
  exp_purpose : string;
  exp_amount : Z;
  exp_cash_amount : Z;
  exp_online_amount : Z;
  exp_receipt_image : option string;
  exp_timestamp : timestamp
}.

Record deposit_row := {
  dep_id : uuid;
  dep_deposited_by : uuid;
  dep_received_by : uuid;
  dep_amount : Z;
  dep_description : option string;
  dep_slip_image : option string;
  dep_timestamp : timestamp
}.

Record balance_row := {
  bal_id : uuid;
  shop_balance : Z;
  bank_balance : Z;
  last_updated : timestamp
}.

Inductive notification_type := TySale | TyExpense | TyDeposit | TyApproval.

(** The arguments of the [format(...)] call that builds [description],
    together with the [jsonb_build_object] metadata. *)
Inductive notification_body :=
  | SaleBody (sale : uuid) (amount : Z) (creator_id : uuid)
             (creator_name : option string)
  | ExpenseBody (expense : uuid) (amount : Z) (purpose : string)
                (creator_id : uuid) (creator_name : option string)
  | DepositBody (deposit : uuid) (amount : Z) (creator_id : uuid)
                (creator_name : option string).

Record notification := {
  notif_user_id : uuid;
  notif_title : string;
  notif_type : notification_type;
  notif_is_read : bool;
  notif_body : notification_body
}.

Record db := {
  auth_users : list uuid;
  profiles : list profile;
  categories : list category_row;
  sales : list sale_row;
  expenses : list expense_row;
  deposits : list deposit_row;
  balances : list balance_row;
  notifications : list notification
}.

Definition set_categories (cs : list category_row) (d : db) : db :=
  {| auth_users := auth_users d; profiles := profiles d; categories := cs;
     sales := sales d; expenses := expenses d; deposits := deposits d;
     balances := balances d; notifications := notifications d |}.

Definition set_sales (ss : list sale_row) (d : db) : db :=
  {| auth_users := auth_users d; profiles := profiles d;
     categories := categories d; sales := ss; expenses := expenses d;
     deposits := deposits d; balances := balances d;
     notifications := notifications d |}.

Definition set_expenses (es : list expense_row) (d : db) : db :=
  {| auth_users := auth_users d; profiles := profiles d;
     categories := categories d; sales := sales d; expenses := es;
     deposits := deposits d; balances := balances d;
     notifications := notifications d |}.

Definition set_deposits (ds : list deposit_row) (d : db) : db :=
  {| auth_users := auth_users d; profiles := profiles d;
     categories := categories d; sales := sales d; expenses := expenses d;
     deposits := ds; balances := balances d;
     notifications := notifications d |}.

Definition set_balances (bs : list balance_row) (d : db) : db :=
  {| auth_users := auth_users d; profiles := profiles d;
     categories := categories d; sales := sales d; expenses := expenses d;
     deposits := deposits d; balances := bs;
     notifications := notifications d |}.

Definition set_notifications (ns : list notification) (d : db) : db :=
  {| auth_users := auth_users d; profiles := profiles d;
     categories := categories d; sales := sales d; expenses := expenses d;
     deposits := deposits d; balances := balances d; notifications := ns |}.

(** *** Transactions

    A statement runs against a working copy of the database and either
    returns a value or raises; the working copy at the point of the raise is
    kept so that one can see what had been written, and [run_tx] discards it
    (rollback). *)

Inductive sql_error :=
  | RaiseException (msg : string)
  | IntegerOutOfRange
  | ForeignKeyViolation
  | InsufficientStock (category : uuid)  (* the spec's RecordSale errors, *)
  | PaymentMismatch.                     (* raised by [handle_sale]       *)

Definition tx (A : Type) : Type := db -> db * (sql_error + A).

Definition ret {A} (a : A) : tx A := fun d => (d, inr a).

Definition raise {A} (e : sql_error) : tx A := fun d => (d, inl e).

Definition bind {A B} (m : tx A) (k : A -> tx B) : tx B :=
  fun d =>
    match m d with
    | (d', inr a) => k a d'
    | (d', inl e) => (d', inl e)
    end.

#[global] Instance tx_ret : MRet tx := @ret.
#[global] Instance tx_bind : MBind tx := fun A B k m => bind m k.

Definition get_db : tx db := fun d => (d, inr d).

Definition modify (f : db -> db) : tx unit := fun d => (f d, inr tt).

Definition when (b : bool) (m : tx unit) : tx unit :=
  if b then m else ret tt.

(** A top-level statement (one PostgREST request) is one transaction. *)
Definition run_tx {A} (m : tx A) (d : db) : db * (sql_error + A) :=
  match m d with
  | (d', inr a) => (d', inr a)
  | (_, inl e) => (d, inl e)
  end.

(** [begin ... exception when others then handler end]: the block is a
    subtransaction, undone before the handler runs. *)
Definition block_exception {A} (body : tx A) (handler : sql_error -> tx A)
  : tx A :=
  fun d =>
    match body d with
    | (d', inr a) => (d', inr a)
    | (_, inl e) => handler e d
    end.

Definition sqlerrm (e : sql_error) : string :=
  match e with
  | RaiseException msg => msg
  | IntegerOutOfRange => "integer out of range"
  | ForeignKeyViolation => "violates foreign key constraint"
  | InsufficientStock c => "Insufficient stock for category " +:+ c
  | PaymentMismatch => "Payment does not match total"
  end.

Definition int4_min : Z := -2147483648.
Definition int4_max : Z := 2147483647.

Definition in_int4 (z : Z) : bool := (int4_min <=? z) && (z <=? int4_max).

Definition int4 (z : Z) : tx Z :=
  if in_int4 z then ret z else raise IntegerOutOfRange.

Definition checked (z : Z) : sql_error + Z :=
  if in_int4 z then inr z else inl IntegerOutOfRange.

(** *** Notification triggers *)

(** [select ... from profiles where id = i] ([id] is the primary key). *)
Definition select_profile (d : db) (i : uuid) : option profile :=
  head (filter (fun p => prof_id p = i) (profiles d)).

(** [select id from profiles where is_approved = true] *)
Definition approved_ids (d : db) : list uuid :=
  prof_id <$> filter (fun p => prof_is_approved p = true) (profiles d).

(** [select id from profiles where designation = 'Owner'] *)
Definition owner_ids (d : db) : list uuid :=
  prof_id <$> filter (fun p => prof_designation p = "Owner") (profiles d).

Definition insert_notifications (ns : list notification) : tx unit :=
  modify (fun d => set_notifications (notifications d ++ ns) d).

Definition notify_sale (new : sale_row) : tx unit :=
  d ← get_db;
  let creator_name := prof_name <$> select_profile d (sale_created_by new) in
  insert_notifications
    ((fun i =>
        {| notif_user_id := i; notif_title := "New Sale";
           notif_type := TySale; notif_is_read := false;
           notif_body := SaleBody (sale_id new) (sale_total new)
                           (sale_created_by new) creator_name |})
       <$> filter (fun i => i ≠ sale_created_by new ∧ i ∈ approved_ids d)
             (auth_users d)).

Definition expense_notification (new : expense_row)
    (creator_name : option string) (i : uuid) : notification :=
  {| notif_user_id := i; notif_title := "New Expense";
     notif_type := TyExpense; notif_is_read := false;
     notif_body := ExpenseBody (exp_id new) (exp_amount new)
                     (exp_purpose new) (exp_created_by new) creator_name |}.

Definition notify_expense (new : expense_row) : tx unit :=
  d ← get_db;
  let creator := select_profile d (exp_created_by new) in
  let creator_name := prof_name <$> creator in
  let creator_designation := prof_designation <$> creator in
  if decide (creator_designation = Some "Store Manager") then
    insert_notifications
      (expense_notification new creator_name
         <$> filter (fun i => i ≠ exp_created_by new ∧ i ∈ approved_ids d)
               (auth_users d))
  else
    insert_notifications
      (expense_notification new creator_name
         <$> filter (fun i => i ≠ exp_created_by new ∧ i ∈ owner_ids d)
               (auth_users d)).

Definition notify_deposit (new : deposit_row) : tx unit :=
  d ← get_db;
  let creator_name := prof_name <$> select_profile d (dep_deposited_by new) in
  insert_notifications
    ((fun i =>
        {| notif_user_id := i; notif_title := "New Deposit";
           notif_type := TyDeposit; notif_is_read := false;
           notif_body := DepositBody (dep_id new) (dep_amount new)
                           (dep_deposited_by new) creator_name |})
       <$> filter (fun i => i ≠ dep_deposited_by new ∧ i ∈ owner_ids d)
             (auth_users d)).

(** The users [notify_expense] selects, in either branch. *)
Definition expense_recipients (new : expense_row) (d : db) : list uuid :=
  if decide (prof_designation <$> select_profile d (exp_created_by new)
             = Some "Store Manager")
  then filter (fun i => i ≠ exp_created_by new ∧ i ∈ approved_ids d)
         (auth_users d)
  else filter (fun i => i ≠ exp_created_by new ∧ i ∈ owner_ids d)
         (auth_users d).

(** *** Balance triggers *)

(** [update balances set ... where id = target]: every row with that id is
    rewritten by [f]; an error in [f] fails the statement. *)
Fixpoint update_rows (target : uuid)
    (f : balance_row -> sql_error + balance_row) (bs : list balance_row)
  : sql_error + list balance_row :=
  match bs with
  | [] => inr []
  | b :: rest =>
      match (if decide (bal_id b = target) then f b else inr b) with
      | inl e => inl e
      | inr b' =>
          match update_rows target f rest with
          | inl e => inl e
          | inr rest' => inr (b' :: rest')
          end
      end
  end.

(** [target] is [None] when the subquery [(select id from balances limit 1)]
    returns no row: then no row matches. *)
Definition update_balances (target : option uuid)
    (f : balance_row -> sql_error + balance_row) : tx unit :=
  fun d =>
    match target with
    | None => (d, inr tt)
    | Some i =>
        match update_rows i f (balances d) with
        | inl e => (d, inl e)
        | inr bs => (set_balances bs d, inr tt)
        end
    end.

Definition set_row (now : timestamp) (b : balance_row) (shop bank : Z)
  : sql_error + balance_row :=
  match checked shop, checked bank with
  | inr s, inr k =>
      inr {| bal_id := bal_id b; shop_balance := s; bank_balance := k;
             last_updated := now |}
  | inl e, _ => inl e
  | _, inl e => inl e
  end.

Definition update_balances_for_sale (now : timestamp) (new : sale_row)
  : tx unit :=
  cash_amount ← int4 (pay_cash (sale_payment new));
  online_amount ← int4 (pay_online (sale_payment new));
  d ← get_db;
  update_balances (bal_id <$> head (balances d))
    (fun b => set_row now b (shop_balance b + cash_amount)
                (bank_balance b + online_amount)).

Definition update_balances_for_deposit (now : timestamp) (new : deposit_row)
  : tx unit :=
  d ← get_db;
  update_balances (bal_id <$> head (balances d))
    (fun b => set_row now b (shop_balance b - dep_amount new)
                (bank_balance b + dep_amount new)).

(** *** Inserts, with the triggers they fire

    Triggers on one event fire in name order: [on_*_notify] before
    [update_balances_after_*]. [created_by], [deposited_by] and
    [received_by] reference [profiles(id)]; [sales.user_id] references
    [auth.users]. *)

Definition references_profiles (i : uuid) : tx unit :=
  d ← get_db;
  if decide (i ∈ prof_id <$> profiles d) then mret tt
  else raise ForeignKeyViolation.

Definition references_users (i : uuid) : tx unit :=
  d ← get_db;
  if decide (i ∈ auth_users d) then mret tt else raise ForeignKeyViolation.

Definition insert_expense (row : expense_row) : tx unit :=
  references_profiles (exp_created_by row);;
  int4 (exp_amount row);;
  int4 (exp_cash_amount row);;
  int4 (exp_online_amount row);;
  modify (fun d => set_expenses (expenses d ++ [row]) d);;
  notify_expense row.

Definition insert_deposit (now : timestamp) (row : deposit_row) : tx unit :=
  references_profiles (dep_deposited_by row);;
  references_profiles (dep_received_by row);;
  int4 (dep_amount row);;
  modify (fun d => set_deposits (deposits d ++ [row]) d);;
  notify_deposit row;;
  update_balances_for_deposit now row.

Definition insert_sale (now : timestamp) (row : sale_row) : tx unit :=
  references_users (sale_user_id row);;
  references_profiles (sale_created_by row);;
  int4 (sale_total row);;
  modify (fun d => set_sales (sales d ++ [row]) d);;
  notify_sale row;;
  update_balances_for_sale now row.

(** *** handle_expense *)

(** The block between [begin] and [exception]. *)
Definition handle_expense_body (new_id : uuid) (now : timestamp)
    (user_id : uuid) (expense_purpose : string) (cash_amt online_amt : Z)
  : tx uuid :=
  d ← get_db;
  match head (balances d) with
  | None => raise (RaiseException "No balance record found")
  | Some row =>
      let v_balance_id := bal_id row in
      let v_shop_balance := shop_balance row in
      let v_bank_balance := bank_balance row in
      when (bool_decide (cash_amt > v_shop_balance))
        (raise (RaiseException
                  "Cash amount exceeds available shop balance"));;
      when (bool_decide (online_amt > v_bank_balance))
        (raise (RaiseException
                  "Online amount exceeds available bank balance"));;
      amount ← int4 (cash_amt + online_amt);
      insert_expense
        {| exp_id := new_id; exp_created_by := user_id;
           exp_purpose := expense_purpose; exp_amount := amount;
           exp_cash_amount := cash_amt; exp_online_amount := online_amt;
           exp_receipt_image := None; exp_timestamp := now |};;
      update_balances (Some v_balance_id)
        (fun b => set_row now b (v_shop_balance - cash_amt)
                    (v_bank_balance - online_amt));;
      mret new_id
  end.

Definition handle_expense (new_id : uuid) (now : timestamp)
    (user_id : uuid) (expense_purpose : string) (cash_amt online_amt : Z)
  : tx uuid :=
  block_exception
    (handle_expense_body new_id now user_id expense_purpose cash_amt
       online_amt)
    (fun e =>
       raise (RaiseException ("Error handling expense: " +:+ sqlerrm e))).

(** *** handle_sale *)

(** Modelled from the spec: sum of price * quantity over the items. *)
Definition items_total (items : list sale_item) : Z :=
  foldr (fun it acc => item_price it * item_quantity it + acc) 0 items.


(** Modelled from the spec: the stock precondition of [handle_sale], item
    by item against the current rows; the first item asking for more than
    its category holds names the offending category. *)
Fixpoint check_stock (cs : list category_row) (items : list sale_item)
  : option uuid :=
  match items with
  | [] => None
  | it :: rest =>
      if existsb
           (fun c => bool_decide (cat_id c = item_category_id it)
                     && (cat_stock c <? item_quantity it)) cs
      then Some (item_category_id it)
      else check_stock cs rest
  end.

(** Modelled from the spec: [handle_sale]'s stock decrement for one item
    ([update categories set stock = stock - quantity where id = ...]). *)
Definition decrement_item (it : sale_item) (c : category_row)
  : category_row :=
  if decide (cat_id c = item_category_id it) then
    {| cat_id := cat_id c; cat_price := cat_price c;
       cat_stock := cat_stock c - item_quantity it;
       cat_user_id := cat_user_id c |}
  else c.

(** Modelled from the spec: [handle_sale]'s stock decrement, for each
    item in turn. *)
Definition decrement_stock (items : list sale_item)
    (cs : list category_row) : list category_row :=
  foldl (fun acc it => decrement_item it <$> acc) cs items.

(** Modelled from the spec: the stored procedure [handle_sale] that
    [completeSale] calls by RPC is not part of the migration. The spec's
    RecordSale: preconditions every item's quantity <= that category's
    current stock (else abort with InsufficientStock naming the category)
    and cash + online = sum of price * quantity (else PaymentMismatch);
    effect insert the sale row, decrement each item's category stock and
    raise the balances by the cash and online parts. The balance increase and
    the sale notification are those of the triggers fired by the insert
    into [sales]. *)
Definition handle_sale (new_id : uuid) (now : timestamp) (p_user_id : uuid)
    (p_items : list sale_item) (p_total : Z) (p_payment : payment)
    (p_timestamp : timestamp) : tx uuid :=
  d ← get_db;
  match check_stock (categories d) p_items with
  | Some c => raise (InsufficientStock c)
  | None =>
      when (negb (pay_cash p_payment + pay_online p_payment
                    =? items_total p_items))
        (raise PaymentMismatch);;
      insert_sale now
        {| sale_id := new_id; sale_user_id := p_user_id;
           sale_created_by := p_user_id; sale_timestamp := p_timestamp;
           sale_items := p_items; sale_total := p_total;
           sale_payment := p_payment |};;
      modify (fun d => set_categories
                         (decrement_stock p_items (categories d)) d);;
      mret new_id
  end.

(** *** Requests reaching the database

    Each is one transaction. [new_id] and [now] stand for the column
    defaults [uuid_generate_v4()] and [timezone('utc', now())]. *)

Definition rpc_handle_expense (new_id : uuid) (now : timestamp)
    (user_id : uuid) (purpose : string) (cash_amt online_amt : Z)
  : db -> db * (sql_error + uuid) :=
  run_tx (int4 cash_amt;; int4 online_amt;;
          handle_expense new_id now user_id purpose cash_amt online_amt).

(** Modelled from the spec: the RPC call of [handle_sale], one
    transaction like every other request. *)
Definition rpc_handle_sale (new_id : uuid) (now : timestamp)
    (p_user_id : uuid) (p_items : list sale_item) (p_total : Z)
    (p_payment : payment) (p_timestamp : timestamp)
  : db -> db * (sql_error + uuid) :=
  run_tx (handle_sale new_id now p_user_id p_items p_total p_payment
            p_timestamp).

Definition insert_into_expenses (row : expense_row)
  : db -> db * (sql_error + unit) :=
  run_tx (insert_expense row).

Definition insert_into_deposits (now : timestamp) (row : deposit_row)
  : db -> db * (sql_error + unit) :=
  run_tx (insert_deposit now row).

Definition insert_into_sales (now : timestamp) (row : sale_row)
  : db -> db * (sql_error + unit) :=
  run_tx (insert_sale now row).

(** The state right after the migration: one balances row [0, 0]. *)
Definition initial_db (users : list uuid) (profs : list profile)
    (balance_id : uuid) (now : timestamp) : db :=
  {| auth_users := users; profiles := profs; categories := [];
     sales := []; expenses := []; deposits := [];
     balances := [ {| bal_id := balance_id; shop_balance := 0;
                      bank_balance := 0; last_updated := now |} ];
     notifications := [] |}.

(** The balances the client reads: [select shop_balance, bank_balance from
    balances] expecting a single row. *)
Definition current_balances (d : db) : option (Z * Z) :=
  (fun b => (shop_balance b, bank_balance b)) <$> head (balances d).

(** The writes to the ledger tables that the migration provides for:
    a row inserted into [sales], [expenses] or [deposits] (with the
    triggers it fires) and a call of [handle_expense]. *)
Inductive operation :=
  | SaleRow (now : timestamp) (row : sale_row)
  | ExpenseCall (new_id : uuid) (now : timestamp) (user_id : uuid)
                (purpose : string) (cash_amt online_amt : Z)
  | ExpenseRow (row : expense_row)
  | DepositRow (now : timestamp) (row : deposit_row).

Definition apply_operation (op : operation) (d : db)
  : db * (sql_error + unit) :=
  match op with
  | SaleRow now row => insert_into_sales now row d
  | ExpenseCall new_id now user purpose cash online =>
      run_tx (handle_expense new_id now user purpose cash online;; mret tt) d
  | ExpenseRow row => insert_into_expenses row d
  | DepositRow now row => insert_into_deposits now row d
  end.

(** The database after a sequence of operations that all commit. *)
Fixpoint commit_all (ops : list operation) (d : db) : option db :=
  match ops with
  | [] => Some d
  | op :: rest =>
      match apply_operation op d with
      | (d', inr _) => commit_all rest d'
      | (_, inl _) => None
      end
  end.

(** Neither balance the client reads is negative. *)
Definition balances_nonneg (d : db) : Prop :=
  forall shop bank, current_balances d = Some (shop, bank) ->
                    0 <= shop /\ 0 <= bank.

(** The operation asks no more of either balance than it holds. The
    triggers do not check this; [handle_expense] does, by itself. *)
Definition within_means (op : operation) (d : db) : Prop :=
  forall shop bank,
    current_balances d = Some (shop, bank) ->
    match op with
    | SaleRow _ row =>
        0 <= shop + pay_cash (sale_payment row)
        /\ 0 <= bank + pay_online (sale_payment row)
    | DepositRow _ row =>
        dep_amount row <= shop /\ 0 <= bank + dep_amount row
    | ExpenseCall _ _ _ _ _ _ | ExpenseRow _ => True
    end.

(** Cash in the till plus money at the bank. *)
Definition total_funds (d : db) : option Z :=
  (fun b => b.1 + b.2) <$> current_balances d.

End Sql.

(** ** The client store ([src/lib/store.ts]) *)
Module Client.

Record Category := {
  c_id : option string;
  c_price : Z;
  c_stock : Z;
  c_user_id : option string
}.

Record CreatorData := { cr_name : string; cr_designation : string }.

Record PaymentData := {
  cash : Z;
  online : Z;
  slipImage : option string
}.

Record ItemCategory := { ic_id : string; ic_price : Z; ic_stock : Z }.

Record SaleItem := { si_category : ItemCategory; si_quantity : Z }.

Record Sale := {
  s_id : string;
  s_user_id : string;
  s_created_by : string;
  s_timestamp : string;
  s_items : list SaleItem;
  s_total : Z;
  s_payment : PaymentData;
  s_creator : CreatorData
}.

Record UserProfile := {
  up_id : string;
  up_name : string;
  up_designation : string;
  up_phone : string;
  up_is_admin : bool;
  up_is_approved : bool;
  up_avatar_url : option string
}.

Record Balances := { shopBalance : Z; bankBalance : Z }.

Record Store := {
  categories : list Category;
  sales : list Sale;
  initialized : bool;
  userProfile : option UserProfile;
  balances : Balances
}.

(** The state the store is created with. *)
Definition initial_store : Store :=
  {| categories := []; sales := []; initialized := false;
     userProfile := None;
     balances := {| shopBalance := 0; bankBalance := 0 |} |}.

(** The two [localStorage] entries, by the value whose JSON they hold. *)
Record LocalStorage := {
  cached_categories : option (list Category);
  cached_balances : option Balances
}.

(** *** Remote calls *)

Inductive js_error :=
  | Error (message : string)           (* [new Error(message)] *)
  | PostgrestError (message : string)  (* the [error] of a query result *)
  | StorageError (message : string).   (* the [error] of a storage call *)

(** A settled promise. *)
Inductive settled (A : Type) :=
  | Fulfilled (a : A)
  | Rejected (e : js_error).
Arguments Fulfilled {A} a.
Arguments Rejected {A} e.

(** The [{ data, error }] object a query resolves to. *)
Record response (A : Type) := {
  data : option A;
  error : option js_error
}.
Arguments data {A} r.
Arguments error {A} r.

Inductive category_update := SetStock (stock : Z) | SetPrice (price : Z).

Record expense_insert := {
  ei_purpose : string;
  ei_amount : Z;
  ei_cash_amount : Z;
  ei_online_amount : Z;
  ei_receipt_image : option string;
  ei_created_by : string
}.

Record deposit_insert := {
  di_amount : Z;
  di_deposited_by : string;
  di_received_by : string;
  di_description : string;
  di_slip_image : option string
}.

(** What the client sends, in the order it sends it. *)
Inductive request :=
  | AuthGetUser
  | AuthGetSession
  | SubscribeStoreChanges
  | SelectCategories
  | SelectSales
  | SelectBalances
  | InsertCategory (price stock : Z) (user_id created_at : string)
  | UpdateCategory (id : string) (u : category_update)
  | DeleteCategory (id : string)
  | RpcHandleSale (p_user_id : string) (p_items : list SaleItem)
                  (p_total : Z) (p_payment : PaymentData)
                  (p_timestamp : string)
  | StorageUpload (filePath : string)
  | InsertExpense (row : expense_insert)
  | InsertDeposit (row : deposit_insert)
  | SelectExpenses
  | SelectDeposits.

(** What a store action leaves behind: the store, the cache, the requests
    it sent and whether its promise resolved or rejected. *)
Record outcome := {
  o_store : Store;
  o_storage : LocalStorage;
  o_requests : list request;
  o_result : js_error + unit
}.

(** [set({ categories })] and the like. *)
Definition set_categories (cs : list Category) (st : Store) : Store :=
  {| categories := cs; sales := sales st; initialized := initialized st;
     userProfile := userProfile st; balances := balances st |}.

Definition set_balances (b : Balances) (st : Store) : Store :=
  {| categories := categories st; sales := sales st;
     initialized := initialized st; userProfile := userProfile st;
     balances := b |}.

Definition optimisticUpdateCategories (cs : list Category) (st : Store)
  : Store := set_categories cs st.

Definition optimisticUpdateBalances (b : Balances) (st : Store) : Store :=
  set_balances b st.

(** *** fetchAllData *)

Record raw_category := { rc_id : string; rc_price : Z; rc_stock : Z }.

Record raw_payment := {
  rp_cash : option Z;
  rp_online : option Z;
  rp_slipImage : option string
}.

Record raw_creator := {
  rcr_name : option string;
  rcr_designation : option string
}.

(** A row of [sales] as it arrives; [None] is a null or missing field. *)
Record raw_sale := {
  rs_id : option string;
  rs_user_id : option string;
  rs_created_by : option string;
  rs_timestamp : option string;
  rs_items : option (list SaleItem);
  rs_total : option Z;
  rs_payment : option raw_payment;
  rs_creator : option raw_creator
}.

Record raw_balances := { rb_shop_balance : Z; rb_bank_balance : Z }.

(** [s || fallback] on a possibly missing string. *)
Definition or_string (s : option string) (fallback : string) : string :=
  match s with
  | Some x => if decide (x = "") then fallback else x
  | None => fallback
  end.

Definition processCreator (creator : option raw_creator) : CreatorData :=
  {| cr_name := or_string (creator ≫= rcr_name) "Unknown";
     cr_designation := or_string (creator ≫= rcr_designation) "Unknown" |}.

Definition process_category (cat : raw_category) : Category :=
  {| c_id := Some (rc_id cat); c_price := rc_price cat;
     c_stock := rc_stock cat; c_user_id := None |}.

Definition process_sale (now_iso : string) (sale : raw_sale) : Sale :=
  {| s_id := or_string (rs_id sale) "";
     s_user_id := or_string (rs_user_id sale) "";
     s_created_by := or_string (rs_created_by sale) "";
     s_timestamp := or_string (rs_timestamp sale) now_iso;
     s_items := default [] (rs_items sale);
     s_total := default 0 (rs_total sale);
     s_payment :=
       {| cash := default 0 (rs_payment sale ≫= rp_cash);
          online := default 0 (rs_payment sale ≫= rp_online);
          slipImage :=
            Some (or_string (rs_payment sale ≫= rp_slipImage) "") |};
     s_creator := processCreator (rs_creator sale) |}.

Record FetchEnv := {
  fe_getUser : settled (option string);
  fe_categories : settled (response (list raw_category));
  fe_sales : settled (response (list raw_sale));
  fe_balances : settled (response raw_balances);
  fe_now : string
}.

Definition fetch_requests : list request :=
  [AuthGetUser; SelectCategories; SelectSales; SelectBalances].

(** [Promise.all] over the three queries: it rejects as soon as one of them
    does (taken here in array order). *)
Definition fetchAllData (env : FetchEnv) (st : Store) (ls : LocalStorage)
  : outcome :=
  let thrown reqs e :=
    {| o_store := st; o_storage := ls; o_requests := reqs;
       o_result := inl e |} in
  match fe_getUser env with
  | Rejected e => thrown [AuthGetUser] e
  | Fulfilled None =>
      {| o_store := st; o_storage := ls; o_requests := [AuthGetUser];
         o_result := inr tt |}
  | Fulfilled (Some user) =>
      match fe_categories env, fe_sales env, fe_balances env with
      | Rejected e, _, _ => thrown fetch_requests e
      | _, Rejected e, _ => thrown fetch_requests e
      | _, _, Rejected e => thrown fetch_requests e
      | Fulfilled categoriesResponse, Fulfilled salesResponse,
        Fulfilled balancesResponse =>
          match error categoriesResponse, error salesResponse,
                error balancesResponse with
          | Some e, _, _ => thrown fetch_requests e
          | None, Some e, _ => thrown fetch_requests e
          | None, None, Some e => thrown fetch_requests e
          | None, None, None =>
              let categories :=
                default [] (fmap (M := list) process_category
                              <$> data categoriesResponse) in
              let sales :=
                default [] (fmap (M := list) (process_sale (fe_now env))
                              <$> data salesResponse) in
              let balances :=
                {| shopBalance :=
                     default 0 (rb_shop_balance <$> data balancesResponse);
                   bankBalance :=
                     default 0 (rb_bank_balance <$> data balancesResponse)
                |} in
              {| o_store :=
                   {| categories := categories; sales := sales;
                      initialized := true; userProfile := userProfile st;
                      balances := balances |};
                 o_storage :=
                   {| cached_categories := Some categories;
                      cached_balances := Some balances |};
                 o_requests := fetch_requests;
                 o_result := inr tt |}
          end
      end
  end.

Definition fetchBalances := fetchAllData.

(** *** initializeStore *)

Definition set_initialized (b : bool) (st : Store) : Store :=
  {| categories := categories st; sales := sales st; initialized := b;
     userProfile := userProfile st; balances := balances st |}.

(** [session] is what [supabase.auth.getSession()] settles to. *)
Definition initializeStore (session : settled (option string))
    (env : FetchEnv) (st : Store) (ls : LocalStorage) : outcome :=
  let st0 := set_initialized false st in
  match session with
  | Rejected e =>
      {| o_store := set_initialized true st0; o_storage := ls;
         o_requests := [AuthGetSession]; o_result := inl e |}
  | Fulfilled None =>
      {| o_store := set_initialized true st0; o_storage := ls;
         o_requests := [AuthGetSession]; o_result := inr tt |}
  | Fulfilled (Some _) =>
      let f := fetchAllData env st0 ls in
      match o_result f with
      | inl e =>
          {| o_store := set_initialized true (o_store f);
             o_storage := o_storage f;
             o_requests := AuthGetSession :: o_requests f;
             o_result := inl e |}
      | inr _ =>
          {| o_store := o_store f; o_storage := o_storage f;
             o_requests :=
               AuthGetSession :: o_requests f ++ [SubscribeStoreChanges];
             o_result := inr tt |}
      end
  end.

(** *** Category actions *)

(** [categories[index]] for a JavaScript number that is an integer. *)
Definition at_index {A} (l : list A) (index : Z) : option A :=
  if decide (0 <= index) then l !! Z.to_nat index else None.

(** [category?.id] when it is truthy (present and not the empty string). *)
Definition truthy_id (category : option Category) : option string :=
  match category with
  | Some c =>
      match c_id c with
      | Some i => if decide (i = "") then None else Some i
      | None => None
      end
  | None => None
  end.

Definition with_stock (c : Category) (stock : Z) : Category :=
  {| c_id := c_id c; c_price := c_price c; c_stock := stock;
     c_user_id := c_user_id c |}.

Definition with_price (c : Category) (price : Z) : Category :=
  {| c_id := c_id c; c_price := price; c_stock := c_stock c;
     c_user_id := c_user_id c |}.

(** [Array.prototype.sort] with [(a, b) => a.price - b.price]: a stable
    sort by ascending price. *)
Fixpoint insert_by_price (x : Category) (l : list Category)
  : list Category :=
  match l with
  | [] => [x]
  | y :: l' =>
      if decide (c_price x <= c_price y) then x :: y :: l'
      else y :: insert_by_price x l'
  end.

Definition sort_by_price (l : list Category) : list Category :=
  foldr insert_by_price [] l.

(** The [try { await remote; if (error) { revert; throw } } catch { revert;
    throw }] tail shared by updateStock, updatePrice and deleteCategory:
    [categories] is the array read at the start of the action. *)
Definition commit_or_revert (categories : list Category)
    (remote : settled (response unit)) (req : request)
    (st : Store) (ls : LocalStorage) : outcome :=
  match remote with
  | Fulfilled r =>
      match error r with
      | Some e =>
          {| o_store :=
               optimisticUpdateCategories categories
                 (optimisticUpdateCategories categories st);
             o_storage := ls; o_requests := [req]; o_result := inl e |}
      | None =>
          {| o_store := st; o_storage := ls; o_requests := [req];
             o_result := inr tt |}
      end
  | Rejected e =>
      {| o_store := optimisticUpdateCategories categories st;
         o_storage := ls; o_requests := [req]; o_result := inl e |}
  end.

(** The remote call failed: its promise rejected, or it resolved with an
    [error]. *)
Definition remote_failure {A} (remote : settled (response A))
  : option js_error :=
  match remote with
  | Rejected e => Some e
  | Fulfilled r => error r
  end.

Definition unchanged (st : Store) (ls : LocalStorage) : outcome :=
  {| o_store := st; o_storage := ls; o_requests := [];
     o_result := inr tt |}.

Definition updateStock (index : Z) (stock : Z)
    (remote : settled (response unit)) (st : Store) (ls : LocalStorage)
  : outcome :=
  let categories := categories st in
  let category := at_index categories index in
  match category, truthy_id category with
  | Some category, Some id =>
      let updatedCategories :=
        <[Z.to_nat index := with_stock category (Z.max 0 stock)]>
          categories in
      commit_or_revert categories remote
        (UpdateCategory id (SetStock (Z.max 0 stock)))
        (optimisticUpdateCategories updatedCategories st) ls
  | _, _ => unchanged st ls
  end.

Definition updatePrice (index : Z) (newPrice : Z)
    (remote : settled (response unit)) (st : Store) (ls : LocalStorage)
  : outcome :=
  let categories := categories st in
  let category := at_index categories index in
  match category, truthy_id category with
  | Some category, Some id =>
      let updatedCategories :=
        <[Z.to_nat index := with_price category newPrice]> categories in
      commit_or_revert categories remote
        (UpdateCategory id (SetPrice newPrice))
        (optimisticUpdateCategories updatedCategories st) ls
  | _, _ => unchanged st ls
  end.

Definition deleteCategory (index : Z)
    (remote : settled (response unit)) (st : Store) (ls : LocalStorage)
  : outcome :=
  let categories := categories st in
  let category := at_index categories index in
  match category, truthy_id category with
  | Some category, Some id =>
      let updatedCategories := delete (Z.to_nat index) categories in
      commit_or_revert categories remote (DeleteCategory id)
        (optimisticUpdateCategories updatedCategories st) ls
  | _, _ => unchanged st ls
  end.

Record AddCategoryEnv := {
  ac_getUser : settled (option string);
  ac_randomUUID : string;
  ac_now : string;
  ac_insert : settled (response unit);
  ac_fetch : FetchEnv
}.

Definition addCategory (price : Z) (env : AddCategoryEnv)
    (st : Store) (ls : LocalStorage) : outcome :=
  match ac_getUser env with
  | Rejected e =>
      {| o_store := st; o_storage := ls; o_requests := [AuthGetUser];
         o_result := inl e |}
  | Fulfilled None =>
      {| o_store := st; o_storage := ls; o_requests := [AuthGetUser];
         o_result := inr tt |}
  | Fulfilled (Some user) =>
      let newCategory :=
        {| c_id := Some (ac_randomUUID env); c_price := price;
           c_stock := 0; c_user_id := Some user |} in
      let updatedCategories :=
        sort_by_price (categories st ++ [newCategory]) in
      let st1 := optimisticUpdateCategories updatedCategories st in
      let reqs := [AuthGetUser; InsertCategory price 0 user (ac_now env)] in
      match ac_insert env with
      | Rejected e =>
          {| o_store := st1; o_storage := ls; o_requests := reqs;
             o_result := inl e |}
      | Fulfilled r =>
          match error r with
          | Some e =>
              {| o_store :=
                   optimisticUpdateCategories
                     (filter (fun c => c_id c ≠ c_id newCategory)
                        (categories st1)) st1;
                 o_storage := ls; o_requests := reqs; o_result := inl e |}
          | None =>
              let f := fetchAllData (ac_fetch env) st1 ls in
              {| o_store := o_store f; o_storage := o_storage f;
                 o_requests := reqs ++ o_requests f;
                 o_result := o_result f |}
          end
      end
  end.

(** The list is in ascending price order. *)
Definition price_sorted (l : list Category) : Prop :=
  StronglySorted (fun a b => c_price a <= c_price b) l.

(** *** completeSale *)

Record CompleteSaleEnv := {
  cs_getUser : settled (option string);
  cs_now : string;
  cs_rpc : settled (response unit);
  cs_fetch : FetchEnv
}.

Definition completeSale (sale : Sale) (env : CompleteSaleEnv)
    (st : Store) (ls : LocalStorage) : outcome :=
  match cs_getUser env with
  | Rejected e =>
      {| o_store := st; o_storage := ls; o_requests := [AuthGetUser];
         o_result := inl e |}
  | Fulfilled None =>
      {| o_store := st; o_storage := ls; o_requests := [AuthGetUser];
         o_result := inl (Error "No authenticated user") |}
  | Fulfilled (Some user) =>
      let reqs :=
        [AuthGetUser;
         RpcHandleSale user (s_items sale) (s_total sale) (s_payment sale)
           (cs_now env)] in
      match cs_rpc env with
      | Rejected e =>
          {| o_store := st; o_storage := ls; o_requests := reqs;
             o_result := inl e |}
      | Fulfilled r =>
          match error r with
          | Some saleError =>
              {| o_store := st; o_storage := ls; o_requests := reqs;
                 o_result := inl saleError |}
          | None =>
              let f := fetchAllData (cs_fetch env) st ls in
              {| o_store := o_store f; o_storage := o_storage f;
                 o_requests := reqs ++ o_requests f;
                 o_result := o_result f |}
          end
      end
  end.

End Client.

(** ** The submit handlers of the SalesMode, Deposits and Expenses
    components *)
Module Components.
Import Client.

(** What a handler leaves behind: store, cache, its component's state, the
    requests sent and the texts shown with [alert] or [toast]. *)
Record handled (V : Type) := {
  h_store : Store;
  h_storage : LocalStorage;
  h_view : V;
  h_requests : list request;
  h_shown : list string
}.
Arguments h_store {V} h.
Arguments h_storage {V} h.
Arguments h_view {V} h.
Arguments h_requests {V} h.
Arguments h_shown {V} h.

(** The outcome of [supabase.storage.from('avatars').upload(...)], with the
    [fetch] of the data URL before it. *)
Definition upload_failed (u : settled (response unit)) : bool :=
  match u with
  | Fulfilled r => bool_decide (is_Some (error r))
  | Rejected _ => true
  end.

Definition message_of (e : js_error) : string :=
  match e with
  | Error m => m
  | PostgrestError m => m
  | StorageError m => m
  end.

(** *** SalesMode

    A number input's text is [None] when empty, else the integer typed. *)
Record SalesMode := {
  quantities : gmap Z Z;
  localQuantities : gmap Z Z;
  updatingPrice : option Z;
  total : Z;
  showPaymentDialog : bool;
  cashAmount : option Z;
  onlineAmount : option Z;
  paymentSlipImage : option string;
  optimizedSlipImage : option string;
  isProcessingSale : bool
}.

Definition set_isProcessingSale (b : bool) (v : SalesMode) : SalesMode :=
  {| quantities := quantities v; localQuantities := localQuantities v;
     updatingPrice := updatingPrice v; total := total v;
     showPaymentDialog := showPaymentDialog v;
     cashAmount := cashAmount v; onlineAmount := onlineAmount v;
     paymentSlipImage := paymentSlipImage v;
     optimizedSlipImage := optimizedSlipImage v; isProcessingSale := b |}.

(** [localQuantities[price] || 0] *)
Definition quantity_of (localQuantities : gmap Z Z) (price : Z) : Z :=
  default 0 (localQuantities !! price).

(** [updateQuantity]: both quantity states get the clamped value. *)
Definition updateQuantity (price quantity : Z) (categories : list Category)
    (v : SalesMode) : SalesMode :=
  if decide (updatingPrice v = Some price) then v
  else
    let maxStock :=
      default 0 (c_stock <$> head (filter (fun c => c_price c = price)
                                     categories)) in
    let newQuantity := Z.max 0 (Z.min quantity maxStock) in
    let updated := <[price := newQuantity]> (localQuantities v) in
    {| quantities := updated; localQuantities := updated;
       updatingPrice := None; total := total v;
       showPaymentDialog := showPaymentDialog v;
       cashAmount := cashAmount v; onlineAmount := onlineAmount v;
       paymentSlipImage := paymentSlipImage v;
       optimizedSlipImage := optimizedSlipImage v;
       isProcessingSale := isProcessingSale v |}.

(** The effect that keeps [total] in step with the quantities. *)
Definition newTotal (categories : list Category)
    (localQuantities : gmap Z Z) : Z :=
  foldl (fun sum category =>
           sum + quantity_of localQuantities (c_price category)
                 * c_price category) 0 categories.

(** The item built for a category by the [.map] of [saleItems]. *)
Definition sale_item (localQuantities : gmap Z Z) (category : Category)
  : SaleItem :=
  {| si_category :=
       {| ic_id := default "" (c_id category);
          ic_price := c_price category; ic_stock := c_stock category |};
     si_quantity := quantity_of localQuantities (c_price category) |}.

Definition saleItems (categories : list Category)
    (localQuantities : gmap Z Z) : list SaleItem :=
  sale_item localQuantities
    <$> filter (fun category =>
                  0 < quantity_of localQuantities (c_price category))
          categories.

(** The sum the total effect computes, read from the right. *)
Definition price_times_quantity (lq : gmap Z Z) (cs : list Category) : Z :=
  foldr (fun c acc => quantity_of lq (c_price c) * c_price c + acc) 0 cs.

Definition items_total (items : list SaleItem) : Z :=
  foldr (fun it acc => ic_price (si_category it) * si_quantity it + acc)
    0 items.

Record SaleEnv := {
  se_upload : settled (response unit);
  se_filePath : string;
  se_publicUrl : string;
  se_now : string;
  se_complete : CompleteSaleEnv
}.

Definition payment_must_match : string :=
  "Payment amount must match the total amount".

(** [alert(error instanceof Error ? error.message : 'Error completing
    sale')] *)
Definition sale_alert (e : js_error) : string :=
  match e with
  | Error m => m
  | _ => "Error completing sale"
  end.

Definition handleCompleteSale (env : SaleEnv) (v : SalesMode)
    (st : Store) (ls : LocalStorage) : handled SalesMode :=
  if isProcessingSale v then
    {| h_store := st; h_storage := ls; h_view := v; h_requests := [];
       h_shown := [] |}
  else
    let categories := categories st in
    let totalPayment := default 0 (cashAmount v)
                        + default 0 (onlineAmount v) in
    if decide (totalPayment ≠ total v) then
      {| h_store := optimisticUpdateCategories categories st;
         h_storage := ls; h_view := set_isProcessingSale false v;
         h_requests := []; h_shown := [payment_must_match] |}
    else
      let proceed (uploads : list request) (slipImageUrl : option string) :=
        let items := saleItems categories (localQuantities v) in
        let updatedCategories :=
          (fun category =>
             with_stock category
               (c_stock category
                - quantity_of (localQuantities v) (c_price category)))
            <$> categories in
        let st1 := optimisticUpdateCategories updatedCategories st in
        let sale :=
          {| s_id := ""; s_user_id := ""; s_created_by := "";
             s_timestamp := se_now env; s_items := items;
             s_total := total v;
             s_payment := {| cash := default 0 (cashAmount v);
                             online := default 0 (onlineAmount v);
                             slipImage := slipImageUrl |};
             s_creator := {| cr_name := ""; cr_designation := "" |} |} in
        let r := completeSale sale (se_complete env) st1 ls in
        match o_result r with
        | inr _ =>
            {| h_store := o_store r; h_storage := o_storage r;
               h_view :=
                 {| quantities := ∅; localQuantities := ∅;
                    updatingPrice := updatingPrice v; total := 0;
                    showPaymentDialog := false; cashAmount := None;
                    onlineAmount := None; paymentSlipImage := None;
                    optimizedSlipImage := None;
                    isProcessingSale := false |};
               h_requests := uploads ++ o_requests r; h_shown := [] |}
        | inl e =>
            {| h_store := optimisticUpdateCategories categories (o_store r);
               h_storage := o_storage r;
               h_view := set_isProcessingSale false v;
               h_requests := uploads ++ o_requests r;
               h_shown := [sale_alert e] |}
        end in
      match optimizedSlipImage v with
      | None => proceed [] None
      | Some _ =>
          if upload_failed (se_upload env) then
            {| h_store := st; h_storage := ls;
               h_view := set_isProcessingSale false v;
               h_requests := [StorageUpload (se_filePath env)];
               h_shown := ["Failed to upload image. Please try again."] |}
          else
            proceed [StorageUpload (se_filePath env)]
              (Some (se_publicUrl env))
      end.

(** *** Deposits *)

Record Deposits := {
  dp_amount : option Z;
  dp_selectedUser : string;
  dp_paymentSlipImage : option string;
  dp_optimizedSlipImage : option string;
  dp_isLoading : bool;
  dp_error : option string
}.

Definition dp_finish (submitLoading : bool) (err : option string)
    (v : Deposits) : Deposits :=
  {| dp_amount := dp_amount v; dp_selectedUser := dp_selectedUser v;
     dp_paymentSlipImage := dp_paymentSlipImage v;
     dp_optimizedSlipImage := dp_optimizedSlipImage v;
     dp_isLoading := submitLoading; dp_error := err |}.

Definition dp_reset (submitLoading : bool) (err : option string)
  : Deposits :=
  {| dp_amount := None; dp_selectedUser := "";
     dp_paymentSlipImage := None; dp_optimizedSlipImage := None;
     dp_isLoading := submitLoading; dp_error := err |}.

Record DepositEnv := {
  de_getUser : settled (option string);
  de_upload : settled (response unit);
  de_filePath : string;
  de_publicUrl : string;
  de_insert : settled (response unit);
  de_fetchDeposits : settled unit;
  de_fetch : FetchEnv
}.

Definition exceeds_balance_message (shop : Z) : string :=
  "Deposit amount cannot exceed available balance of ₹" +:+ pretty shop.

Definition failed_to_create_deposit : string :=
  "Failed to create deposit. Please try again.".

(** [error instanceof Error ? error.message : 'Failed to create deposit.
    Please try again.'] *)
Definition deposit_error_text (e : js_error) : string :=
  match e with
  | Error m => m
  | _ => failed_to_create_deposit
  end.

(** [handleSubmit] of the Deposits component. [dp_amount] is what
    [parseInt(amount)] gives, [None] for NaN. *)
Definition deposit_handleSubmit (env : DepositEnv) (v : Deposits)
    (st : Store) (ls : LocalStorage) : handled Deposits :=
  let submitLoading := dp_isLoading v in
  let stop (reqs : list request) (msg : string) :=
    {| h_store := st; h_storage := ls;
       h_view := dp_finish submitLoading (Some msg) v;
       h_requests := reqs; h_shown := [] |} in
  match dp_amount v with
  | None => stop [] "Please enter a valid amount"
  | Some depositAmount =>
      if decide (depositAmount <= 0) then
        stop [] "Please enter a valid amount"
      else if decide (depositAmount > shopBalance (balances st)) then
        stop [] (exceeds_balance_message (shopBalance (balances st)))
      else if decide (dp_selectedUser v = "") then
        stop [] "Please select a user"
      else
        match de_getUser env with
        | Rejected e => stop [AuthGetUser] (deposit_error_text e)
        | Fulfilled None =>
            stop [AuthGetUser] "You must be logged in to create a deposit"
        | Fulfilled (Some user) =>
            let insert (uploads : list request)
                (slipImageUrl : option string) :=
              let row :=
                {| di_amount := depositAmount;
                   di_deposited_by := dp_selectedUser v;
                   di_received_by := user;
                   di_description := "Manual deposit";
                   di_slip_image := slipImageUrl |} in
              let reqs := [AuthGetUser] ++ uploads ++ [InsertDeposit row] in
              match de_insert env with
              | Rejected e => stop reqs (deposit_error_text e)
              | Fulfilled r =>
                  match error r with
                  | Some depositError => stop reqs failed_to_create_deposit
                  | None =>
                      let f := fetchBalances (de_fetch env) st ls in
                      let reqs' := reqs ++ [SelectDeposits]
                                        ++ o_requests f in
                      match de_fetchDeposits env, o_result f with
                      | Fulfilled _, inr _ =>
                          {| h_store := o_store f;
                             h_storage := o_storage f;
                             h_view := dp_reset submitLoading None;
                             h_requests := reqs';
                             h_shown := ["Deposit created successfully"] |}
                      | Rejected e, _ | _, inl e =>
                          {| h_store := o_store f;
                             h_storage := o_storage f;
                             h_view :=
                               dp_reset submitLoading
                                 (Some (deposit_error_text e));
                             h_requests := reqs'; h_shown := [] |}
                      end
                  end
              end in
            match dp_optimizedSlipImage v with
            | None => insert [] None
            | Some _ =>
                if upload_failed (de_upload env) then
                  stop [AuthGetUser; StorageUpload (de_filePath env)]
                    "Failed to upload image. Please try again."
                else
                  insert [StorageUpload (de_filePath env)]
                    (Some (de_publicUrl env))
            end
        end
  end.

(** *** Expenses *)

Record Expenses := {
  ex_purpose : string;
  ex_amount : option Z;
  ex_cashAmount : option Z;
  ex_onlineAmount : option Z;
  ex_receiptImage : option string;
  ex_optimizedReceiptImage : option string;
  ex_isLoading : bool;
  ex_error : option string
}.

Definition ex_finish (err : option string) (v : Expenses) : Expenses :=
  {| ex_purpose := ex_purpose v; ex_amount := ex_amount v;
     ex_cashAmount := ex_cashAmount v; ex_onlineAmount := ex_onlineAmount v;
     ex_receiptImage := ex_receiptImage v;
     ex_optimizedReceiptImage := ex_optimizedReceiptImage v;
     ex_isLoading := false; ex_error := err |}.

Definition ex_reset (err : option string) : Expenses :=
  {| ex_purpose := ""; ex_amount := None; ex_cashAmount := None;
     ex_onlineAmount := None; ex_receiptImage := None;
     ex_optimizedReceiptImage := None; ex_isLoading := false;
     ex_error := err |}.

Record ExpenseEnv := {
  ee_upload : settled (response unit);
  ee_filePath : string;
  ee_publicUrl : string;
  ee_insert : settled (response unit);
  ee_fetchExpenses : settled unit;
  ee_fetch : FetchEnv
}.

(** [error.message || "Failed to submit expense"] *)
Definition expense_error_text (e : js_error) : string :=
  if decide (message_of e = "") then "Failed to submit expense"
  else message_of e.

(** What [Number(text)] gives, as far as a comparison with an integer can
    tell: not a number, an infinity, an integer, or a fraction lying
    strictly between [floor] and [floor + 1] ([0.5] for the text [5e-1]). *)
Inductive js_number :=
  | NaN
  | Infinity (negative : bool)
  | Integer (z : Z)
  | Fraction (floor : Z).

(** [x > b] for an integer [b]; false for [NaN]. *)
Definition exceeds (x : js_number) (b : Z) : bool :=
  match x with
  | NaN => false
  | Infinity negative => negb negative
  | Integer z => bool_decide (z > b)
  | Fraction floor => bool_decide (floor >= b)
  end.

(** The [disabled] attribute of the Create Expense button. The sum test
    reads the fields with [parseInt], as handleSubmit does ([ex_amount],
    [ex_cashAmount], [ex_onlineAmount]); the two balance tests read them
    with [Number]: [cashNumber] is [Number(cashAmount)] and [onlineNumber]
    is [Number(onlineAmount)] ([Integer 0] for an empty field). *)
Definition create_expense_disabled (v : Expenses)
    (cashNumber onlineNumber : js_number) (st : Store) : bool :=
  let isOwner :=
    bool_decide (up_designation <$> userProfile st = Some "Owner") in
  ex_isLoading v
  || bool_decide (ex_purpose v = "")
  || bool_decide (ex_amount v = None)
  || bool_decide (Some (default 0 (ex_cashAmount v)
                        + default 0 (ex_onlineAmount v)) ≠ ex_amount v)
  || exceeds cashNumber (shopBalance (balances st))
  || (isOwner && exceeds onlineNumber (bankBalance (balances st))).

(** [handleSubmit] of the Expenses component. *)
Definition expense_handleSubmit (env : ExpenseEnv) (v : Expenses)
    (st : Store) (ls : LocalStorage) : handled Expenses :=
  let idle :=
    {| h_store := st; h_storage := ls; h_view := v; h_requests := [];
       h_shown := [] |} in
  let stop (reqs : list request) (msg : string) :=
    {| h_store := st; h_storage := ls; h_view := ex_finish (Some msg) v;
       h_requests := reqs; h_shown := [] |} in
  match ex_amount v, userProfile st with
  | Some parsedAmount, Some userProfile =>
      if decide (ex_purpose v = "") then idle
      else
        let parsedCashAmount := default 0 (ex_cashAmount v) in
        let parsedOnlineAmount := default 0 (ex_onlineAmount v) in
        if decide (parsedCashAmount + parsedOnlineAmount ≠ parsedAmount)
        then stop [] "Cash amount + Online amount must equal total amount"
        else
          let insert (uploads : list request)
              (receiptImageUrl : option string) :=
            let row :=
              {| ei_purpose := ex_purpose v; ei_amount := parsedAmount;
                 ei_cash_amount := parsedCashAmount;
                 ei_online_amount := parsedOnlineAmount;
                 ei_receipt_image := receiptImageUrl;
                 ei_created_by := up_id userProfile |} in
            let reqs := uploads ++ [InsertExpense row] in
            match ee_insert env with
            | Rejected e => stop reqs (expense_error_text e)
            | Fulfilled r =>
                match error r with
                | Some expenseError =>
                    stop reqs (expense_error_text expenseError)
                | None =>
                    match ee_fetchExpenses env with
                    | Rejected e =>
                        {| h_store := st; h_storage := ls;
                           h_view := ex_reset (Some (expense_error_text e));
                           h_requests := reqs ++ [SelectExpenses];
                           h_shown := [] |}
                    | Fulfilled _ =>
                        let f := fetchBalances (ee_fetch env) st ls in
                        {| h_store := o_store f; h_storage := o_storage f;
                           h_view :=
                             ex_reset
                               match o_result f with
                               | inl e => Some (expense_error_text e)
                               | inr _ => None
                               end;
                           h_requests := reqs ++ [SelectExpenses]
                                              ++ o_requests f;
                           h_shown := [] |}
                    end
                end
            end in
          match ex_optimizedReceiptImage v with
          | None => insert [] None
          | Some _ =>
              if upload_failed (ee_upload env) then
                stop [StorageUpload (ee_filePath env)]
                  "Failed to upload image. Please try again."
              else
                insert [StorageUpload (ee_filePath env)]
                  (Some (ee_publicUrl env))
          end
  | _, _ => idle
  end.

End Components.

(** ** Client requests answered by the database *)
Module System.

Definition expense_row_of (new_id now : string) (r : Client.expense_insert)
  : Sql.expense_row :=
  {| Sql.exp_id := new_id;
     Sql.exp_created_by := Client.ei_created_by r;
     Sql.exp_purpose := Client.ei_purpose r;
     Sql.exp_amount := Client.ei_amount r;
     Sql.exp_cash_amount := Client.ei_cash_amount r;
     Sql.exp_online_amount := Client.ei_online_amount r;
     Sql.exp_receipt_image := Client.ei_receipt_image r;
     Sql.exp_timestamp := now |}.

Definition deposit_row_of (new_id now : string) (r : Client.deposit_insert)
  : Sql.deposit_row :=
  {| Sql.dep_id := new_id;
     Sql.dep_deposited_by := Client.di_deposited_by r;
     Sql.dep_received_by := Client.di_received_by r;
     Sql.dep_amount := Client.di_amount r;
     Sql.dep_description := Some (Client.di_description r);
     Sql.dep_slip_image := Client.di_slip_image r;
     Sql.dep_timestamp := now |}.

Definition sale_item_of (it : Client.SaleItem) : Sql.sale_item :=
  {| Sql.item_category_id := Client.ic_id (Client.si_category it);
     Sql.item_price := Client.ic_price (Client.si_category it);
     Sql.item_stock := Client.ic_stock (Client.si_category it);
     Sql.item_quantity := Client.si_quantity it |}.

Definition payment_of (p : Client.PaymentData) : Sql.payment :=
  {| Sql.pay_cash := Client.cash p; Sql.pay_online := Client.online p;
     Sql.pay_slipImage := Client.slipImage p |}.

Definition discard {A} (r : Sql.db * (Sql.sql_error + A))
  : Sql.db * (Sql.sql_error + unit) :=
  (r.1, match r.2 with inl e => inl e | inr _ => inr tt end).

(** The ledger writes among the client's requests; [new_id] and [now] are
    the defaults the database fills in. Other requests leave the ledger
    tables as they are. *)
Definition serve (new_id now : string) (r : Client.request) (d : Sql.db)
  : Sql.db * (Sql.sql_error + unit) :=
  match r with
  | Client.InsertExpense row =>
      Sql.insert_into_expenses (expense_row_of new_id now row) d
  | Client.InsertDeposit row =>
      Sql.insert_into_deposits now (deposit_row_of new_id now row) d
  | Client.RpcHandleSale u items total pay ts =>
      discard (Sql.rpc_handle_sale new_id now u (sale_item_of <$> items)
                 total (payment_of pay) ts d)
  | _ => (d, inr tt)
  end.

(** What a write resolves to on the client: the database's error comes
    back as the [error] of the response. *)
Definition answer (r : Sql.db * (Sql.sql_error + unit))
  : Client.settled (Client.response unit) :=
  match r.2 with
  | inl e =>
      Client.Fulfilled
        {| Client.data := None;
           Client.error := Some (Client.PostgrestError (Sql.sqlerrm e)) |}
  | inr _ =>
      Client.Fulfilled {| Client.data := Some tt; Client.error := None |}
  end.

(** What [select shop_balance, bank_balance from balances] with
    [.single()] resolves to. *)
Definition select_balances (d : Sql.db)
  : Client.response Client.raw_balances :=
  match Sql.balances d with
  | [b] =>
      {| Client.data :=
           Some {| Client.rb_shop_balance := Sql.shop_balance b;
                   Client.rb_bank_balance := Sql.bank_balance b |};
         Client.error := None |}
  | _ =>
      {| Client.data := None;
         Client.error :=
           Some (Client.PostgrestError
                   "JSON object requested, multiple (or no) rows returned")
      |}
  end.

End System.

(** ** Sample states *)
Module Examples.

Definition alice : Sql.profile :=
  {| Sql.prof_id := "alice"; Sql.prof_name := "Alice";
     Sql.prof_designation := "Owner"; Sql.prof_is_admin := true;
     Sql.prof_is_approved := true |}.

Definition bob : Sql.profile :=
  {| Sql.prof_id := "bob"; Sql.prof_name := "Bob";
     Sql.prof_designation := "Store Manager"; Sql.prof_is_admin := false;
     Sql.prof_is_approved := true |}.

Definition carol : Sql.profile :=
  {| Sql.prof_id := "carol"; Sql.prof_name := "Carol";
     Sql.prof_designation := "Store Manager"; Sql.prof_is_admin := false;
     Sql.prof_is_approved := false |}.

Definition dave : Sql.profile :=
  {| Sql.prof_id := "dave"; Sql.prof_name := "Dave";
     Sql.prof_designation := "Owner"; Sql.prof_is_admin := false;
     Sql.prof_is_approved := true |}.

Definition till : Sql.balance_row :=
  {| Sql.bal_id := "b1"; Sql.shop_balance := 100; Sql.bank_balance := 40;
     Sql.last_updated := "t0" |}.

(** A shop with 100 in the till, 40 at the bank and two price tiers. *)
Definition shop : Sql.db :=
  {| Sql.auth_users := ["alice"; "bob"; "carol"; "dave"];
     Sql.profiles := [alice; bob; carol; dave];
     Sql.categories :=
       [ {| Sql.cat_id := "c49"; Sql.cat_price := 49; Sql.cat_stock := 3;
            Sql.cat_user_id := "alice" |};
         {| Sql.cat_id := "c149"; Sql.cat_price := 149; Sql.cat_stock := 5;
            Sql.cat_user_id := "alice" |} ];
     Sql.sales := []; Sql.expenses := []; Sql.deposits := [];
     Sql.balances := [till]; Sql.notifications := [] |}.

Definition two_of_149 : Sql.sale_item :=
  {| Sql.item_category_id := "c149"; Sql.item_price := 149;
     Sql.item_stock := 5; Sql.item_quantity := 2 |}.


Definition paid_298 : Sql.payment :=
  {| Sql.pay_cash := 200; Sql.pay_online := 98; Sql.pay_slipImage := None |}.

Definition tea_by_bob : Sql.expense_row :=
  {| Sql.exp_id := "e1"; Sql.exp_created_by := "bob";
     Sql.exp_purpose := "tea"; Sql.exp_amount := 50;
     Sql.exp_cash_amount := 50; Sql.exp_online_amount := 0;
     Sql.exp_receipt_image := None; Sql.exp_timestamp := "t1" |}.

Definition rent_by_alice : Sql.expense_row :=
  {| Sql.exp_id := "e2"; Sql.exp_created_by := "alice";
     Sql.exp_purpose := "rent"; Sql.exp_amount := 30;
     Sql.exp_cash_amount := 0; Sql.exp_online_amount := 30;
     Sql.exp_receipt_image := None; Sql.exp_timestamp := "t1" |}.

Definition banked_60 : Sql.deposit_row :=
  {| Sql.dep_id := "d1"; Sql.dep_deposited_by := "bob";
     Sql.dep_received_by := "alice"; Sql.dep_amount := 60;
     Sql.dep_description := Some "Manual deposit";
     Sql.dep_slip_image := None; Sql.dep_timestamp := "t1" |}.

Definition ok : Client.settled (Client.response unit) :=
  Client.Fulfilled {| Client.data := Some tt; Client.error := None |}.

Definition refused : Client.settled (Client.response unit) :=
  Client.Fulfilled
    {| Client.data := None;
       Client.error := Some (Client.PostgrestError "permission denied") |}.

Definition offline {A} : Client.settled A :=
  Client.Rejected (Client.Error "Failed to fetch").

Definition tier (id : string) (price stock : Z) : Client.Category :=
  {| Client.c_id := Some id; Client.c_price := price;
     Client.c_stock := stock; Client.c_user_id := None |}.

Definition no_cache : Client.LocalStorage :=
  {| Client.cached_categories := None; Client.cached_balances := None |}.

Definition bob_profile : Client.UserProfile :=
  {| Client.up_id := "bob"; Client.up_name := "Bob";
     Client.up_designation := "Store Manager";
     Client.up_phone := "9000000001"; Client.up_is_admin := false;
     Client.up_is_approved := true; Client.up_avatar_url := None |}.

(** Bob's store after a fetch of [shop]. *)
Definition mirror : Client.Store :=
  {| Client.categories := [tier "c49" 49 3; tier "c149" 149 5];
     Client.sales := []; Client.initialized := true;
     Client.userProfile := Some bob_profile;
     Client.balances := {| Client.shopBalance := 100;
                           Client.bankBalance := 40 |} |}.

(** A store whose list is out of price order, as updatePrice leaves it
    until the next fetch. *)
Definition repriced : Client.Store :=
  {| Client.categories := [tier "c49" 300 3; tier "c149" 149 5];
     Client.sales := []; Client.initialized := true;
     Client.userProfile := Some bob_profile;
     Client.balances := {| Client.shopBalance := 100;
                           Client.bankBalance := 40 |} |}.

(** A store holding a category that has no id. *)
Definition unsaved : Client.Store :=
  {| Client.categories :=
       [ {| Client.c_id := None; Client.c_price := 10; Client.c_stock := 5;
            Client.c_user_id := None |} ];
     Client.sales := []; Client.initialized := true;
     Client.userProfile := Some bob_profile;
     Client.balances := {| Client.shopBalance := 0;
                           Client.bankBalance := 0 |} |}.

(** The answers of a fetch against database [d], all three succeeding. *)
Definition fetch_of (d : Sql.db) : Client.FetchEnv :=
  {| Client.fe_getUser := Client.Fulfilled (Some "bob");
     Client.fe_categories :=
       Client.Fulfilled
         {| Client.data :=
              Some ((fun c => {| Client.rc_id := Sql.cat_id c;
                                 Client.rc_price := Sql.cat_price c;
                                 Client.rc_stock := Sql.cat_stock c |})
                      <$> Sql.categories d);
            Client.error := None |};
     Client.fe_sales :=
       Client.Fulfilled {| Client.data := Some []; Client.error := None |};
     Client.fe_balances := Client.Fulfilled (System.select_balances d);
     Client.fe_now := "t9" |}.

(** A fetch whose sales query fails. *)
Definition fetch_sales_down (d : Sql.db) : Client.FetchEnv :=
  {| Client.fe_getUser := Client.Fulfilled (Some "bob");
     Client.fe_categories := Client.fe_categories (fetch_of d);
     Client.fe_sales := offline;
     Client.fe_balances := Client.fe_balances (fetch_of d);
     Client.fe_now := "t9" |}.

Definition add_refused : Client.AddCategoryEnv :=
  {| Client.ac_getUser := Client.Fulfilled (Some "bob");
     Client.ac_randomUUID := "new"; Client.ac_now := "t9";
     Client.ac_insert := refused; Client.ac_fetch := fetch_of shop |}.

Definition sale_env : Components.SaleEnv :=
  {| Components.se_upload := ok; Components.se_filePath := "sales/sale.jpg";
     Components.se_publicUrl := "https://slips/sale.jpg";
     Components.se_now := "t9";
     Components.se_complete :=
       {| Client.cs_getUser := Client.Fulfilled (Some "bob");
          Client.cs_now := "t9"; Client.cs_rpc := ok;
          Client.cs_fetch := fetch_of shop |} |}.

(** Two items of 149 chosen, 200 cash and 98 online entered. *)
Definition basket (cash online : option Z) : Components.SalesMode :=
  {| Components.quantities := {[ 149 := 2 ]};
     Components.localQuantities := {[ 149 := 2 ]};
     Components.updatingPrice := None; Components.total := 298;
     Components.showPaymentDialog := true;
     Components.cashAmount := cash; Components.onlineAmount := online;
     Components.paymentSlipImage := None;
     Components.optimizedSlipImage := None;
     Components.isProcessingSale := false |}.

(** A store that still shows five items of 49 when [shop] holds three. *)
Definition five_left : Client.Store :=
  {| Client.categories := [tier "c49" 49 5; tier "c149" 149 5];
     Client.sales := []; Client.initialized := true;
     Client.userProfile := Some bob_profile;
     Client.balances := {| Client.shopBalance := 100;
                           Client.bankBalance := 40 |} |}.

(** Four items of 49 chosen and paid in cash. *)
Definition four_chosen : Components.SalesMode :=
  {| Components.quantities := {[ 49 := 4 ]};
     Components.localQuantities := {[ 49 := 4 ]};
     Components.updatingPrice := None; Components.total := 196;
     Components.showPaymentDialog := true;
     Components.cashAmount := Some 196; Components.onlineAmount := None;
     Components.paymentSlipImage := None;
     Components.optimizedSlipImage := None;
     Components.isProcessingSale := false |}.

Definition sale_of_four : Client.request :=
  Client.RpcHandleSale "bob"
    [ {| Client.si_category :=
           {| Client.ic_id := "c49"; Client.ic_price := 49;
              Client.ic_stock := 5 |};
         Client.si_quantity := 4 |} ]
    196
    {| Client.cash := 196; Client.online := 0; Client.slipImage := None |}
    "t9".

(** The answers the sale of four gets from [shop]. *)
Definition sale_of_four_env : Components.SaleEnv :=
  {| Components.se_upload := ok; Components.se_filePath := "sales/sale.jpg";
     Components.se_publicUrl := "https://slips/sale.jpg";
     Components.se_now := "t9";
     Components.se_complete :=
       {| Client.cs_getUser := Client.Fulfilled (Some "bob");
          Client.cs_now := "t9";
          Client.cs_rpc :=
            System.answer (System.serve "s1" "t9" sale_of_four shop);
          Client.cs_fetch := fetch_of shop |} |}.

(** A sale of 298 entered as 348 online and 50 handed back in cash. *)
Definition cash_back : Sql.sale_row :=
  {| Sql.sale_id := "s2"; Sql.sale_user_id := "bob";
     Sql.sale_created_by := "bob"; Sql.sale_timestamp := "t1";
     Sql.sale_items := [two_of_149]; Sql.sale_total := 298;
     Sql.sale_payment :=
       {| Sql.pay_cash := -50; Sql.pay_online := 348;
          Sql.pay_slipImage := None |} |}.

Definition deposit_form (amount : Z) : Components.Deposits :=
  {| Components.dp_amount := Some amount;
     Components.dp_selectedUser := "bob";
     Components.dp_paymentSlipImage := None;
     Components.dp_optimizedSlipImage := None;
     Components.dp_isLoading := false; Components.dp_error := None |}.

Definition deposit_env (d : Sql.db) : Components.DepositEnv :=
  {| Components.de_getUser := Client.Fulfilled (Some "alice");
     Components.de_upload := ok;
     Components.de_filePath := "deposits/deposit.jpg";
     Components.de_publicUrl := "https://slips/deposit.jpg";
     Components.de_insert := ok;
     Components.de_fetchDeposits := Client.Fulfilled tt;
     Components.de_fetch := fetch_of d |}.

Definition expense_form : Components.Expenses :=
  {| Components.ex_purpose := "tea"; Components.ex_amount := Some 50;
     Components.ex_cashAmount := Some 50;
     Components.ex_onlineAmount := None;
     Components.ex_receiptImage := None;
     Components.ex_optimizedReceiptImage := None;
     Components.ex_isLoading := false; Components.ex_error := None |}.

Definition expense_env (d : Sql.db) : Components.ExpenseEnv :=
  {| Components.ee_upload := ok;
     Components.ee_filePath := "expenses/expense.jpg";
     Components.ee_publicUrl := "https://slips/expense.jpg";
     Components.ee_insert := ok;
     Components.ee_fetchExpenses := Client.Fulfilled tt;
     Components.ee_fetch := fetch_of d |}.

(** The freshly migrated database: balances 0 and 0. *)
Definition opening : Sql.db :=
  Sql.initial_db ["alice"; "bob"; "carol"; "dave"]
    [alice; bob; carol; dave] "b1" "t0".

(** The day's first sale: 298, of which 200 in cash. *)
Definition first_sale : Sql.sale_row :=
  {| Sql.sale_id := "s1"; Sql.sale_user_id := "bob";
     Sql.sale_created_by := "bob"; Sql.sale_timestamp := "t1";
     Sql.sale_items := [two_of_149]; Sql.sale_total := 298;
     Sql.sale_payment := paid_298 |}.

Definition after_first_sale : Sql.db :=
  (Sql.insert_into_sales "t1" first_sale opening).1.

(** Bob's store, fetched right after the first sale. *)
Definition bobs_view : Client.Store :=
  Client.o_store
    (Client.fetchAllData (fetch_of after_first_sale) Client.initial_store
       no_cache).

(** What the Deposits form sends for 200 handed over by Bob to Alice. *)
Definition deposit_of_200 : Client.deposit_insert :=
  {| Client.di_amount := 200; Client.di_deposited_by := "bob";
     Client.di_received_by := "alice";
     Client.di_description := "Manual deposit";
     Client.di_slip_image := None |}.

(** The sale, then 180 paid out of the till by Dave, then the deposit. *)
Definition overdrawing_day : list Sql.operation :=
  [ Sql.SaleRow "t1" first_sale;
    Sql.ExpenseCall "e9" "t2" "dave" "rent" 180 0;
    Sql.DepositRow "t3" (System.deposit_row_of "d7" "t3" deposit_of_200) ].

Definition end_of_day : Sql.db :=
  default opening (Sql.commit_all overdrawing_day opening).

(** What the Expenses form sends for 50 in cash spent on tea. *)
Definition tea_insert : Client.expense_insert :=
  {| Client.ei_purpose := "tea"; Client.ei_amount := 50;
     Client.ei_cash_amount := 50; Client.ei_online_amount := 0;
     Client.ei_receipt_image := None; Client.ei_created_by := "bob" |}.

End Examples.

(** ** Sequences of ledger operations *)
Module Ledger.
Import Sql.

(** What an operation adds to shop balance plus bank balance: a sale row
    brings in its cash and online parts, a [handle_expense] call takes out
    both parts, a deposit only moves money, and an expense row inserted
    directly moves nothing. *)
Definition net_inflow (op : operation) : Z :=
  match op with
  | SaleRow _ row =>
      pay_cash (sale_payment row) + pay_online (sale_payment row)
  | ExpenseCall _ _ _ _ cash online => - (cash + online)
  | ExpenseRow _ => 0
  | DepositRow _ _ => 0
  end.

Definition net_inflows (ops : list operation) : Z :=
  foldr (fun op acc => net_inflow op + acc) 0 ops.

(** Every operation of the sequence stays within means in the state it
    runs in. *)
Fixpoint guarded (ops : list operation) (d : db) : Prop :=
  match ops with
  | [] => True
  | op :: rest =>
      within_means op d
      /\ forall d' u, apply_operation op d = (d', inr u) -> guarded rest d'
  end.

(** A day that stays within means: the first sale (200 in cash, 98
    online), 180 paid out of the till by Dave, and the 20 that are left
    banked by Bob. *)
Definition banked_20 : deposit_row :=
  {| dep_id := "d8"; dep_deposited_by := "bob"; dep_received_by := "alice";
     dep_amount := 20; dep_description := Some "Manual deposit";
     dep_slip_image := None; dep_timestamp := "t3" |}.

Definition quiet_day : list operation :=
  [ SaleRow "t1" Examples.first_sale;
    ExpenseCall "e9" "t2" "dave" "rent" 180 0;
    DepositRow "t3" banked_20 ].

Definition end_of_quiet_day : db :=
  default Examples.opening (commit_all quiet_day Examples.opening).

End Ledger.

(** ** The Inventory component ([src/components/Inventory.tsx]) *)
Module Inventory.
Import Client Components.

(** [newPrice] is what [parseInt(newPrice)] gives, [None] for NaN (the
    empty field included). *)
Record Inventory := {
  newPrice : option Z;
  isAddingCategory : bool;
  localStocks : gmap Z Z;
  isLoading : bool
}.

Definition idle (v : Inventory) (st : Store) (ls : LocalStorage)
  : handled Inventory :=
  {| h_store := st; h_storage := ls; h_view := v; h_requests := [];
     h_shown := [] |}.

(** The effect on [categories]: when the list is not empty, [localStocks]
    is rebuilt from it, price by price, a later category overwriting an
    earlier one of the same price. *)
Definition stocks_of (categories : list Category) : gmap Z Z :=
  foldl (fun acc cat => <[c_price cat := c_stock cat]> acc) ∅ categories.

Definition sync_localStocks (categories : list Category) (v : Inventory)
  : Inventory :=
  if decide (0 < length categories)%nat then
    {| newPrice := newPrice v; isAddingCategory := isAddingCategory v;
       localStocks := stocks_of categories; isLoading := false |}
  else v.

(** [handleAddCategory]; the haptic calls catch their own errors. *)
Definition handleAddCategory (env : AddCategoryEnv) (v : Inventory)
    (st : Store) (ls : LocalStorage) : handled Inventory :=
  match newPrice v with
  | Some price =>
      if decide (0 < price
                 /\ ~ Exists (fun cat => c_price cat = price)
                        (categories st))
      then
        let o := addCategory price env st ls in
        {| h_store := o_store o; h_storage := o_storage o;
           h_view :=
             {| newPrice := match o_result o with
                            | inr _ => None
                            | inl _ => newPrice v
                            end;
                isAddingCategory := false; localStocks := localStocks v;
                isLoading := isLoading v |};
           h_requests := o_requests o; h_shown := [] |}
      else idle v st ls
  | None => idle v st ls
  end.

(** [setLocalStocks(prev => ({ ...prev, [price]: stock }))] *)
Definition set_localStock (price stock : Z) (v : Inventory) : Inventory :=
  {| newPrice := newPrice v; isAddingCategory := isAddingCategory v;
     localStocks := <[price := stock]> (localStocks v);
     isLoading := isLoading v |}.

Definition validStock (newStock : Z) : Z :=
  Z.max 0 (Z.min newStock 999999).

(** [handleUpdateStock] with the callback of its timer, run against the
    store the handler read [categories] from. The function the handler
    returns to cancel the timer is dropped by its callers, so the callback
    always runs. [remote] is what the update settles to. *)
Definition handleUpdateStock (index newStock : Z)
    (remote : settled (response unit)) (v : Inventory)
    (st : Store) (ls : LocalStorage) : handled Inventory :=
  match at_index (categories st) index with
  | None => idle v st ls
  | Some category =>
      let v1 := set_localStock (c_price category) (validStock newStock) v in
      let o := updateStock index (validStock newStock) remote st ls in
      {| h_store := o_store o; h_storage := o_storage o;
         h_view :=
           match o_result o with
           | inr _ => v1
           | inl _ =>
               set_localStock (c_price category) (c_stock category) v1
           end;
         h_requests := o_requests o; h_shown := [] |}
  end.

(** [totalItems] *)
Definition totalItems (categories : list Category) : Z :=
  foldl (fun sum category => sum + c_stock category) 0 categories.

(** The form with 99 typed into the price field. *)
Definition typed_99 : Inventory :=
  {| newPrice := Some 99; isAddingCategory := false;
     localStocks := stocks_of (categories Examples.mirror);
     isLoading := false |}.

End Inventory.

(** ** The expense list of the Expenses component
    ([src/components/Expenses.tsx]) *)
Module ExpenseList.
Import Client.

Record raw_creator := {
  rec_id : string;
  rec_name : string;
  rec_designation : string
}.

(** A row of [expenses] with its creator, as the query returns it. *)
Record raw_expense := {
  re_id : string;
  re_purpose : string;
  re_amount : Z;
  re_cash_amount : Z;
  re_online_amount : Z;
  re_receipt_image : option string;
  re_timestamp : string;
  re_created_by : string;
  re_creator : option raw_creator
}.

Record Creator := {
  cre_id : string;
  cre_name : string;
  cre_designation : string
}.

Record Expense := {
  e_id : string;
  e_purpose : string;
  e_amount : Z;
  e_cash_amount : Z;
  e_online_amount : Z;
  e_receipt_image : option string;
  e_timestamp : string;
  e_created_by : string;
  e_creator : option Creator
}.

Definition process_expense (expense : raw_expense) : Expense :=
  {| e_id := re_id expense; e_purpose := re_purpose expense;
     e_amount := re_amount expense;
     e_cash_amount := re_cash_amount expense;
     e_online_amount := re_online_amount expense;
     e_receipt_image :=
       match re_receipt_image expense with
       | Some s => if decide (s = "") then None else Some s
       | None => None
       end;
     e_timestamp := re_timestamp expense;
     e_created_by := re_created_by expense;
     e_creator :=
       (fun c => {| cre_id := rec_id c; cre_name := rec_name c;
                    cre_designation := rec_designation c |})
         <$> re_creator expense |}.

Definition EXPENSES_PER_PAGE : Z := 20.

(** The list state of the component. *)
Record ExpensePage := {
  expenses : list Expense;
  page : Z;
  hasMore : bool;
  isLoadingMore : bool
}.

Definition initial_page : ExpensePage :=
  {| expenses := []; page := 0; hasMore := true; isLoadingMore := false |}.

Definition failed_to_fetch : js_error :=
  Error "Failed to fetch expenses. Please try again.".

(** [fetchExpenses(loadMore)], run to its end with the [page] it was
    created for. [query from to] is what the select with [.range(from, to)]
    settles to. *)
Definition fetchExpenses (loadMore : bool)
    (query : Z -> Z -> settled (response (list raw_expense)))
    (v : ExpensePage) : ExpensePage * (js_error + unit) :=
  let currentPage := if loadMore then page v + 1 else 0 in
  let failed :=
    ({| expenses := expenses v; page := page v; hasMore := hasMore v;
        isLoadingMore := false |}, inl failed_to_fetch) in
  match query (currentPage * EXPENSES_PER_PAGE)
          ((currentPage + 1) * EXPENSES_PER_PAGE - 1) with
  | Rejected _ => failed
  | Fulfilled r =>
      match error r with
      | Some expensesError => failed
      | None =>
          match data r with
          | None =>
              ({| expenses := []; page := page v; hasMore := hasMore v;
                  isLoadingMore := false |}, inr tt)
          | Some expensesData =>
              let processedExpenses := process_expense <$> expensesData in
              ({| expenses :=
                    if loadMore then expenses v ++ processedExpenses
                    else processedExpenses;
                  page := currentPage;
                  hasMore :=
                    bool_decide (Z.of_nat (length expensesData)
                                 = EXPENSES_PER_PAGE);
                  isLoadingMore := false |}, inr tt)
          end
      end
  end.

(** What the select answers when the table, in the order of the query
    (newest first), holds [rows]: the rows at offsets [from] to [to],
    both included. *)
Definition select_range (rows : list raw_expense) (from to : Z)
  : response (list raw_expense) :=
  {| data := Some (take (Z.to_nat (to - from + 1))
                     (drop (Z.to_nat from) rows));
     error := None |}.

(** Every query is answered from [rows] or fails. *)
Definition answers_from (rows : list raw_expense)
    (query : Z -> Z -> settled (response (list raw_expense))) : Prop :=
  forall from to,
    query from to = Fulfilled (select_range rows from to)
    \/ is_Some (remote_failure (query from to)).

(** The list shows the first [page + 1] pages of [rows]. *)
Definition shows (rows : list raw_expense) (v : ExpensePage) : Prop :=
  0 <= page v
  /\ expenses v
     = process_expense
         <$> take (Z.to_nat (EXPENSES_PER_PAGE * (page v + 1))) rows.

(** A query answered from [rows]. *)
Definition served (rows : list raw_expense) (from to : Z)
  : settled (response (list raw_expense)) :=
  Fulfilled (select_range rows from to).

(** *** The mount effect *)

Record InitEnv := {
  ie_session : settled (option string);
  ie_fetchBalances : js_error + unit;
  ie_query : Z -> Z -> settled (response (list raw_expense))
}.

(** [initializeData] of the mount effect, as far as the list goes: with a
    session it awaits fetchBalances and then calls fetchExpenses(); with
    no session it navigates away, and when a call rejects the error is
    shown. [ie_session] is what getSession settles to and
    [ie_fetchBalances] what fetchBalances does. *)
Definition initializeData (env : InitEnv) (v : ExpensePage) : ExpensePage :=
  match ie_session env with
  | Fulfilled (Some _) =>
      match ie_fetchBalances env with
      | inr _ => (fetchExpenses false (ie_query env) v).1
      | inl _ => v
      end
  | Fulfilled None | Rejected _ => v
  end.

(** The mount effect lists fetchExpenses among its dependencies, and
    fetchExpenses is a [useCallback] on [page]: a render whose [page] is
    not that of the render before it runs the effect, and with it
    initializeData, again. [previous] and [current] are the list states
    of the two renders. *)
Definition rerun (env : InitEnv) (previous current : ExpensePage)
  : ExpensePage :=
  if decide (page current = page previous) then current
  else initializeData env current.

(** A click on Load More followed to rest: fetchExpenses(true), then the
    effect after the render that shows its result, then the effect after
    the render that shows what that run left. *)
Definition clickLoadMore (env : InitEnv) (v : ExpensePage) : ExpensePage :=
  let clicked := (fetchExpenses true (ie_query env) v).1 in
  let again := rerun env v clicked in
  rerun env clicked again.

(** A table of 45 expenses, told apart by their amounts. *)
Definition numbered (i : nat) : raw_expense :=
  {| re_id := "e"; re_purpose := "tea"; re_amount := Z.of_nat i;
     re_cash_amount := Z.of_nat i; re_online_amount := 0;
     re_receipt_image := None; re_timestamp := "t";
     re_created_by := "bob"; re_creator := None |}.

Definition table_45 : list raw_expense := numbered <$> seq 0 45.

Definition env_45 : InitEnv :=
  {| ie_session := Fulfilled (Some "bob"); ie_fetchBalances := inr tt;
     ie_query := served table_45 |}.

(** The list after the first fetch. *)
Definition first_page : ExpensePage :=
  (fetchExpenses false (served table_45) initial_page).1.

End ExpenseList.

(** ** The user profile in the store ([src/lib/store.ts]) *)
Module Profile.
Import Client.

(** The profile row as the query returns it; [is_admin] and [is_approved]
    are nullable columns. *)
Record raw_profile := {
  rpf_id : string;
  rpf_name : string;
  rpf_designation : string;
  rpf_phone : string;
  rpf_is_admin : option bool;
  rpf_is_approved : option bool;
  rpf_avatar_url : option string
}.

Inductive profile_request :=
  | GetUser
  | SelectProfile (id : string)
  | SignOut.

Record ProfileEnv := {
  pe_getUser : settled (option string);
  pe_profile : settled (response raw_profile);
  pe_signOut : settled unit;          (* the call in the [try] block *)
  pe_signOut_caught : settled unit    (* the call in the [catch] block *)
}.

(** [set({ userProfile, initialized: true })] *)
Definition set_profile (p : option UserProfile) (st : Store) : Store :=
  {| categories := categories st; sales := sales st; initialized := true;
     userProfile := p; balances := balances st |}.

(** What fetchUserProfile leaves behind: the values it passed to [set] as
    [userProfile], in order, the requests it sent and what its promise
    settled to. *)
Record profile_outcome := {
  po_sets : list (option UserProfile);
  po_requests : list profile_request;
  po_result : js_error + option UserProfile
}.

Definition process_profile (profile : raw_profile) : UserProfile :=
  {| up_id := rpf_id profile; up_name := rpf_name profile;
     up_designation :=
       if decide (rpf_phone profile = "9999999999") then "Owner"
       else rpf_designation profile;
     up_phone := rpf_phone profile;
     up_is_admin := default false (rpf_is_admin profile);
     up_is_approved := default false (rpf_is_approved profile);
     up_avatar_url :=
       match rpf_avatar_url profile with
       | Some s => if decide (s = "") then None else Some s
       | None => None
       end |}.

Definition fetchUserProfile (env : ProfileEnv) : profile_outcome :=
  let caught (sets : list (option UserProfile))
      (reqs : list profile_request) :=
    {| po_sets := sets ++ [None]; po_requests := reqs ++ [SignOut];
       po_result := match pe_signOut_caught env with
                    | Fulfilled _ => inr None
                    | Rejected e => inl e
                    end |} in
  let refused (reqs : list profile_request) :=
    match pe_signOut env with
    | Fulfilled _ =>
        {| po_sets := [None]; po_requests := reqs ++ [SignOut];
           po_result := inr None |}
    | Rejected _ => caught [None] (reqs ++ [SignOut])
    end in
  match pe_getUser env with
  | Rejected _ => caught [] [GetUser]
  | Fulfilled None =>
      {| po_sets := [None]; po_requests := [GetUser];
         po_result := inr None |}
  | Fulfilled (Some user) =>
      let reqs := [GetUser; SelectProfile user] in
      match pe_profile env with
      | Rejected _ => caught [] reqs
      | Fulfilled r =>
          match error r, data r with
          | Some _, _ => refused reqs
          | None, None => refused reqs
          | None, Some profile =>
              {| po_sets := [Some (process_profile profile)];
                 po_requests := reqs;
                 po_result := inr (Some (process_profile profile)) |}
          end
      end
  end.

(** The [set] calls of a list of writers, applied in order. *)
Definition apply_sets (writes : list (Store -> Store)) (st : Store)
  : Store :=
  foldl (fun s w => w s) st writes.

(** The synchronous part of setUserProfile: the profile is stored and,
    when it is not null, categories and balances are read back from the
    cache. *)
Definition hydrate (profile : option UserProfile) (st : Store)
    (ls : LocalStorage) : Store :=
  let st1 :=
    {| categories := categories st; sales := sales st;
       initialized := initialized st; userProfile := profile;
       balances := balances st |} in
  match profile with
  | None => st1
  | Some _ =>
      let st2 := match cached_categories ls with
                 | Some parsed => set_categories parsed st1
                 | None => st1
                 end in
      match cached_balances ls with
      | Some parsed => set_balances parsed st2
      | None => st2
      end
  end.

(** setUserProfile once its two fetches have settled. They run side by
    side; [k] is the number of [set] calls of fetchUserProfile that land
    before the one of fetchAllData. *)
Definition setUserProfile (profile : option UserProfile) (k : nat)
    (env : FetchEnv) (penv : ProfileEnv) (st : Store) (ls : LocalStorage)
  : Store * LocalStorage :=
  let st1 := hydrate profile st ls in
  match profile with
  | None => (st1, ls)
  | Some _ =>
      let profile_sets := set_profile <$> po_sets (fetchUserProfile penv) in
      let data_set := fun s => o_store (fetchAllData env s ls) in
      (apply_sets (take k profile_sets ++ data_set :: drop k profile_sets)
         st1,
       o_storage (fetchAllData env st1 ls))
  end.

End Profile.

(** ** The basket of the SalesMode component *)
Module Basket.
Import Client Components.

(** The stock updateQuantity clamps to: that of the first category with
    the price, 0 when there is none. *)
Definition maxStock (price : Z) (categories : list Category) : Z :=
  default 0 (c_stock <$> head (filter (fun c => c_price c = price)
                                 categories)).

(** A run of quantity changes, each [(price, quantity)] one call of
    updateQuantity, over one list of categories. *)
Definition updateQuantities (taps : list (Z * Z))
    (categories : list Category) (v : SalesMode) : SalesMode :=
  foldl (fun v tap => updateQuantity tap.1 tap.2 categories v) v taps.

(** The effect on [categories]: with a non-empty list, the quantities of
    prices that no category has any more are dropped; the effect on
    [quantities] then copies them to [localQuantities]. *)
Definition sync_quantities (categories : list Category) (v : SalesMode)
  : SalesMode :=
  if decide (0 < length categories)%nat then
    let updated :=
      filter (fun kv : Z * Z =>
                Exists (fun c => c_price c = kv.1) categories)
        (quantities v) in
    {| quantities := updated; localQuantities := updated;
       updatingPrice := updatingPrice v; total := total v;
       showPaymentDialog := showPaymentDialog v;
       cashAmount := cashAmount v; onlineAmount := onlineAmount v;
       paymentSlipImage := paymentSlipImage v;
       optimizedSlipImage := optimizedSlipImage v;
       isProcessingSale := isProcessingSale v |}
  else v.

(** No quantity is negative, and none exceeds the stock it was clamped
    to. *)
Definition within_stock (categories : list Category) (lq : gmap Z Z)
  : Prop :=
  forall p q,
    lq !! p = Some q -> 0 <= q /\ (q = 0 \/ q <= maxStock p categories).

(** The form before anything is chosen. *)
Definition empty_basket : SalesMode :=
  {| quantities := ∅; localQuantities := ∅; updatingPrice := None;
     total := 0; showPaymentDialog := false; cashAmount := None;
     onlineAmount := None; paymentSlipImage := None;
     optimizedSlipImage := None; isProcessingSale := false |}.

(** Nine items of 149 asked for, then two of 49. *)
Definition two_taps : list (Z * Z) := [(149, 9); (49, 2)].

End Basket.

(** ** More sample states *)
Module Cases.
Import Examples.

(** [handle_sale] answers; the sales query of the fetch after it fails. *)
Definition sale_env_fetch_down : Components.SaleEnv :=
  {| Components.se_upload := ok; Components.se_filePath := "sales/sale.jpg";
     Components.se_publicUrl := "https://slips/sale.jpg";
     Components.se_now := "t9";
     Components.se_complete :=
       {| Client.cs_getUser := Client.Fulfilled (Some "bob");
          Client.cs_now := "t9"; Client.cs_rpc := ok;
          Client.cs_fetch := fetch_sales_down shop |} |}.





(** The insert of a new category never gets an answer. *)
Definition add_offline : Client.AddCategoryEnv :=
  {| Client.ac_getUser := Client.Fulfilled (Some "bob");
     Client.ac_randomUUID := "new"; Client.ac_now := "t9";
     Client.ac_insert := offline; Client.ac_fetch := fetch_of shop |}.

End Cases.

(** * Properties *)

(** ** Transactions *)
Section TxFacts.
Import Sql.

Lemma bind_unfold {A B} (m : tx A) (k : A -> tx B) d :
  (m ≫= k) d =
  match m d with (d', inr a) => k a d' | (d', inl e) => (d', inl e) end.
Proof. reflexivity. Qed.

Lemma bind_inr {A B} (m : tx A) (k : A -> tx B) d d' b :
  (m ≫= k) d = (d', inr b) ->
  exists a d1, m d = (d1, inr a) /\ k a d1 = (d', inr b).
Proof.
  rewrite bind_unfold. destruct (m d) as [d1 [e|a]]; [discriminate|eauto].
Qed.


Lemma mret_inr {A} (a b : A) d d' :
  mret (M := tx) a d = (d', inr b) -> d' = d /\ b = a.
Proof. intros H; inversion H; auto. Qed.

Lemma raise_inr {A} e d d' (a : A) : raise e d = (d', inr a) -> False.
Proof. discriminate. Qed.

Lemma get_db_inr d d' x : get_db d = (d', inr x) -> d' = d /\ x = d.
Proof. intros H; inversion H; auto. Qed.

Lemma modify_inr f d d' u : modify f d = (d', inr u) -> d' = f d.
Proof. intros H; inversion H; auto. Qed.

Lemma int4_inr z d d' z' :
  int4 z d = (d', inr z') -> d' = d /\ z' = z /\ in_int4 z = true.
Proof.
  unfold int4. destruct (in_int4 z); intros H; inversion H; auto.
Qed.

Lemma when_inr b m d d' u :
  when b m d = (d', inr u) ->
  (b = false /\ d' = d) \/ (b = true /\ m d = (d', inr tt)).
Proof.
  intros Hw. destruct b, u; simpl in Hw; [right|left]; auto.
  inversion Hw; auto.
Qed.

Lemma int4_ok z d : in_int4 z = true -> int4 z d = (d, inr z).
Proof. unfold int4. intros ->. reflexivity. Qed.

Lemma when_raise_inr b e d d' u :
  when b (raise e) d = (d', inr u) -> b = false /\ d' = d.
Proof.
  intros Hw. apply when_inr in Hw as [?|[_ Hr]]; [done|].
  destruct (raise_inr _ _ _ _ Hr).
Qed.

Lemma references_profiles_inr i d d' u :
  references_profiles i d = (d', inr u) ->
  d' = d /\ i ∈ prof_id <$> profiles d.
Proof.
  unfold references_profiles. rewrite bind_unfold. simpl.
  case_decide; intros Heq; inversion Heq; subst; split; auto.
Qed.

Lemma references_users_inr i d d' u :
  references_users i d = (d', inr u) -> d' = d /\ i ∈ auth_users d.
Proof.
  unfold references_users. rewrite bind_unfold. simpl.
  case_decide; intros Heq; inversion Heq; subst; split; auto.
Qed.

Lemma run_tx_inl {A} (m : tx A) d d' e :
  run_tx m d = (d', inl e) -> d' = d.
Proof.
  unfold run_tx. destruct (m d) as [d1 [e1|a]]; intros H; inversion H; auto.
Qed.

Lemma run_tx_inr {A} (m : tx A) d d' a :
  run_tx m d = (d', inr a) -> m d = (d', inr a).
Proof.
  unfold run_tx. destruct (m d) as [d1 [e1|a1]]; intros H; inversion H; auto.
Qed.

End TxFacts.

Ltac tx_inv :=
  repeat match goal with
    | H : Sql.run_tx _ _ = (_, inr _) |- _ => apply run_tx_inr in H
    | H : (_ ≫= _) _ = (_, inr _) |- _ =>
        let a := fresh "a" in let d1 := fresh "d" in let H1 := fresh "H" in
        apply bind_inr in H as (a & d1 & H1 & H)
    | H : mret _ _ = (_, inr _) |- _ => apply mret_inr in H as [-> ->]
    | H : Sql.raise _ _ = (_, inr _) |- _ => destruct (raise_inr _ _ _ _ H)
    | H : Sql.get_db _ = (_, inr _) |- _ => apply get_db_inr in H as [-> ->]
    | H : Sql.modify _ _ = (_, inr _) |- _ => apply modify_inr in H as ->
    | H : Sql.int4 _ _ = (_, inr _) |- _ =>
        let Hr := fresh "Hrange" in apply int4_inr in H as (-> & -> & Hr)
    | H : Sql.when _ (Sql.raise _) _ = (_, inr _) |- _ =>
        let Hb := fresh "Hguard" in apply when_raise_inr in H as (Hb & ->)
    | H : Sql.references_profiles _ _ = (_, inr _) |- _ =>
        let Hr := fresh "Hfk" in apply references_profiles_inr in H as (-> & Hr)
    | H : Sql.references_users _ _ = (_, inr _) |- _ =>
        let Hr := fresh "Hfk" in apply references_users_inr in H as (-> & Hr)
    end.

Section SqlFacts.
Import Sql.

Lemma checked_inr z z' : checked z = inr z' -> z' = z /\ in_int4 z = true.
Proof. unfold checked. destruct (in_int4 z); intros H; inversion H; auto. Qed.

Lemma set_row_inr now b shop bank b' :
  set_row now b shop bank = inr b' ->
  b' = {| bal_id := bal_id b; shop_balance := shop; bank_balance := bank;
          last_updated := now |}.
Proof.
  unfold set_row.
  destruct (checked shop) as [e|s] eqn:Hs; [discriminate|].
  destruct (checked bank) as [e|k] eqn:Hk; [discriminate|].
  apply checked_inr in Hs as [-> _]. apply checked_inr in Hk as [-> _].
  intros H; inversion H; reflexivity.
Qed.

Lemma update_rows_head f b rest bs :
  update_rows (bal_id b) f (b :: rest) = inr bs ->
  exists b' rest', f b = inr b' /\ bs = b' :: rest'
                   /\ update_rows (bal_id b) f rest = inr rest'.
Proof.
  simpl. rewrite decide_True by reflexivity.
  destruct (f b) as [e|b']; [discriminate|].
  destruct (update_rows (bal_id b) f rest) as [e|rest']; [discriminate|].
  intros H; inversion H; eauto.
Qed.

Lemma update_balances_inr target f d d' u :
  update_balances target f d = (d', inr u) ->
  match target with
  | None => d' = d
  | Some i => exists bs, update_rows i f (balances d) = inr bs
                         /\ d' = set_balances bs d
  end.
Proof.
  unfold update_balances. destruct target as [i|].
  - destruct (update_rows i f (balances d)) as [e|bs]; intros H;
      inversion H; eauto.
  - intros H; inversion H; auto.
Qed.

Lemma notify_expense_eq row d :
  notify_expense row d =
  (set_notifications
     (notifications d
      ++ (expense_notification row
            (prof_name <$> select_profile d (exp_created_by row))
            <$> expense_recipients row d)) d, inr tt).
Proof.
  unfold notify_expense, expense_recipients. rewrite bind_unfold. simpl.
  case_decide; reflexivity.
Qed.

Lemma insert_expense_inr row d d' u :
  insert_expense row d = (d', inr u) ->
  exp_created_by row ∈ prof_id <$> profiles d
  /\ notify_expense row (set_expenses (expenses d ++ [row]) d) = (d', inr tt).
Proof.
  unfold insert_expense. intros H. destruct u. tx_inv. auto.
Qed.

Lemma handle_expense_inr new_id now u p c o d d' i :
  handle_expense new_id now u p c o d = (d', inr i) ->
  exists row rest rest',
    balances d = row :: rest
    /\ c <= shop_balance row /\ o <= bank_balance row
    /\ i = new_id
    /\ expenses d' =
         expenses d ++
           [ {| exp_id := new_id; exp_created_by := u; exp_purpose := p;
                exp_amount := c + o; exp_cash_amount := c;
                exp_online_amount := o; exp_receipt_image := None;
                exp_timestamp := now |} ]
    /\ balances d' =
         {| bal_id := bal_id row; shop_balance := shop_balance row - c;
            bank_balance := bank_balance row - o; last_updated := now |}
           :: rest'
    /\ categories d' = categories d.
Proof.
  unfold handle_expense, block_exception, handle_expense_body. intros H.
  match type of H with
  | match ?body d with _ => _ end = _ =>
      destruct (body d) as [d1 [e|a]] eqn:Hbody
  end; [discriminate|].
  inversion H; subst; clear H. tx_inv.
  destruct (balances d) as [|row rest] eqn:Hbal; simpl in Hbody;
    [destruct (raise_inr _ _ _ _ Hbody)|].
  tx_inv.
  match goal with
  | H : insert_expense _ _ = _ |- _ =>
      apply insert_expense_inr in H as [_ H];
      rewrite notify_expense_eq in H; inversion H; subst; clear H
  end.
  match goal with
  | H : update_balances _ _ _ = _ |- _ =>
      apply update_balances_inr in H as (bs & Hrows & ->)
  end.
  simpl in Hrows. rewrite Hbal in Hrows.
  apply update_rows_head in Hrows as (b' & rest' & Hb' & -> & _).
  apply set_row_inr in Hb' as ->.
  repeat match goal with
    | H : bool_decide _ = false |- _ => apply bool_decide_eq_false in H
    end.
  exists row, rest, rest'. simpl. repeat split; auto; lia.
Qed.

End SqlFacts.

(** ** Expenses through [handle_expense] *)
Section ExpenseProcedure.
Import Sql.

Variables (new_id : uuid) (now : timestamp) (user : uuid) (purpose : string).

(** A request failing a balance check raises before anything is written:
    the working copy at the raise is the database the call started from. *)
Lemma handle_expense_body_rejects cash online d row :
  head (balances d) = Some row ->
  cash > shop_balance row \/ online > bank_balance row ->
  exists msg,
    handle_expense_body new_id now user purpose cash online d
    = (d, inl (RaiseException msg))
    /\ (msg = "Cash amount exceeds available shop balance"
        \/ msg = "Online amount exceeds available bank balance").
Proof.
  intros Hrow Hover. unfold handle_expense_body.
  rewrite bind_unfold. simpl. rewrite Hrow. rewrite bind_unfold.
  destruct (bool_decide (cash > shop_balance row)) eqn:Hc; simpl.
  - eauto.
  - rewrite bind_unfold.
    destruct (bool_decide (online > bank_balance row)) eqn:Ho; simpl.
    + eauto.
    + apply bool_decide_eq_false in Hc, Ho. lia.
Qed.

(** C4: a [handle_expense] call whose cash part exceeds the shop balance
    or whose online part exceeds the bank balance fails, and the database
    after the call -- both balances, every category's stock, the expense
    rows and all other tables -- is the database before the call; the check
    raises before any write, so there is nothing to undo either. *)
Theorem failed_expense_leaves_ledger_unchanged cash online d row :
  head (balances d) = Some row ->
  cash > shop_balance row \/ online > bank_balance row ->
  (exists msg,
     handle_expense_body new_id now user purpose cash online d
     = (d, inl (RaiseException msg)))
  /\ exists e,
       rpc_handle_expense new_id now user purpose cash online d = (d, inl e).
Proof.
  intros Hrow Hover.
  destruct (handle_expense_body_rejects cash online d row Hrow Hover)
    as (msg & Hbody & _).
  split; [eauto|].
  unfold rpc_handle_expense, run_tx.
  match goal with
  | |- exists e, match ?m d with _ => _ end = _ =>
      destruct (m d) as [d1 [e|i]] eqn:Hrun
  end; [eauto|].
  exfalso. tx_inv.
  unfold handle_expense, block_exception in Hrun. rewrite Hbody in Hrun.
  destruct (raise_inr _ _ _ _ Hrun).
Qed.

(** With amounts in the [integer] range the error is the validation
    message, prefixed by the handler. *)
Lemma failed_expense_message cash online d row :
  head (balances d) = Some row ->
  in_int4 cash = true -> in_int4 online = true ->
  cash > shop_balance row ->
  rpc_handle_expense new_id now user purpose cash online d
  = (d, inl (RaiseException
               ("Error handling expense: "
                +:+ "Cash amount exceeds available shop balance"))).
Proof.
  intros Hrow Hc Ho Hover.
  assert (Hbody : handle_expense_body new_id now user purpose cash online d
                  = (d, inl (RaiseException
                               "Cash amount exceeds available shop balance"))).
  { unfold handle_expense_body. rewrite bind_unfold.
    change (get_db d) with (d, inr (B := db) (A := sql_error) d).
    cbv beta iota. rewrite Hrow, bind_unfold.
    rewrite bool_decide_eq_true_2 by done. reflexivity. }
  unfold rpc_handle_expense, run_tx.
  rewrite bind_unfold, (int4_ok _ _ Hc), bind_unfold, (int4_ok _ _ Ho).
  unfold handle_expense, block_exception. rewrite Hbody. reflexivity.
Qed.

(** A committed [handle_expense]: the row carries [cash + online], and the
    row that was read and checked is the row that is written. *)
Lemma committed_expense_updates_balances cash online d d' i :
  rpc_handle_expense new_id now user purpose cash online d = (d', inr i) ->
  exists row rest rest',
    balances d = row :: rest
    /\ cash <= shop_balance row /\ online <= bank_balance row
    /\ expenses d' =
         expenses d ++
           [ {| exp_id := new_id; exp_created_by := user;
                exp_purpose := purpose; exp_amount := cash + online;
                exp_cash_amount := cash; exp_online_amount := online;
                exp_receipt_image := None; exp_timestamp := now |} ]
    /\ balances d' =
         {| bal_id := bal_id row; shop_balance := shop_balance row - cash;
            bank_balance := bank_balance row - online;
            last_updated := now |} :: rest'.
Proof.
  intros H. unfold rpc_handle_expense in H. tx_inv.
  apply handle_expense_inr in H
    as (row & rest & rest' & ? & ? & ? & ? & ? & ? & ?).
  exists row, rest, rest'. auto.
Qed.

End ExpenseProcedure.

(** ** Deposits *)
Section DepositTrigger.
Import Sql.

Lemma notify_deposit_eq row d :
  exists ns,
    forall r, notify_deposit row d = r ->
              r = (set_notifications (notifications d ++ ns) d, inr tt).
Proof.
  unfold notify_deposit. rewrite bind_unfold. simpl.
  eexists. intros r <-. reflexivity.
Qed.

Lemma insert_deposit_inr now row d d' u :
  insert_deposit now row d = (d', inr u) ->
  exists ns,
    update_balances_for_deposit now row
      (set_notifications (notifications d ++ ns)
         (set_deposits (deposits d ++ [row]) d))
    = (d', inr tt).
Proof.
  unfold insert_deposit. intros H. destruct u. tx_inv.
  destruct (notify_deposit_eq row (set_deposits (deposits d ++ [row]) d))
    as (ns & Hn).
  match goal with
  | H1 : notify_deposit _ _ = _ |- _ =>
      apply Hn in H1; inversion H1; subst; clear H1
  end.
  exists ns. assumption.
Qed.

(** What the deposit trigger does to the balances row the client reads. *)
Lemma deposit_trigger_balances now row d d' u :
  insert_deposit now row d = (d', inr u) ->
  forall b rest,
    balances d = b :: rest ->
    exists rest',
      balances d' =
        {| bal_id := bal_id b;
           shop_balance := shop_balance b - dep_amount row;
           bank_balance := bank_balance b + dep_amount row;
           last_updated := now |} :: rest'.
Proof.
  intros H b rest Hbal.
  apply insert_deposit_inr in H as (ns & H).
  unfold update_balances_for_deposit in H. tx_inv.
  apply update_balances_inr in H.
  cbn [balances set_notifications set_deposits] in H. rewrite Hbal in H.
  cbn [head fmap option_fmap option_map] in H.
  destruct H as (bs & Hrows & ->).
  apply update_rows_head in Hrows as (b' & rest' & Hb' & -> & _).
  apply set_row_inr in Hb' as ->. simpl. eauto.
Qed.

Lemma deposit_conserves_total_balances now row d d' :
  insert_into_deposits now row d = (d', inr tt) ->
  forall shop bank,
    current_balances d = Some (shop, bank) ->
    current_balances d'
    = Some (shop - dep_amount row, bank + dep_amount row).
Proof.
  intros H shop bank Hcur. unfold insert_into_deposits in H. tx_inv.
  unfold current_balances in *.
  destruct (balances d) as [|b rest] eqn:Hbal; [discriminate|].
  simpl in Hcur. inversion Hcur; subst; clear Hcur.
  destruct (deposit_trigger_balances _ _ _ _ _ H b rest Hbal) as (rest' & ->).
  reflexivity.
Qed.

(** C5: a committed deposit takes [amount] from the shop balance and adds
    it to the bank balance, so the sum of the two is what it was. *)
Theorem deposit_conserves_total now row d d' :
  insert_into_deposits now row d = (d', inr tt) ->
  forall shop bank,
    current_balances d = Some (shop, bank) ->
    current_balances d'
    = Some (shop - dep_amount row, bank + dep_amount row)
    /\ total_funds d' = total_funds d.
Proof.
  intros H shop bank Hcur.
  pose proof (deposit_conserves_total_balances now row d d' H shop bank
                Hcur) as Hafter.
  split; [exact Hafter|]. unfold total_funds. rewrite Hafter, Hcur.
  simpl. f_equal. lia.
Qed.

End DepositTrigger.

(** ** The non-negative balance invariant, step by step *)
Section BalanceInvariant.
Import Sql.

(** A committed [handle_expense] leaves both balances non-negative:
    each part was checked against the row it is subtracted from. *)
Lemma committed_expense_keeps_nonneg new_id now user purpose cash online
    d d' i :
  rpc_handle_expense new_id now user purpose cash online d = (d', inr i) ->
  balances_nonneg d'.
Proof.
  intros H.
  apply committed_expense_updates_balances in H
    as (row & rest & rest' & _ & Hc & Ho & _ & Hbal).
  intros shop bank Hcur. unfold current_balances in Hcur.
  rewrite Hbal in Hcur. simpl in Hcur. inversion Hcur; subst. lia.
Qed.

(** An expense row inserted directly leaves the balances rows alone. *)
Lemma inserted_expense_keeps_balances row d d' :
  insert_into_expenses row d = (d', inr tt) -> balances d' = balances d.
Proof.
  intros H. unfold insert_into_expenses in H. tx_inv.
  apply insert_expense_inr in H as [_ H].
  rewrite notify_expense_eq in H. inversion H; subst. reflexivity.
Qed.

(** A committed deposit keeps the balances non-negative exactly when its
    amount is covered by the shop balance (and, if negative, by the bank
    balance); the trigger itself does not ask. *)
Lemma committed_deposit_nonneg_iff now row d d' shop bank :
  insert_into_deposits now row d = (d', inr tt) ->
  current_balances d = Some (shop, bank) ->
  (balances_nonneg d' <->
   dep_amount row <= shop /\ - dep_amount row <= bank).
Proof.
  intros H Hcur.
  pose proof (deposit_conserves_total_balances now row d d' H shop bank
                Hcur) as Hafter.
  unfold balances_nonneg. rewrite Hafter. split.
  - intros Hnn. destruct (Hnn _ _ eq_refl). lia.
  - intros Hle s b Heq. inversion Heq; subst. lia.
Qed.

End BalanceInvariant.

(** ** Expense notifications *)
Section ExpenseNotifications.
Import Sql.

Lemma select_profile_Some d i :
  i ∈ prof_id <$> profiles d ->
  exists p, select_profile d i = Some p /\ p ∈ profiles d /\ prof_id p = i.
Proof.
  unfold select_profile. intros Hin.
  apply list_elem_of_fmap in Hin as (p & -> & Hp).
  destruct (filter (fun q => prof_id q = prof_id p) (profiles d))
    as [|q l] eqn:Hf.
  - assert (p ∈ filter (fun q => prof_id q = prof_id p) (profiles d))
      as Hpf by (apply list_elem_of_filter; auto).
    rewrite Hf in Hpf. inversion Hpf.
  - assert (q ∈ filter (fun q => prof_id q = prof_id p) (profiles d))
      as Hq by (rewrite Hf; left).
    apply list_elem_of_filter in Hq as [Hid Hq]. exists q. auto.
Qed.

Lemma recipients_of_notifications row name (l : list uuid) :
  notif_user_id <$> (expense_notification row name <$> l) = l.
Proof.
  induction l as [|i l IH]; simpl; [reflexivity|]. f_equal. exact IH.
Qed.

(** C9: the recipients of the notifications written for a committed
    expense depend on the creator's designation: for a Store Manager, the
    approved profiles other than the creator; for an Owner, the Owner
    profiles other than the creator. Every notification written is of type
    [expense]. *)
Theorem expense_notification_fan_out row d d' u :
  insert_expense row d = (d', inr u) ->
  (forall p, p ∈ profiles d -> prof_id p ∈ auth_users d) ->
  exists creator ns,
    select_profile d (exp_created_by row) = Some creator
    /\ notifications d' = notifications d ++ ns
    /\ Forall (fun n => notif_type n = TyExpense) ns
    /\ (prof_designation creator = "Store Manager" ->
        forall i, i ∈ notif_user_id <$> ns <->
                  i ≠ exp_created_by row
                  /\ exists p, p ∈ profiles d /\ prof_id p = i
                               /\ prof_is_approved p = true)
    /\ (prof_designation creator = "Owner" ->
        forall i, i ∈ notif_user_id <$> ns <->
                  i ≠ exp_created_by row
                  /\ exists p, p ∈ profiles d /\ prof_id p = i
                               /\ prof_designation p = "Owner").
Proof.
  intros H Hfk. apply insert_expense_inr in H as [Hcreator H].
  rewrite notify_expense_eq in H. inversion H; subst; clear H.
  destruct (select_profile_Some d _ Hcreator) as (creator & Hsel & _ & _).
  exists creator. eexists. split; [exact Hsel|]. split; [reflexivity|].
  change (select_profile (set_expenses (expenses d ++ [row]) d)
            (exp_created_by row))
    with (select_profile d (exp_created_by row)).
  rewrite Hsel. simpl.
  split; [apply Forall_fmap, Forall_forall; intros; reflexivity|].
  rewrite recipients_of_notifications.
  unfold expense_recipients.
  change (select_profile (set_expenses (expenses d ++ [row]) d)
            (exp_created_by row))
    with (select_profile d (exp_created_by row)).
  rewrite Hsel. simpl.
  split; intros Hdes i; rewrite Hdes.
  - rewrite decide_True by reflexivity.
    rewrite list_elem_of_filter. unfold approved_ids. simpl.
    rewrite list_elem_of_fmap. split.
    + intros [[Hne (p & -> & Hp)] _].
      apply list_elem_of_filter in Hp as [Happ Hp]. eauto.
    + intros [Hne (p & Hp & <- & Happ)]. split; [|auto]. split; [auto|].
      exists p. split; [reflexivity|]. apply list_elem_of_filter; auto.
  - rewrite decide_False by discriminate.
    rewrite list_elem_of_filter. unfold owner_ids. simpl.
    rewrite list_elem_of_fmap. split.
    + intros [[Hne (p & -> & Hp)] _].
      apply list_elem_of_filter in Hp as [Hown Hp]. eauto.
    + intros [Hne (p & Hp & <- & Hown)]. split; [|auto]. split; [auto|].
      exists p. split; [reflexivity|]. apply list_elem_of_filter; auto.
Qed.

End ExpenseNotifications.

(** ** Sales through [handle_sale] *)
Section SaleProcedure.
Import Sql.




Lemma notify_sale_categories row d d' u :
  notify_sale row d = (d', inr u) -> categories d' = categories d
                                     /\ balances d' = balances d.
Proof.
  unfold notify_sale. rewrite bind_unfold. simpl.
  intros H; inversion H; subst. auto.
Qed.







End SaleProcedure.

(** ** One step of the ledger *)
Section LedgerStep.
Import Sql.

Lemma sale_trigger_balances now row d d' u :
  insert_sale now row d = (d', inr u) ->
  forall b rest,
    balances d = b :: rest ->
    exists rest',
      balances d' =
        {| bal_id := bal_id b;
           shop_balance := shop_balance b + pay_cash (sale_payment row);
           bank_balance := bank_balance b + pay_online (sale_payment row);
           last_updated := now |} :: rest'.
Proof.
  unfold insert_sale, update_balances_for_sale.
  intros H b rest Hbal. destruct u. tx_inv.
  match goal with
  | H1 : notify_sale _ _ = _ |- _ =>
      apply notify_sale_categories in H1 as [_ H1]; simpl in H1
  end.
  apply update_balances_inr in H.
  match goal with
  | H1 : balances ?x = balances d |- _ =>
      rewrite H1, Hbal in H
  end.
  cbn [head fmap option_fmap option_map] in H.
  destruct H as (bs & Hrows & ->).
  apply update_rows_head in Hrows as (b' & rest' & Hb' & -> & _).
  apply set_row_inr in Hb' as ->. simpl. eauto.
Qed.

Lemma sale_trigger_no_row now row d d' u :
  insert_sale now row d = (d', inr u) ->
  balances d = [] -> balances d' = [].
Proof.
  unfold insert_sale, update_balances_for_sale.
  intros H Hbal. destruct u. tx_inv.
  match goal with
  | H1 : notify_sale _ _ = _ |- _ =>
      apply notify_sale_categories in H1 as [_ H1]; simpl in H1
  end.
  apply update_balances_inr in H.
  match goal with
  | H1 : balances ?x = balances d |- _ =>
      rewrite H1, Hbal in H; simpl in H; subst; rewrite H1; exact Hbal
  end.
Qed.

Lemma deposit_trigger_no_row now row d d' u :
  insert_deposit now row d = (d', inr u) ->
  balances d = [] -> balances d' = [].
Proof.
  intros H Hbal. apply insert_deposit_inr in H as (ns & H).
  unfold update_balances_for_deposit in H. tx_inv.
  apply update_balances_inr in H.
  cbn [balances set_notifications set_deposits] in H. rewrite Hbal in H.
  simpl in H. subst. exact Hbal.
Qed.

(** A committed operation that stays within means keeps the balances
    non-negative. *)
Lemma within_means_keeps_nonneg op d d' u :
  apply_operation op d = (d', inr u) ->
  within_means op d ->
  balances_nonneg d ->
  balances_nonneg d'.
Proof.
  intros H Hmeans Hnn. destruct op as [now row|i now usr p c o|row|now row];
    simpl in H.
  - unfold insert_into_sales in H. tx_inv.
    intros s k Hcur. unfold current_balances in *.
    destruct (balances d) as [|b rest] eqn:Hbal.
    + rewrite (sale_trigger_no_row _ _ _ _ _ H Hbal) in Hcur.
      discriminate.
    + destruct (sale_trigger_balances _ _ _ _ _ H b rest Hbal)
        as (rest' & Hafter).
      rewrite Hafter in Hcur. simpl in Hcur. inversion Hcur; subst.
      apply (Hmeans (shop_balance b) (bank_balance b)).
      unfold current_balances. rewrite Hbal. reflexivity.
  - tx_inv.
    match goal with
    | H1 : handle_expense _ _ _ _ _ _ _ = _ |- _ =>
        apply handle_expense_inr in H1
          as (b & rest & rest' & _ & Hc & Ho & _ & _ & Hbal & _)
    end.
    intros s k Hcur. unfold current_balances in Hcur.
    rewrite Hbal in Hcur. simpl in Hcur. inversion Hcur; subst. lia.
  - destruct u. apply inserted_expense_keeps_balances in H.
    intros s k Hcur. unfold current_balances in Hcur. rewrite H in Hcur.
    apply Hnn. exact Hcur.
  - destruct u. intros s k Hcur.
    destruct (current_balances d) as [[s0 k0]|] eqn:Hbefore.
    + rewrite (deposit_conserves_total_balances now row d d' H s0 k0 Hbefore)
        in Hcur.
      inversion Hcur; subst.
      destruct (Hmeans s0 k0 Hbefore). lia.
    + exfalso. unfold insert_into_deposits in H. tx_inv.
      unfold current_balances in Hbefore, Hcur.
      destruct (balances d) as [|b rest] eqn:Hbal; [|discriminate].
      rewrite (deposit_trigger_no_row _ _ _ _ _ H Hbal) in Hcur.
      discriminate.
Qed.

End LedgerStep.

(** ** The optimistic category actions *)
Section CategoryActions.
Import Client.

Lemma restore_categories cs st :
  optimisticUpdateCategories (categories st)
    (optimisticUpdateCategories cs st) = st.
Proof. destruct st; reflexivity. Qed.

Lemma restore_categories_twice cs st :
  optimisticUpdateCategories (categories st)
    (optimisticUpdateCategories (categories st)
       (optimisticUpdateCategories cs st)) = st.
Proof. destruct st; reflexivity. Qed.

(** The shared tail: a failed remote call puts back the captured array and
    rethrows; a successful one keeps the optimistic store. *)
Lemma commit_or_revert_spec cs remote req st ls :
  let o := commit_or_revert (categories st) remote req
             (optimisticUpdateCategories cs st) ls in
  o_storage o = ls /\ o_requests o = [req]
  /\ match remote_failure remote with
     | Some e => o_store o = st /\ o_result o = inl e
     | None => o_store o = optimisticUpdateCategories cs st
               /\ o_result o = inr tt
     end.
Proof.
  unfold commit_or_revert. destruct remote as [r|e]; simpl.
  - destruct (error r) as [e|]; simpl; repeat split; auto.
    apply restore_categories_twice.
  - repeat split; auto. apply restore_categories.
Qed.

Lemma filter_insert_by_price (keep : Category -> Prop)
    `{!forall c, Decision (keep c)} x s :
  keep x ->
  (forall y, y ∈ s -> keep y -> c_price x <= c_price y) ->
  filter keep (insert_by_price x s) = x :: filter keep s.
Proof.
  intros Hx. induction s as [|y s IH]; simpl; intros Hle.
  - rewrite filter_cons_True by done. reflexivity.
  - destruct (decide (c_price x <= c_price y)) as [Hxy|Hxy].
    + rewrite filter_cons_True by done. reflexivity.
    + assert (~ keep y) as Hy.
      { intros Hy. apply Hxy, Hle; [left|exact Hy]. }
      rewrite !filter_cons_False by done.
      apply IH. intros z Hz. apply Hle. right. exact Hz.
Qed.

(** Sorting a price-sorted list with one more element and then dropping
    that element gives the list back. *)
Lemma filter_sort_added l new :
  price_sorted l ->
  c_id new ∉ c_id <$> l ->
  filter (fun c => c_id c ≠ c_id new) (sort_by_price (l ++ [new])) = l.
Proof.
  unfold sort_by_price. induction l as [|x l IH]; simpl; intros Hs Hfresh.
  - rewrite filter_cons_False by (intros H; apply H; reflexivity).
    reflexivity.
  - apply StronglySorted_inv in Hs as [Hs Hx].
    apply not_elem_of_cons in Hfresh as [Hne Hfresh].
    specialize (IH Hs Hfresh).
    rewrite filter_insert_by_price.
    + rewrite IH. reflexivity.
    + congruence.
    + intros y Hy Hkeep.
      assert (y ∈ l) as Hyl.
      { rewrite <- IH. apply list_elem_of_filter. auto. }
      rewrite Forall_forall in Hx. apply Hx. exact Hyl.
Qed.

(** What each action does, by whether a category with a truthy id sits at
    the index. *)
Lemma updateStock_unfold index stock remote st ls :
  updateStock index stock remote st ls =
  match at_index (categories st) index,
        truthy_id (at_index (categories st) index) with
  | Some c, Some id =>
      commit_or_revert (categories st) remote
        (UpdateCategory id (SetStock (Z.max 0 stock)))
        (optimisticUpdateCategories
           (<[Z.to_nat index := with_stock c (Z.max 0 stock)]>
              (categories st)) st) ls
  | _, _ => unchanged st ls
  end.
Proof.
  unfold updateStock.
  destruct (at_index (categories st) index) as [c|]; [|reflexivity].
  destruct (truthy_id (Some c)); reflexivity.
Qed.

Lemma updatePrice_unfold index newPrice remote st ls :
  updatePrice index newPrice remote st ls =
  match at_index (categories st) index,
        truthy_id (at_index (categories st) index) with
  | Some c, Some id =>
      commit_or_revert (categories st) remote
        (UpdateCategory id (SetPrice newPrice))
        (optimisticUpdateCategories
           (<[Z.to_nat index := with_price c newPrice]> (categories st))
           st) ls
  | _, _ => unchanged st ls
  end.
Proof.
  unfold updatePrice.
  destruct (at_index (categories st) index) as [c|]; [|reflexivity].
  destruct (truthy_id (Some c)); reflexivity.
Qed.

Lemma deleteCategory_unfold index remote st ls :
  deleteCategory index remote st ls =
  match at_index (categories st) index,
        truthy_id (at_index (categories st) index) with
  | Some c, Some id =>
      commit_or_revert (categories st) remote (DeleteCategory id)
        (optimisticUpdateCategories
           (delete (Z.to_nat index) (categories st)) st) ls
  | _, _ => unchanged st ls
  end.
Proof.
  unfold deleteCategory.
  destruct (at_index (categories st) index) as [c|]; [|reflexivity].
  destruct (truthy_id (Some c)); reflexivity.
Qed.

(** After one of the three index actions the store is the store before the
    call or the optimistic store, and it is the store before the call when
    the remote call failed. *)
Lemma index_action_outcome (o : outcome) cs remote req st ls :
  o = commit_or_revert (categories st) remote req
        (optimisticUpdateCategories cs st) ls
  \/ o = unchanged st ls ->
  (is_Some (remote_failure remote) -> o_store o = st)
  /\ (o_store o = st \/ o_store o = optimisticUpdateCategories cs st)
  /\ o_storage o = ls.
Proof.
  intros [->| ->].
  - destruct (commit_or_revert_spec cs remote req st ls) as (Hls & _ & H).
    destruct (remote_failure remote) as [e|].
    + destruct H as [H _]. auto.
    + destruct H as [H _]. split; [|auto]. intros [? ?]. discriminate.
  - simpl. auto.
Qed.

Lemma addCategory_error_response price env st ls user r e :
  ac_getUser env = Fulfilled (Some user) ->
  ac_insert env = Fulfilled r ->
  error r = Some e ->
  let newCategory :=
    {| c_id := Some (ac_randomUUID env); c_price := price; c_stock := 0;
       c_user_id := Some user |} in
  let o := addCategory price env st ls in
  o_result o = inl e
  /\ o_storage o = ls
  /\ o_store o =
       optimisticUpdateCategories
         (filter (fun c => c_id c ≠ c_id newCategory)
            (sort_by_price (categories st ++ [newCategory]))) st.
Proof.
  intros Hu Hi He. unfold addCategory. rewrite Hu, Hi, He. simpl.
  repeat split.
Qed.

(** What the four actions do on failure. For updateStock, updatePrice and
    deleteCategory a failed remote call (rejected, or resolved with an
    error) leaves the store exactly as it was before the call, and after
    any such call the store is either that or the optimistic store.
    addCategory, when the insert resolves with an error, rethrows it and
    sets the categories to the current list without the provisional
    category, which is the list before the call only when that list was in
    ascending price order and did not hold the provisional id. *)
Theorem failed_category_action_restores_store st ls :
  (forall index stock remote,
     let o := updateStock index stock remote st ls in
     (is_Some (remote_failure remote) -> o_store o = st)
     /\ (o_store o = st
         \/ exists c, at_index (categories st) index = Some c
                      /\ o_store o =
                           optimisticUpdateCategories
                             (<[Z.to_nat index :=
                                  with_stock c (Z.max 0 stock)]>
                                (categories st)) st))
  /\ (forall index newPrice remote,
        let o := updatePrice index newPrice remote st ls in
        (is_Some (remote_failure remote) -> o_store o = st)
        /\ (o_store o = st
            \/ exists c, at_index (categories st) index = Some c
                         /\ o_store o =
                              optimisticUpdateCategories
                                (<[Z.to_nat index := with_price c newPrice]>
                                   (categories st)) st))
  /\ (forall index remote,
        let o := deleteCategory index remote st ls in
        (is_Some (remote_failure remote) -> o_store o = st)
        /\ (o_store o = st
            \/ o_store o =
                 optimisticUpdateCategories
                   (delete (Z.to_nat index) (categories st)) st))
  /\ (forall price env user r e,
        ac_getUser env = Fulfilled (Some user) ->
        ac_insert env = Fulfilled r ->
        error r = Some e ->
        let o := addCategory price env st ls in
        o_result o = inl e
        /\ categories (o_store o) =
             filter (fun c => c_id c ≠ Some (ac_randomUUID env))
               (sort_by_price
                  (categories st ++
                     [ {| c_id := Some (ac_randomUUID env);
                          c_price := price; c_stock := 0;
                          c_user_id := Some user |} ]))
        /\ (price_sorted (categories st) ->
            Some (ac_randomUUID env) ∉ c_id <$> categories st ->
            o_store o = st)).
Proof.
  split; [|split; [|split]].
  - intros index stock remote. cbv zeta. rewrite updateStock_unfold.
    destruct (at_index (categories st) index) as [c|];
      [destruct (truthy_id (Some c))|]; try (split; [|left]; reflexivity).
    edestruct index_action_outcome as (Hf & [H|H] & _);
      [left; reflexivity| |]; split; eauto.
  - intros index newPrice remote. cbv zeta. rewrite updatePrice_unfold.
    destruct (at_index (categories st) index) as [c|];
      [destruct (truthy_id (Some c))|]; try (split; [|left]; reflexivity).
    edestruct index_action_outcome as (Hf & [H|H] & _);
      [left; reflexivity| |]; split; eauto.
  - intros index remote. cbv zeta. rewrite deleteCategory_unfold.
    destruct (at_index (categories st) index) as [c|];
      [destruct (truthy_id (Some c))|]; try (split; [|left]; reflexivity).
    edestruct index_action_outcome as (Hf & [H|H] & _);
      [left; reflexivity| |]; split; eauto.
  - intros price env user r e Hu Hi He. cbv zeta.
    destruct (addCategory_error_response price env st ls user r e Hu Hi He)
      as (Hres & _ & Hst).
    split; [exact Hres|]. split; [rewrite Hst; reflexivity|].
    intros Hsorted Hfresh. rewrite Hst.
    rewrite (filter_sort_added (categories st)
               {| c_id := Some (ac_randomUUID env); c_price := price;
                  c_stock := 0; c_user_id := Some user |}) by assumption.
    destruct st; reflexivity.
Qed.

End CategoryActions.

(** ** updateStock *)
Section UpdateStock.
Import Client.

Lemma at_index_insert {A} (l : list A) index x y :
  at_index l index = Some y ->
  at_index (<[Z.to_nat index := x]> l) index = Some x.
Proof.
  unfold at_index. destruct (decide (0 <= index)); [|discriminate].
  intros H. apply list_lookup_insert_eq. eapply lookup_lt_Some. exact H.
Qed.

(** C10, amended: when a category with a truthy id sits at the index, the
    stock written to the optimistic store and the stock sent in the remote
    update are both [max(0, stock)], which is never negative, and the other
    positions keep their category; when no category with a truthy id sits
    at the index (no category, or one whose id is missing or empty),
    updateStock changes nothing and sends nothing. *)
Theorem updateStock_writes_clamped_stock index stock remote st ls :
  let o := updateStock index stock remote st ls in
  (forall c id,
     at_index (categories st) index = Some c ->
     truthy_id (Some c) = Some id ->
     exists optimistic,
       0 <= Z.max 0 stock
       /\ at_index (categories optimistic) index
          = Some (with_stock c (Z.max 0 stock))
       /\ (forall j, j ≠ Z.to_nat index ->
                     categories optimistic !! j = categories st !! j)
       /\ o = commit_or_revert (categories st) remote
                (UpdateCategory id (SetStock (Z.max 0 stock)))
                optimistic ls
       /\ o_requests o = [UpdateCategory id (SetStock (Z.max 0 stock))]
       /\ (remote_failure remote = None -> o_store o = optimistic))
  /\ (truthy_id (at_index (categories st) index) = None ->
      o_store o = st /\ o_storage o = ls /\ o_requests o = []).
Proof.
  cbv zeta. rewrite updateStock_unfold. split.
  - intros c id Hc Hid. rewrite Hc, Hid.
    exists (optimisticUpdateCategories
              (<[Z.to_nat index := with_stock c (Z.max 0 stock)]>
                 (categories st)) st).
    split; [lia|]. split; [simpl; eapply at_index_insert; exact Hc|].
    split.
    { intros j Hj. simpl. apply list_lookup_insert_ne. auto. }
    split; [reflexivity|].
    destruct (commit_or_revert_spec
                (<[Z.to_nat index := with_stock c (Z.max 0 stock)]>
                   (categories st)) remote
                (UpdateCategory id (SetStock (Z.max 0 stock))) st ls)
      as (_ & Hreq & Hcase).
    split; [exact Hreq|]. intros Hok. rewrite Hok in Hcase. apply Hcase.
  - intros Hnone. rewrite Hnone.
    destruct (at_index (categories st) index); simpl; auto.
Qed.

End UpdateStock.

(** ** fetchAllData *)
Section FetchAllData.
Import Client.

Variables (env : FetchEnv) (user : string).
Hypothesis signed_in : fe_getUser env = Fulfilled (Some user).

Lemma fetchAllData_failure st ls :
  is_Some (remote_failure (fe_categories env))
  \/ is_Some (remote_failure (fe_sales env))
  \/ is_Some (remote_failure (fe_balances env)) ->
  exists e,
    fetchAllData env st ls
    = {| o_store := st; o_storage := ls; o_requests := fetch_requests;
         o_result := inl e |}
    /\ (remote_failure (fe_categories env) = Some e
        \/ remote_failure (fe_sales env) = Some e
        \/ remote_failure (fe_balances env) = Some e).
Proof.
  unfold fetchAllData. rewrite signed_in.
  destruct (fe_categories env) as [rc|ec], (fe_sales env) as [rs|es],
    (fe_balances env) as [rb|eb]; simpl;
    try destruct (error rc) as [e1|] eqn:H1;
    try destruct (error rs) as [e2|] eqn:H2;
    try destruct (error rb) as [e3|] eqn:H3;
    intros Hfail; eauto 6.
  destruct Hfail as [[? ?]|[[? ?]|[? ?]]]; discriminate.
Qed.

Lemma fetchAllData_success st ls rc rs rb :
  fe_categories env = Fulfilled rc -> error rc = None ->
  fe_sales env = Fulfilled rs -> error rs = None ->
  fe_balances env = Fulfilled rb -> error rb = None ->
  let categories :=
    default [] (fmap (M := list) process_category <$> data rc) in
  let balances :=
    {| shopBalance := default 0 (rb_shop_balance <$> data rb);
       bankBalance := default 0 (rb_bank_balance <$> data rb) |} in
  fetchAllData env st ls
  = {| o_store :=
         {| categories := categories;
            sales := default [] (fmap (M := list) (process_sale (fe_now env))
                                   <$> data rs);
            initialized := true; userProfile := userProfile st;
            balances := balances |};
       o_storage := {| cached_categories := Some categories;
                       cached_balances := Some balances |};
       o_requests := fetch_requests; o_result := inr tt |}.
Proof.
  intros Hc Hec Hs Hes Hb Heb. unfold fetchAllData.
  rewrite signed_in, Hc, Hs, Hb, Hec, Hes, Heb. reflexivity.
Qed.

(** fetchAllData leaves [initialized] alone when a fetch fails; its caller
    initializeStore sets it in its own [catch] before rethrowing. *)
Lemma initializeStore_failure session_user st ls :
  is_Some (remote_failure (fe_categories env))
  \/ is_Some (remote_failure (fe_sales env))
  \/ is_Some (remote_failure (fe_balances env)) ->
  let o := initializeStore (Fulfilled (Some session_user)) env st ls in
  initialized (o_store o) = true
  /\ categories (o_store o) = categories st
  /\ o_storage o = ls
  /\ exists e, o_result o = inl e.
Proof.
  intros Hfail. cbv zeta. unfold initializeStore.
  destruct (fetchAllData_failure (set_initialized false st) ls Hfail)
    as (e & -> & _).
  simpl. eauto.
Qed.

End FetchAllData.

(** C8: when one of the three fetches of fetchAllData fails (its promise
    rejects or it resolves with an error), the store and the cache are what
    they were, so [initialized] is not set by the call, and the call
    rejects with the error of a failed fetch; when all three succeed, the
    categories, the sales and the balances are replaced together, in the
    one store the call leaves, and the cache is overwritten. *)
Theorem fetchAllData_all_or_nothing
    (env : Client.FetchEnv) (st : Client.Store) (ls : Client.LocalStorage)
    (user : string) :
  Client.fe_getUser env = Client.Fulfilled (Some user) ->
  let o := Client.fetchAllData env st ls in
  (is_Some (Client.remote_failure (Client.fe_categories env))
   \/ is_Some (Client.remote_failure (Client.fe_sales env))
   \/ is_Some (Client.remote_failure (Client.fe_balances env)) ->
   Client.o_store o = st
   /\ Client.o_storage o = ls
   /\ Client.initialized (Client.o_store o) = Client.initialized st
   /\ exists e,
        Client.o_result o = inl e
        /\ (Client.remote_failure (Client.fe_categories env) = Some e
            \/ Client.remote_failure (Client.fe_sales env) = Some e
            \/ Client.remote_failure (Client.fe_balances env) = Some e))
  /\ (forall rc rs rb,
        Client.fe_categories env = Client.Fulfilled rc ->
        Client.error rc = None ->
        Client.fe_sales env = Client.Fulfilled rs ->
        Client.error rs = None ->
        Client.fe_balances env = Client.Fulfilled rb ->
        Client.error rb = None ->
        Client.o_result o = inr tt
        /\ Client.o_store o =
             {| Client.categories :=
                  default [] (fmap (M := list) Client.process_category
                                <$> Client.data rc);
                Client.sales :=
                  default [] (fmap (M := list)
                                (Client.process_sale (Client.fe_now env))
                                <$> Client.data rs);
                Client.initialized := true;
                Client.userProfile := Client.userProfile st;
                Client.balances :=
                  {| Client.shopBalance :=
                       default 0 (Client.rb_shop_balance
                                    <$> Client.data rb);
                     Client.bankBalance :=
                       default 0 (Client.rb_bank_balance
                                    <$> Client.data rb) |} |}
        /\ Client.cached_categories (Client.o_storage o)
           = Some (Client.categories (Client.o_store o))
        /\ Client.cached_balances (Client.o_storage o)
           = Some (Client.balances (Client.o_store o))).
Proof.
  intros Hu. cbv zeta. split.
  - intros Hfail.
    destruct (fetchAllData_failure env user Hu st ls Hfail) as (e & -> & He).
    simpl. eauto 6.
  - intros rc rs rb Hc Hec Hs Hes Hb Heb.
    rewrite (fetchAllData_success env user Hu st ls rc rs rb) by assumption.
    simpl. auto.
Qed.

(** ** The payment check of handleCompleteSale *)
Section PaymentCheck.
Import Client Components.

Lemma newTotal_from acc lq cs :
  foldl (fun sum category =>
           sum + quantity_of lq (c_price category) * c_price category)
    acc cs
  = acc + price_times_quantity lq cs.
Proof.
  revert acc. induction cs as [|c cs IH]; simpl; intros acc; [lia|].
  rewrite IH. lia.
Qed.

Lemma saleItems_cons lq c cs :
  saleItems (c :: cs) lq =
  if decide (0 < quantity_of lq (c_price c))
  then sale_item lq c :: saleItems cs lq
  else saleItems cs lq.
Proof.
  unfold saleItems. rewrite filter_cons.
  destruct (decide (0 < quantity_of lq (c_price c))); reflexivity.
Qed.

Lemma items_total_saleItems lq cs :
  (forall c, c ∈ cs -> 0 <= quantity_of lq (c_price c)) ->
  items_total (saleItems cs lq) = price_times_quantity lq cs.
Proof.
  induction cs as [|c cs IH]; intros Hq; [reflexivity|].
  assert (0 <= quantity_of lq (c_price c)) as Hc by (apply Hq; left).
  rewrite saleItems_cons.
  change (price_times_quantity lq (c :: cs))
    with (quantity_of lq (c_price c) * c_price c
          + price_times_quantity lq cs).
  rewrite <- IH by (intros c' Hc'; apply Hq; right; exact Hc').
  destruct (decide (0 < quantity_of lq (c_price c))) as [Hpos|Hzero].
  - change (items_total (sale_item lq c :: saleItems cs lq))
      with (c_price c * quantity_of lq (c_price c)
            + items_total (saleItems cs lq)).
    ring.
  - replace (quantity_of lq (c_price c)) with 0 by lia. ring.
Qed.

(** [updateQuantity] only ever stores clamped, non-negative quantities. *)
Lemma updateQuantity_nonneg price quantity cs v :
  (forall p q, localQuantities v !! p = Some q -> 0 <= q) ->
  forall p q,
    localQuantities (updateQuantity price quantity cs v) !! p = Some q ->
    0 <= q.
Proof.
  intros Hv p q. unfold updateQuantity.
  destruct (decide (updatingPrice v = Some price)); [apply Hv|]. simpl.
  destruct (decide (price = p)) as [->|Hne].
  - rewrite lookup_insert_eq. intros H; inversion H. lia.
  - rewrite lookup_insert_ne by exact Hne. apply Hv.
Qed.

Lemma total_is_items_total v st :
  total v = newTotal (categories st) (localQuantities v) ->
  (forall p q, localQuantities v !! p = Some q -> 0 <= q) ->
  total v = items_total (saleItems (categories st) (localQuantities v)).
Proof.
  intros Htotal Hq. rewrite Htotal. unfold newTotal.
  rewrite newTotal_from, items_total_saleItems; [lia|].
  intros c _. unfold quantity_of.
  destruct (localQuantities v !! c_price c) as [q|] eqn:Hl; simpl;
    [eapply Hq; exact Hl|lia].
Qed.

(** The form's own check: with the total in step with the quantities, a
    sale whose cash and online parts do not add up to the sum of
    price * quantity over its items is refused by handleCompleteSale with
    its payment message before anything is sent -- no upload, no [handle_sale] call --
    and the store and cache stay as they were; a sale whose parts do add up
    passes the check and goes on to the remote calls, reaching
    [handle_sale] when there is no slip to upload and a user is signed
    in. *)
Theorem unbalanced_payment_rejected env v st ls :
  isProcessingSale v = false ->
  total v = newTotal (categories st) (localQuantities v) ->
  (forall p q, localQuantities v !! p = Some q -> 0 <= q) ->
  let h := handleCompleteSale env v st ls in
  let paid := default 0 (cashAmount v) + default 0 (onlineAmount v) in
  let items := saleItems (categories st) (localQuantities v) in
  (paid ≠ items_total items ->
   h_shown h = [payment_must_match] /\ h_requests h = []
   /\ h_store h = st /\ h_storage h = ls)
  /\ (paid = items_total items ->
      h_requests h ≠ []
      /\ forall user,
           optimizedSlipImage v = None ->
           cs_getUser (se_complete env) = Fulfilled (Some user) ->
           RpcHandleSale user items (items_total items)
             {| cash := default 0 (cashAmount v);
                online := default 0 (onlineAmount v); slipImage := None |}
             (cs_now (se_complete env))
           ∈ h_requests h).
Proof.
  intros Hidle Htotal Hq. cbv zeta.
  rewrite <- (total_is_items_total v st Htotal Hq).
  unfold handleCompleteSale. rewrite Hidle. split.
  - intros Hne. rewrite decide_True by exact Hne. simpl.
    repeat split. destruct st; reflexivity.
  - intros Heq. rewrite decide_False by (intros Hne; apply Hne, Heq).
    split.
    + destruct (optimizedSlipImage v) as [img|].
      * destruct (upload_failed (se_upload env)); [discriminate|].
        match goal with
        | |- context [match ?r with inl _ => _ | inr _ => _ end] =>
            destruct r
        end; discriminate.
      * unfold completeSale.
        destruct (cs_getUser (se_complete env)) as [[u|]|e]; simpl;
          try discriminate.
        destruct (cs_rpc (se_complete env)) as [r|e]; simpl;
          try discriminate.
        destruct (error r); simpl; try discriminate.
        match goal with
        | |- context [match ?r with inl _ => _ | inr _ => _ end] =>
            destruct r
        end; discriminate.
    + intros user Hslip Huser. rewrite Hslip. unfold completeSale.
      rewrite Huser.
      destruct (cs_rpc (se_complete env)) as [r|e]; simpl.
      * destruct (error r); simpl; [apply elem_of_cons; right; left|].
        match goal with
        | |- context [match ?r with inl _ => _ | inr _ => _ end] =>
            destruct r
        end; simpl; apply elem_of_cons; right; left.
      * apply elem_of_cons; right; left.
Qed.

(** A sale the remote call refuses -- for want of stock, say -- is undone
    in the store: the categories go back to the array read before the
    optimistic decrement. *)
Lemma refused_sale_restores_store env v st ls user e :
  isProcessingSale v = false ->
  default 0 (cashAmount v) + default 0 (onlineAmount v) = total v ->
  optimizedSlipImage v = None ->
  cs_getUser (se_complete env) = Fulfilled (Some user) ->
  remote_failure (cs_rpc (se_complete env)) = Some e ->
  let h := handleCompleteSale env v st ls in
  h_store h = st /\ h_storage h = ls /\ h_shown h = [sale_alert e].
Proof.
  intros Hidle Hpaid Hslip Huser Hfail. cbv zeta.
  unfold handleCompleteSale. rewrite Hidle.
  rewrite decide_False by (intros Hne; apply Hne, Hpaid).
  rewrite Hslip. unfold completeSale. rewrite Huser.
  destruct (cs_rpc (se_complete env)) as [r|e']; simpl in Hfail |- *.
  - rewrite Hfail. simpl. repeat split. destruct st; reflexivity.
  - inversion Hfail; subst. repeat split. destruct st; reflexivity.
Qed.

End PaymentCheck.

(** ** Worked cases *)
Section WorkedCases.
Import Examples.

(** C4 at work: Bob asks for 150 in cash from a till holding 100. *)
Lemma failed_expense_witness :
  head (Sql.balances shop) = Some till
  /\ (150 > Sql.shop_balance till \/ 0 > Sql.bank_balance till)
  /\ (exists msg,
        Sql.handle_expense_body "e1" "t1" "bob" "tea" 150 0 shop
        = (shop, inl (Sql.RaiseException msg)))
  /\ exists e,
       Sql.rpc_handle_expense "e1" "t1" "bob" "tea" 150 0 shop
       = (shop, inl e).
Proof.
  assert (H1 : head (Sql.balances shop) = Some till) by reflexivity.
  assert (H2 : 150 > Sql.shop_balance till \/ 0 > Sql.bank_balance till)
    by (left; simpl; lia).
  split; [exact H1|]. split; [exact H2|].
  exact (failed_expense_leaves_ledger_unchanged "e1" "t1" "bob" "tea"
           150 0 shop till H1 H2).
Defined.

(** C5 at work: 60 banked from a till of 100 and a bank balance of 40. *)
Lemma deposit_conserves_total_witness :
  let d' := (Sql.insert_into_deposits "t1" banked_60 shop).1 in
  Sql.insert_into_deposits "t1" banked_60 shop = (d', inr tt)
  /\ Sql.current_balances shop = Some (100, 40)
  /\ Sql.current_balances d' = Some (40, 100)
  /\ Sql.total_funds d' = Sql.total_funds shop.
Proof.
  cbv zeta.
  assert (H1 : Sql.insert_into_deposits "t1" banked_60 shop
               = ((Sql.insert_into_deposits "t1" banked_60 shop).1, inr tt))
    by (vm_compute; reflexivity).
  assert (H2 : Sql.current_balances shop = Some (100, 40)) by reflexivity.
  split; [exact H1|]. split; [exact H2|].
  exact (deposit_conserves_total "t1" banked_60 shop _ H1 100 40 H2).
Defined.

(** C9 at work: an expense by Bob, a Store Manager. *)
Lemma expense_notification_fan_out_witness :
  let d' := (Sql.insert_expense tea_by_bob shop).1 in
  Sql.insert_expense tea_by_bob shop = (d', inr tt)
  /\ (forall p, p ∈ Sql.profiles shop ->
                Sql.prof_id p ∈ Sql.auth_users shop)
  /\ exists creator ns,
       Sql.select_profile shop "bob" = Some creator
       /\ Sql.notifications d' = Sql.notifications shop ++ ns
       /\ Forall (fun n => Sql.notif_type n = Sql.TyExpense) ns
       /\ (Sql.prof_designation creator = "Store Manager" ->
           forall i, i ∈ Sql.notif_user_id <$> ns <->
                     i ≠ "bob"
                     /\ exists p, p ∈ Sql.profiles shop
                                  /\ Sql.prof_id p = i
                                  /\ Sql.prof_is_approved p = true)
       /\ (Sql.prof_designation creator = "Owner" ->
           forall i, i ∈ Sql.notif_user_id <$> ns <->
                     i ≠ "bob"
                     /\ exists p, p ∈ Sql.profiles shop
                                  /\ Sql.prof_id p = i
                                  /\ Sql.prof_designation p = "Owner").
Proof.
  cbv zeta.
  assert (H1 : Sql.insert_expense tea_by_bob shop
               = ((Sql.insert_expense tea_by_bob shop).1, inr tt))
    by (vm_compute; reflexivity).
  assert (H2 : forall p, p ∈ Sql.profiles shop ->
                         Sql.prof_id p ∈ Sql.auth_users shop).
  { apply Forall_forall.
    apply (bool_decide_unpack
             (Forall (fun p => Sql.prof_id p ∈ Sql.auth_users shop)
                (Sql.profiles shop))).
    vm_compute. exact I. }
  split; [exact H1|]. split; [exact H2|].
  exact (expense_notification_fan_out tea_by_bob shop _ tt H1 H2).
Defined.

Example store_manager_expense_reaches_approved_others :
  Sql.notif_user_id
    <$> Sql.notifications (Sql.insert_into_expenses tea_by_bob shop).1
  = ["alice"; "dave"].
Proof. vm_compute. reflexivity. Qed.

Example owner_expense_reaches_other_owners :
  Sql.notif_user_id
    <$> Sql.notifications (Sql.insert_into_expenses rent_by_alice shop).1
  = ["dave"].
Proof. vm_compute. reflexivity. Qed.


Example committed_sale_moves_stock_and_money :
  let d' := (Sql.rpc_handle_sale "s1" "t1" "bob" [two_of_149] 298
               paid_298 "t1" shop).1 in
  Sql.cat_stock <$> Sql.categories d' = [3; 3]
  /\ Sql.current_balances d' = Some (300, 138).
Proof. vm_compute. auto. Qed.

(** A sale built from a stale stock figure: the database refuses it whole
    and the store goes back to the categories it had. *)
Example stale_stock_sale_is_refused_and_undone :
  let h := Components.handleCompleteSale sale_of_four_env four_chosen
             five_left no_cache in
  let r := System.serve "s1" "t9" sale_of_four shop in
  Components.h_requests h = [Client.AuthGetUser; sale_of_four]
  /\ r = (shop, inl (Sql.InsufficientStock "c49"))
  /\ Components.h_store h = five_left
  /\ Components.h_shown h = ["Error completing sale"].
Proof. vm_compute. auto. Qed.

(** The form's check on two items of 149, paid 200 in cash and 50
    online. *)
Lemma unbalanced_payment_witness :
  Components.isProcessingSale (basket (Some 200) (Some 50)) = false
  /\ Components.total (basket (Some 200) (Some 50))
     = Components.newTotal (Client.categories mirror)
         (Components.localQuantities (basket (Some 200) (Some 50)))
  /\ (forall p q,
        Components.localQuantities (basket (Some 200) (Some 50)) !! p
        = Some q -> 0 <= q)
  /\ let h := Components.handleCompleteSale sale_env
                (basket (Some 200) (Some 50)) mirror no_cache in
     Components.h_shown h = [Components.payment_must_match]
     /\ Components.h_requests h = []
     /\ Components.h_store h = mirror
     /\ Components.h_storage h = no_cache.
Proof.
  assert (H1 : Components.isProcessingSale (basket (Some 200) (Some 50))
               = false) by reflexivity.
  assert (H2 : Components.total (basket (Some 200) (Some 50))
               = Components.newTotal (Client.categories mirror)
                   (Components.localQuantities
                      (basket (Some 200) (Some 50))))
    by (vm_compute; reflexivity).
  assert (H3 : forall p q,
             Components.localQuantities (basket (Some 200) (Some 50)) !! p
             = Some q -> 0 <= q).
  { intros p q Hl. simpl in Hl.
    apply lookup_singleton_Some in Hl as [_ <-]. lia. }
  split; [exact H1|]. split; [exact H2|]. split; [exact H3|].
  apply (proj1 (unbalanced_payment_rejected sale_env
                  (basket (Some 200) (Some 50)) mirror no_cache H1 H2 H3)).
  vm_compute. discriminate.
Defined.

Example balanced_payment_reaches_handle_sale :
  Components.h_requests
    (Components.handleCompleteSale sale_env (basket (Some 200) (Some 98))
       mirror no_cache)
  = [ Client.AuthGetUser;
      Client.RpcHandleSale "bob"
        [ {| Client.si_category :=
               {| Client.ic_id := "c149"; Client.ic_price := 149;
                  Client.ic_stock := 5 |};
             Client.si_quantity := 2 |} ]
        298
        {| Client.cash := 200; Client.online := 98;
           Client.slipImage := None |} "t9";
      Client.AuthGetUser; Client.SelectCategories; Client.SelectSales;
      Client.SelectBalances ].
Proof. vm_compute. reflexivity. Qed.

(** The categories are out of price order, the insert of a new category
    is refused, and the store addCategory leaves is neither the store
    before the call nor the optimistic one: the revert filters the
    re-sorted list. *)
Lemma addCategory_revert_is_recomputed :
  let o := Client.addCategory 50 add_refused repriced no_cache in
  Client.remote_failure (Client.ac_insert add_refused)
  = Some (Client.PostgrestError "permission denied")
  /\ Client.o_result o = inl (Client.PostgrestError "permission denied")
  /\ Client.categories (Client.o_store o)
     = [tier "c149" 149 5; tier "c49" 300 3]
  /\ Client.o_store o ≠ repriced
  /\ Client.o_store o
     ≠ Client.optimisticUpdateCategories
         (Client.sort_by_price
            (Client.categories repriced
             ++ [ {| Client.c_id := Some "new"; Client.c_price := 50;
                     Client.c_stock := 0;
                     Client.c_user_id := Some "bob" |} ])) repriced.
Proof.
  vm_compute. repeat split; try reflexivity; discriminate.
Qed.

(** The four actions failing on a store in price order. *)
Lemma failed_category_action_witness :
  is_Some (Client.remote_failure refused)
  /\ Client.o_store (Client.updateStock 0 6 refused mirror no_cache) = mirror
  /\ Client.o_store (Client.updatePrice 0 59 offline mirror no_cache)
     = mirror
  /\ Client.o_store (Client.deleteCategory 1 refused mirror no_cache)
     = mirror
  /\ Client.price_sorted (Client.categories mirror)
  /\ (Some (Client.ac_randomUUID add_refused)
      ∉ Client.c_id <$> Client.categories mirror)
  /\ Client.o_store (Client.addCategory 50 add_refused mirror no_cache)
     = mirror.
Proof.
  destruct (failed_category_action_restores_store mirror no_cache)
    as (Hstock & Hprice & Hdelete & Hadd).
  assert (H1 : is_Some (Client.remote_failure refused))
    by (eexists; reflexivity).
  assert (H2 : is_Some (Client.remote_failure
                          (offline : Client.settled (Client.response unit))))
    by (eexists; reflexivity).
  assert (H3 : Client.price_sorted (Client.categories mirror)).
  { repeat constructor; simpl; lia. }
  assert (H4 : Some (Client.ac_randomUUID add_refused)
               ∉ Client.c_id <$> Client.categories mirror).
  { apply (bool_decide_unpack _). vm_compute. exact I. }
  split; [exact H1|].
  split; [exact (proj1 (Hstock 0 6 refused) H1)|].
  split; [exact (proj1 (Hprice 0 59 offline) H2)|].
  split; [exact (proj1 (Hdelete 1 refused) H1)|].
  split; [exact H3|]. split; [exact H4|].
  exact (proj2 (proj2 (Hadd 50 add_refused "bob" _ _ eq_refl eq_refl
                         eq_refl)) H3 H4).
Defined.

(** C10 as stated fails: a category sits at index 0 but has no id, and
    updateStock(0, 7) neither writes 7 nor sends an update. *)
Lemma updateStock_skips_category_without_id :
  let o := Client.updateStock 0 7 ok unsaved no_cache in
  (exists c, Client.at_index (Client.categories unsaved) 0 = Some c)
  /\ (Client.c_stock
        <$> Client.at_index (Client.categories (Client.o_store o)) 0)
     ≠ Some (Z.max 0 7)
  /\ Client.o_store o = unsaved
  /\ Client.o_requests o = [].
Proof.
  vm_compute. split; [eauto|]. split; [discriminate|]. split; reflexivity.
Qed.

(** C10, amended, at work: updateStock(1, -4). *)
Lemma updateStock_witness :
  Client.at_index (Client.categories mirror) 1 = Some (tier "c149" 149 5)
  /\ Client.truthy_id (Some (tier "c149" 149 5)) = Some "c149"
  /\ exists optimistic,
       0 <= Z.max 0 (-4)
       /\ Client.at_index (Client.categories optimistic) 1
          = Some (Client.with_stock (tier "c149" 149 5) (Z.max 0 (-4)))
       /\ (forall j, j ≠ Z.to_nat 1 ->
                     Client.categories optimistic !! j
                     = Client.categories mirror !! j)
       /\ Client.updateStock 1 (-4) ok mirror no_cache
          = Client.commit_or_revert (Client.categories mirror) ok
              (Client.UpdateCategory "c149" (Client.SetStock (Z.max 0 (-4))))
              optimistic no_cache
       /\ Client.o_requests (Client.updateStock 1 (-4) ok mirror no_cache)
          = [Client.UpdateCategory "c149"
               (Client.SetStock (Z.max 0 (-4)))]
       /\ (Client.remote_failure ok = None ->
           Client.o_store (Client.updateStock 1 (-4) ok mirror no_cache)
           = optimistic).
Proof.
  assert (H1 : Client.at_index (Client.categories mirror) 1
               = Some (tier "c149" 149 5)) by reflexivity.
  assert (H2 : Client.truthy_id (Some (tier "c149" 149 5)) = Some "c149")
    by reflexivity.
  split; [exact H1|]. split; [exact H2|].
  exact (proj1 (updateStock_writes_clamped_stock 1 (-4) ok mirror no_cache)
           _ _ H1 H2).
Defined.

Example negative_stock_is_written_as_zero :
  let o := Client.updateStock 1 (-4) ok mirror no_cache in
  Client.c_stock <$> Client.categories (Client.o_store o) = [3; 0]
  /\ Client.o_requests o
     = [Client.UpdateCategory "c149" (Client.SetStock 0)].
Proof. vm_compute. auto. Qed.

(** C8 at work: the sales query rejects. *)
Lemma fetchAllData_witness :
  Client.fe_getUser (fetch_sales_down shop) = Client.Fulfilled (Some "bob")
  /\ (is_Some (Client.remote_failure
                 (Client.fe_categories (fetch_sales_down shop)))
      \/ is_Some (Client.remote_failure
                    (Client.fe_sales (fetch_sales_down shop)))
      \/ is_Some (Client.remote_failure
                    (Client.fe_balances (fetch_sales_down shop))))
  /\ let o := Client.fetchAllData (fetch_sales_down shop) unsaved
                no_cache in
     Client.o_store o = unsaved
     /\ Client.o_storage o = no_cache
     /\ Client.initialized (Client.o_store o) = Client.initialized unsaved
     /\ exists e,
          Client.o_result o = inl e
          /\ (Client.remote_failure
                (Client.fe_categories (fetch_sales_down shop)) = Some e
              \/ Client.remote_failure
                   (Client.fe_sales (fetch_sales_down shop)) = Some e
              \/ Client.remote_failure
                   (Client.fe_balances (fetch_sales_down shop)) = Some e).
Proof.
  assert (H1 : Client.fe_getUser (fetch_sales_down shop)
               = Client.Fulfilled (Some "bob")) by reflexivity.
  assert (H2 : is_Some (Client.remote_failure
                          (Client.fe_categories (fetch_sales_down shop)))
               \/ is_Some (Client.remote_failure
                             (Client.fe_sales (fetch_sales_down shop)))
               \/ is_Some (Client.remote_failure
                             (Client.fe_balances (fetch_sales_down shop))))
    by (right; left; eexists; reflexivity).
  split; [exact H1|]. split; [exact H2|].
  exact (proj1 (fetchAllData_all_or_nothing (fetch_sales_down shop) unsaved
                  no_cache "bob" H1) H2).
Defined.

Example successful_fetch_replaces_everything :
  let o := Client.fetchAllData (fetch_of shop) unsaved no_cache in
  Client.o_result o = inr tt
  /\ Client.categories (Client.o_store o) = Client.categories mirror
  /\ Client.balances (Client.o_store o) = Client.balances mirror
  /\ Client.o_storage o
     = {| Client.cached_categories := Some (Client.categories mirror);
          Client.cached_balances := Some (Client.balances mirror) |}.
Proof. vm_compute. auto. Qed.

(** C1 fails on the code: the deposit handler compares the amount with
    the balance mirrored in the store, and the trigger that moves the money
    checks nothing. From the freshly migrated database: a sale brings 200
    into the till and Bob's store is fetched; Dave's expense then takes 180
    out; Bob's deposit of 200 passes the check against the 200 his store
    still shows and is committed. All three operations commit, and the shop
    balance ends at -180, which is what the store shows after its next
    fetch. *)
Theorem deposit_checked_against_mirror_overdraws :
  let h := Components.deposit_handleSubmit (deposit_env end_of_day)
             (deposit_form 200) bobs_view no_cache in
  Sql.current_balances opening = Some (0, 0)
  /\ Client.shopBalance (Client.balances bobs_view) = 200
  /\ Components.h_requests h
     = [Client.AuthGetUser; Client.InsertDeposit deposit_of_200;
        Client.SelectDeposits] ++ Client.fetch_requests
  /\ Components.h_shown h = ["Deposit created successfully"]
  /\ (Sql.current_balances <$> Sql.commit_all (take 2 overdrawing_day) opening)
     = Some (Some (20, 98))
  /\ (Sql.current_balances <$> Sql.commit_all overdrawing_day opening)
     = Some (Some (-180, 298))
  /\ Client.balances (Components.h_store h)
     = {| Client.shopBalance := -180; Client.bankBalance := 298 |}.
Proof. vm_compute. repeat split; reflexivity. Qed.

Example deposit_above_mirror_is_refused :
  let h := Components.deposit_handleSubmit (deposit_env shop)
             (deposit_form 101) mirror no_cache in
  Components.h_requests h = []
  /\ Components.dp_error (Components.h_view h)
     = Some (Components.exceeds_balance_message 100).
Proof. vm_compute. auto. Qed.

Theorem expense_form_insert_leaves_balances :
  let h := Components.expense_handleSubmit (expense_env shop) expense_form
             mirror no_cache in
  let r := System.serve "e1" "t1" (Client.InsertExpense tea_insert) shop in
  Components.create_expense_disabled expense_form (Components.Integer 50)
    (Components.Integer 0) mirror = false
  /\ Client.InsertExpense tea_insert ∈ Components.h_requests h
  /\ r.2 = inr tt
  /\ Sql.expenses r.1 = [tea_by_bob]
  /\ Sql.exp_amount tea_by_bob
     = Sql.exp_cash_amount tea_by_bob + Sql.exp_online_amount tea_by_bob
  /\ Sql.current_balances shop = Some (100, 40)
  /\ Sql.current_balances r.1 = Some (100, 40)
  /\ Sql.current_balances
       (Sql.rpc_handle_expense "e1" "t1" "bob" "tea" 50 0 shop).1
     = Some (50, 40).
Proof.
  vm_compute. repeat split; try reflexivity.
  apply elem_of_cons; left; reflexivity.
Qed.

(** The list out of price order is what a successful updatePrice leaves
    until the next fetch. *)
Example updatePrice_leaves_list_out_of_order :
  Client.o_store (Client.updatePrice 0 300 ok mirror no_cache) = repriced.
Proof. vm_compute. reflexivity. Qed.

(** When the insert promise of addCategory rejects, nothing reverts the
    optimistic category. *)
Example addCategory_rejected_insert_keeps_optimistic :
  let env :=
    {| Client.ac_getUser := Client.Fulfilled (Some "bob");
       Client.ac_randomUUID := "new"; Client.ac_now := "t9";
       Client.ac_insert := offline; Client.ac_fetch := fetch_of shop |} in
  let o := Client.addCategory 50 env mirror no_cache in
  Client.o_result o = inl (Client.Error "Failed to fetch")
  /\ Client.c_id <$> Client.categories (Client.o_store o)
     = [Some "c49"; Some "new"; Some "c149"].
Proof. vm_compute. auto. Qed.

(** The sale trigger adds whatever cash figure the sale carries: with 348
    online and 50 handed back in cash the form's payment check passes, and
    on the freshly migrated database the shop balance ends at -50. *)
Example cash_back_sale_overdraws_shop :
  let v := basket (Some (-50)) (Some 348) in
  let h := Components.handleCompleteSale sale_env v mirror no_cache in
  let r := Sql.insert_into_sales "t1" cash_back opening in
  Components.h_shown h = []
  /\ r.2 = inr tt
  /\ Sql.current_balances r.1 = Some (-50, 348).
Proof. vm_compute. auto. Qed.

End WorkedCases.

(** ** What every ledger operation leaves alone *)
Section LedgerFrames.
Import Sql Ledger.

Lemma set_balances_same d : set_balances (balances d) d = d.
Proof. destruct d; reflexivity. Qed.

Lemma update_rows_ids t f bs bs' :
  (forall b b', f b = inr b' -> bal_id b' = bal_id b) ->
  update_rows t f bs = inr bs' ->
  bal_id <$> bs' = bal_id <$> bs.
Proof.
  intros Hf. revert bs'. induction bs as [|b bs IH]; intros bs' H.
  - inversion H. reflexivity.
  - cbn [update_rows] in H.
    destruct (decide (bal_id b = t)) as [Heq|Hne].
    + destruct (f b) as [e|b1] eqn:Hb; [discriminate|].
      destruct (update_rows t f bs) as [e|rest]; [discriminate|].
      inversion H; subst. cbn. rewrite (Hf _ _ Hb), (IH rest eq_refl).
      reflexivity.
    + destruct (update_rows t f bs) as [e|rest]; [discriminate|].
      inversion H; subst. cbn. rewrite (IH rest eq_refl). reflexivity.
Qed.

Lemma set_row_id now b shop bank b' :
  set_row now b shop bank = inr b' -> bal_id b' = bal_id b.
Proof. intros H. apply set_row_inr in H as ->. reflexivity. Qed.

(** A balance update rewrites rows in place: same rows, same ids. *)
Lemma update_balances_effect target now g h d d' u :
  update_balances target (fun b => set_row now b (g b) (h b)) d
  = (d', inr u) ->
  exists bs, d' = set_balances bs d
             /\ bal_id <$> bs = bal_id <$> balances d.
Proof.
  intros H. apply update_balances_inr in H. destruct target as [i|].
  - destruct H as (bs & Hrows & ->). exists bs. split; [reflexivity|].
    eapply update_rows_ids; [|exact Hrows].
    intros b b' Hb. eapply set_row_id. exact Hb.
  - subst. exists (balances d). split; [|reflexivity].
    symmetry. apply set_balances_same.
Qed.

Lemma notify_sale_eq row d :
  exists ns,
    forall r, notify_sale row d = r ->
              r = (set_notifications (notifications d ++ ns) d, inr tt).
Proof.
  unfold notify_sale. rewrite bind_unfold. simpl.
  eexists. intros r <-. reflexivity.
Qed.

Lemma insert_sale_effect now row d d' u :
  insert_sale now row d = (d', inr u) ->
  exists ns bs,
    d' = set_balances bs
           (set_notifications (notifications d ++ ns)
              (set_sales (sales d ++ [row]) d))
    /\ bal_id <$> bs = bal_id <$> balances d.
Proof.
  unfold insert_sale, update_balances_for_sale. intros H. destruct u.
  tx_inv.
  destruct (notify_sale_eq row (set_sales (sales d ++ [row]) d))
    as (ns & Hn).
  match goal with
  | H1 : notify_sale _ _ = _ |- _ =>
      apply Hn in H1; inversion H1; subst; clear H1
  end.
  apply update_balances_effect in H as (bs & -> & Hids).
  exists ns, bs. split; [reflexivity|exact Hids].
Qed.

Lemma insert_deposit_effect now row d d' u :
  insert_deposit now row d = (d', inr u) ->
  exists ns bs,
    d' = set_balances bs
           (set_notifications (notifications d ++ ns)
              (set_deposits (deposits d ++ [row]) d))
    /\ bal_id <$> bs = bal_id <$> balances d.
Proof.
  intros H. apply insert_deposit_inr in H as (ns & H).
  unfold update_balances_for_deposit in H. tx_inv.
  apply update_balances_effect in H as (bs & -> & Hids).
  exists ns, bs. split; [reflexivity|exact Hids].
Qed.

Lemma insert_expense_effect row d d' u :
  insert_expense row d = (d', inr u) ->
  d' = set_notifications
         (notifications d
          ++ (expense_notification row
                (prof_name <$> select_profile d (exp_created_by row))
                <$> expense_recipients row d))
         (set_expenses (expenses d ++ [row]) d).
Proof.
  intros H. apply insert_expense_inr in H as [_ H].
  rewrite notify_expense_eq in H. inversion H; subst. reflexivity.
Qed.

Lemma handle_expense_effect new_id now user purpose cash online d d' i :
  handle_expense new_id now user purpose cash online d = (d', inr i) ->
  let row :=
    {| exp_id := new_id; exp_created_by := user; exp_purpose := purpose;
       exp_amount := cash + online; exp_cash_amount := cash;
       exp_online_amount := online; exp_receipt_image := None;
       exp_timestamp := now |} in
  exists d1 bs,
    insert_expense row d = (d1, inr tt)
    /\ d' = set_balances bs d1
    /\ bal_id <$> bs = bal_id <$> balances d.
Proof.
  unfold handle_expense, block_exception, handle_expense_body. intros H.
  match type of H with
  | match ?body d with _ => _ end = _ =>
      destruct (body d) as [d1 [e|a]] eqn:Hbody
  end; [discriminate|].
  inversion H; subst; clear H. tx_inv.
  destruct (head (balances d)) as [b|] eqn:Hhead;
    [|destruct (raise_inr _ _ _ _ Hbody)].
  tx_inv. cbv zeta.
  match goal with
  | H1 : insert_expense _ _ = (?x, inr ?v) |- _ =>
      destruct v; exists x; pose proof (insert_expense_effect _ _ _ _ H1) as Hx
  end.
  match goal with
  | H1 : update_balances _ _ _ = _ |- _ =>
      apply (update_balances_effect _ now (fun _ => shop_balance b - cash)
               (fun _ => bank_balance b - online)) in H1
        as (bs & -> & Hids)
  end.
  exists bs. split; [assumption|]. split; [reflexivity|].
  rewrite Hids. subst. reflexivity.
Qed.

Lemma references_profiles_ok i d :
  i ∈ prof_id <$> profiles d -> references_profiles i d = (d, inr tt).
Proof.
  intros Hin. unfold references_profiles. rewrite bind_unfold. simpl.
  rewrite decide_True by exact Hin. reflexivity.
Qed.

Lemma insert_expense_ok row d :
  exp_created_by row ∈ prof_id <$> profiles d ->
  in_int4 (exp_amount row) = true ->
  in_int4 (exp_cash_amount row) = true ->
  in_int4 (exp_online_amount row) = true ->
  insert_expense row d
  = (set_notifications
       (notifications d
        ++ (expense_notification row
              (prof_name <$> select_profile d (exp_created_by row))
              <$> expense_recipients row d))
       (set_expenses (expenses d ++ [row]) d), inr tt).
Proof.
  intros Hfk Ha Hc Ho. unfold insert_expense.
  rewrite bind_unfold, (references_profiles_ok _ _ Hfk).
  rewrite bind_unfold, (int4_ok _ _ Ha).
  rewrite bind_unfold, (int4_ok _ _ Hc).
  rewrite bind_unfold, (int4_ok _ _ Ho).
  rewrite bind_unfold. cbn [modify].
  rewrite notify_expense_eq. reflexivity.
Qed.

Lemma update_rows_const t now shop bank bs :
  in_int4 shop = true -> in_int4 bank = true ->
  update_rows t (fun b => set_row now b shop bank) bs
  = inr ((fun b =>
            if decide (bal_id b = t)
            then {| bal_id := bal_id b; shop_balance := shop;
                    bank_balance := bank; last_updated := now |}
            else b) <$> bs).
Proof.
  intros Hs Hk. induction bs as [|b bs IH]; [reflexivity|].
  cbn [update_rows]. rewrite IH. unfold set_row, checked. rewrite Hs, Hk.
  cbn. destruct (decide (bal_id b = t)); reflexivity.
Qed.

End LedgerFrames.

(** ** Sequences of committed operations *)
Section LedgerSequences.
Import Sql Ledger.

Lemma commit_all_cons op rest d d' :
  commit_all (op :: rest) d = Some d' ->
  exists d1 u, apply_operation op d = (d1, inr u)
               /\ commit_all rest d1 = Some d'.
Proof.
  simpl. destruct (apply_operation op d) as [d1 [e|u]]; [discriminate|].
  eauto.
Qed.

Lemma apply_operation_effect op d d' u :
  apply_operation op d = (d', inr u) ->
  exists ss es ds ns bs,
    d' = {| auth_users := auth_users d; profiles := profiles d;
            categories := categories d; sales := sales d ++ ss;
            expenses := expenses d ++ es; deposits := deposits d ++ ds;
            balances := bs; notifications := notifications d ++ ns |}
    /\ bal_id <$> bs = bal_id <$> balances d.
Proof.
  intros H. destruct op as [now row|i now usr p c o|row|now row];
    simpl in H.
  - unfold insert_into_sales in H. tx_inv.
    apply insert_sale_effect in H as (ns & bs & -> & Hids).
    exists [row], [], [], ns, bs.
    split; [unfold set_balances, set_notifications, set_sales, set_expenses,
             set_deposits; cbn; f_equal;
           first [reflexivity|symmetry; apply app_nil_r]
          |exact Hids].
  - tx_inv.
    match goal with
    | H1 : handle_expense _ _ _ _ _ _ _ = _ |- _ =>
        apply handle_expense_effect in H1 as (d1 & bs & H1 & -> & Hids)
    end.
    match goal with
    | H1 : insert_expense _ _ = _ |- _ =>
        apply insert_expense_effect in H1; subst d1
    end.
    eexists [], [_], [], _, bs.
    split; [unfold set_balances, set_notifications, set_sales, set_expenses,
             set_deposits; cbn; f_equal;
           first [reflexivity|symmetry; apply app_nil_r]
          |exact Hids].
  - unfold insert_into_expenses in H. tx_inv.
    apply insert_expense_effect in H. subst d'.
    eexists [], [row], [], _, (balances d).
    split; [unfold set_balances, set_notifications, set_sales, set_expenses,
             set_deposits; cbn; f_equal;
           first [reflexivity|symmetry; apply app_nil_r]
          |reflexivity].
  - unfold insert_into_deposits in H. tx_inv.
    apply insert_deposit_effect in H as (ns & bs & -> & Hids).
    exists [], [], [row], ns, bs.
    split; [unfold set_balances, set_notifications, set_sales, set_expenses,
             set_deposits; cbn; f_equal;
           first [reflexivity|symmetry; apply app_nil_r]
          |exact Hids].
Qed.

Lemma commit_all_effect ops : forall d d',
  commit_all ops d = Some d' ->
  exists ss es ds ns bs,
    d' = {| auth_users := auth_users d; profiles := profiles d;
            categories := categories d; sales := sales d ++ ss;
            expenses := expenses d ++ es; deposits := deposits d ++ ds;
            balances := bs; notifications := notifications d ++ ns |}
    /\ bal_id <$> bs = bal_id <$> balances d.
Proof.
  induction ops as [|op rest IH]; intros d d' H.
  - inversion H; subst. exists [], [], [], [], (balances d').
    rewrite !app_nil_r. split; [destruct d'|]; reflexivity.
  - apply commit_all_cons in H as (d1 & u & Hop & Hrest).
    apply apply_operation_effect in Hop
      as (ss1 & es1 & ds1 & ns1 & bs1 & -> & Hids1).
    apply IH in Hrest as (ss & es & ds & ns & bs & -> & Hids).
    simpl in *.
    exists (ss1 ++ ss), (es1 ++ es), (ds1 ++ ds), (ns1 ++ ns), bs.
    rewrite !app_assoc. split; [reflexivity|]. congruence.
Qed.

Lemma apply_operation_funds op d d' u :
  apply_operation op d = (d', inr u) ->
  total_funds d' = (fun t => t + net_inflow op) <$> total_funds d.
Proof.
  intros H. unfold total_funds, current_balances.
  destruct op as [now row|i now usr p c o|row|now row]; simpl in H.
  - unfold insert_into_sales in H. tx_inv.
    destruct (balances d) as [|b rest] eqn:Hbal.
    + rewrite (sale_trigger_no_row _ _ _ _ _ H Hbal). reflexivity.
    + destruct (sale_trigger_balances _ _ _ _ _ H b rest Hbal)
        as (rest' & ->).
      simpl. f_equal. lia.
  - tx_inv.
    match goal with
    | H1 : handle_expense _ _ _ _ _ _ _ = _ |- _ =>
        apply handle_expense_inr in H1
          as (b & rest & rest' & -> & _ & _ & _ & _ & -> & _)
    end.
    simpl. f_equal. lia.
  - destruct u. rewrite (inserted_expense_keeps_balances _ _ _ H).
    destruct (head (balances d)); simpl; f_equal; lia.
  - unfold insert_into_deposits in H. tx_inv.
    destruct (balances d) as [|b rest] eqn:Hbal.
    + rewrite (deposit_trigger_no_row _ _ _ _ _ H Hbal). reflexivity.
    + destruct (deposit_trigger_balances _ _ _ _ _ H b rest Hbal)
        as (rest' & ->).
      simpl. f_equal. lia.
Qed.


(** X1: after any sequence of committed sale rows, expense calls, expense
    rows and deposit rows, the sales, expenses, deposits and notifications
    that were there are still there, unchanged and in order, followed by
    the new ones: the ledger tables are only ever appended to. *)
Theorem ledger_history_is_append_only ops d d' :
  commit_all ops d = Some d' ->
  sales d `prefix_of` sales d'
  /\ expenses d `prefix_of` expenses d'
  /\ deposits d `prefix_of` deposits d'
  /\ notifications d `prefix_of` notifications d'.
Proof.
  intros H. apply commit_all_effect in H as (ss & es & ds & ns & bs & -> & _).
  simpl. repeat split; eexists; reflexivity.
Qed.

(** X2: no sequence of committed ledger operations changes the
    categories: neither trigger nor [handle_expense] ever writes stock or
    price, so a sale row leaves every stock count as it was. Users and
    profiles are untouched too, and the balances table keeps its rows
    (same ids, in the same order). *)
Theorem ledger_operations_leave_stock_alone ops d d' :
  commit_all ops d = Some d' ->
  categories d' = categories d
  /\ profiles d' = profiles d
  /\ auth_users d' = auth_users d
  /\ bal_id <$> balances d' = bal_id <$> balances d.
Proof.
  intros H. apply commit_all_effect in H as (ss & es & ds & ns & bs & -> & ?).
  simpl. auto.
Qed.

(** X3: over any sequence of committed operations the sum of shop and
    bank balance changes by exactly the cash and online parts of the sale
    rows minus the cash and online parts of the [handle_expense] calls;
    deposits and directly inserted expense rows contribute nothing. *)
Theorem ledger_funds_are_accounted_for ops : forall d d',
  commit_all ops d = Some d' ->
  total_funds d' = (fun t => t + net_inflows ops) <$> total_funds d.
Proof.
  induction ops as [|op rest IH]; intros d d' H.
  - inversion H; subst. destruct (total_funds d'); simpl; f_equal; lia.
  - apply commit_all_cons in H as (d1 & u & Hop & Hrest).
    rewrite (IH _ _ Hrest), (apply_operation_funds _ _ _ _ Hop).
    destruct (total_funds d); simpl; f_equal. lia.
Qed.

(** X4: if every operation of a committed sequence asks no more of the
    balances than they hold when it runs (a deposit within the shop
    balance, a sale whose cash and online parts do not take a balance
    below zero), balances that were non-negative stay non-negative. *)
Theorem guarded_operations_keep_balances_nonneg ops : forall d d',
  commit_all ops d = Some d' ->
  guarded ops d ->
  balances_nonneg d ->
  balances_nonneg d'.
Proof.
  induction ops as [|op rest IH]; intros d d' H Hg Hnn.
  - inversion H; subst. exact Hnn.
  - apply commit_all_cons in H as (d1 & u & Hop & Hrest).
    destruct Hg as [Hmeans Hg].
    apply (IH d1 d' Hrest (Hg _ _ Hop)).
    eapply within_means_keeps_nonneg; eauto.
Qed.

(** X1 at work: the day of the overdrawing deposit. *)
Lemma ledger_history_witness :
  commit_all Examples.overdrawing_day Examples.opening
  = Some Examples.end_of_day
  /\ sales Examples.opening `prefix_of` sales Examples.end_of_day
  /\ expenses Examples.opening `prefix_of` expenses Examples.end_of_day
  /\ deposits Examples.opening `prefix_of` deposits Examples.end_of_day
  /\ notifications Examples.opening
     `prefix_of` notifications Examples.end_of_day.
Proof.
  assert (H : commit_all Examples.overdrawing_day Examples.opening
              = Some Examples.end_of_day) by (vm_compute; reflexivity).
  split; [exact H|].
  exact (ledger_history_is_append_only _ _ _ H).
Defined.

(** X2 at work: the first sale names two items of the 149 tier. *)
Lemma ledger_stock_witness :
  commit_all [SaleRow "t1" Examples.first_sale] Examples.shop
  = Some (insert_into_sales "t1" Examples.first_sale Examples.shop).1
  /\ categories (insert_into_sales "t1" Examples.first_sale Examples.shop).1
     = categories Examples.shop
  /\ profiles (insert_into_sales "t1" Examples.first_sale Examples.shop).1
     = profiles Examples.shop
  /\ auth_users (insert_into_sales "t1" Examples.first_sale Examples.shop).1
     = auth_users Examples.shop
  /\ bal_id
       <$> balances
             (insert_into_sales "t1" Examples.first_sale Examples.shop).1
     = bal_id <$> balances Examples.shop.
Proof.
  assert (H : commit_all [SaleRow "t1" Examples.first_sale] Examples.shop
              = Some (insert_into_sales "t1" Examples.first_sale
                        Examples.shop).1) by (vm_compute; reflexivity).
  split; [exact H|].
  exact (ledger_operations_leave_stock_alone _ _ _ H).
Defined.

(** X3 at work: 298 came in and 180 went out; the deposit of 200 moved
    money the till did not hold without changing the sum. *)
Lemma ledger_funds_witness :
  commit_all Examples.overdrawing_day Examples.opening
  = Some Examples.end_of_day
  /\ total_funds Examples.end_of_day
     = (fun t => t + net_inflows Examples.overdrawing_day)
         <$> total_funds Examples.opening.
Proof.
  assert (H : commit_all Examples.overdrawing_day Examples.opening
              = Some Examples.end_of_day) by (vm_compute; reflexivity).
  split; [exact H|].
  exact (ledger_funds_are_accounted_for _ _ _ H).
Defined.

(** X4 at work: the quiet day ends with an empty till and 118 at the
    bank. *)
Lemma guarded_operations_witness :
  commit_all quiet_day Examples.opening = Some end_of_quiet_day
  /\ guarded quiet_day Examples.opening
  /\ balances_nonneg Examples.opening
  /\ balances_nonneg end_of_quiet_day.
Proof.
  assert (H : commit_all quiet_day Examples.opening = Some end_of_quiet_day)
    by (vm_compute; reflexivity).
  assert (Hg : guarded quiet_day Examples.opening).
  { repeat
      (split;
       [intros s k Hc; vm_compute in Hc; inversion Hc; subst;
        cbn; try exact I; try lia
       |intros d1 u Hop; vm_compute in Hop; inversion Hop; subst; clear Hop]).
    exact I. }
  assert (Hnn : balances_nonneg Examples.opening).
  { intros s k Hc. vm_compute in Hc. inversion Hc; subst. lia. }
  split; [exact H|]. split; [exact Hg|]. split; [exact Hnn|].
  exact (guarded_operations_keep_balances_nonneg _ _ _ H Hg Hnn).
Defined.

End LedgerSequences.

(** ** When [handle_expense] commits *)
Section ExpenseDecision.
Import Sql.

Lemma handle_expense_commits new_id now user purpose cash online d row :
  head (balances d) = Some row ->
  user ∈ prof_id <$> profiles d ->
  cash <= shop_balance row ->
  online <= bank_balance row ->
  in_int4 cash = true -> in_int4 online = true ->
  in_int4 (cash + online) = true ->
  in_int4 (shop_balance row - cash) = true ->
  in_int4 (bank_balance row - online) = true ->
  exists d',
    rpc_handle_expense new_id now user purpose cash online d
    = (d', inr new_id)
    /\ current_balances d'
       = Some (shop_balance row - cash, bank_balance row - online).
Proof.
  intros Hrow Hfk Hc Ho Hci Hoi Hsum Hs' Hk'.
  destruct (balances d) as [|b rest] eqn:Hbal; [discriminate|].
  simpl in Hrow. inversion Hrow; subst b; clear Hrow.
  unfold rpc_handle_expense, run_tx.
  rewrite bind_unfold, (int4_ok _ _ Hci), bind_unfold, (int4_ok _ _ Hoi).
  unfold handle_expense, block_exception, handle_expense_body.
  rewrite bind_unfold.
  change (get_db d) with (d, inr (A := sql_error) d).
  cbv beta iota. rewrite Hbal. cbn [head].
  rewrite bind_unfold, bool_decide_eq_false_2 by lia. cbn [when ret].
  rewrite bind_unfold, bool_decide_eq_false_2 by lia. cbn [when ret].
  rewrite bind_unfold, (int4_ok _ _ Hsum).
  rewrite bind_unfold, insert_expense_ok by assumption.
  rewrite bind_unfold. unfold update_balances.
  cbn [balances set_notifications set_expenses].
  rewrite Hbal, update_rows_const by assumption.
  eexists. split; [reflexivity|].
  unfold current_balances. cbn. rewrite decide_True by reflexivity.
  reflexivity.
Qed.

(** X5: with a balances row, a creator who has a profile and figures in
    the [integer] range, [handle_expense] commits exactly when the cash
    part is at most the shop balance and the online part at most the bank
    balance. Nothing else is checked: the amounts may be zero or
    negative. *)
Theorem handle_expense_commits_iff_covered
    new_id now user purpose cash online d row :
  head (balances d) = Some row ->
  user ∈ prof_id <$> profiles d ->
  in_int4 cash = true -> in_int4 online = true ->
  in_int4 (cash + online) = true ->
  in_int4 (shop_balance row - cash) = true ->
  in_int4 (bank_balance row - online) = true ->
  (exists d', rpc_handle_expense new_id now user purpose cash online d
              = (d', inr new_id))
  <-> cash <= shop_balance row /\ online <= bank_balance row.
Proof.
  intros Hrow Hfk Hci Hoi Hsum Hs Hk. split.
  - intros [d' H]. unfold rpc_handle_expense in H.
    apply run_tx_inr in H. tx_inv.
    match goal with
    | H1 : handle_expense _ _ _ _ _ _ _ = _ |- _ =>
        apply handle_expense_inr in H1
          as (b & rest & rest' & Hbal & Hc & Ho & _)
    end.
    rewrite Hbal in Hrow. inversion Hrow; subst. auto.
  - intros [Hc Ho].
    destruct (handle_expense_commits new_id now user purpose cash online d
                row) as (d' & H & _); eauto.
Qed.

(** X5 at work: Bob's tea against the till of 100 and 40. *)
Lemma handle_expense_commits_witness :
  head (balances Examples.shop) = Some Examples.till
  /\ "bob" ∈ prof_id <$> profiles Examples.shop
  /\ ((exists d', rpc_handle_expense "e1" "t1" "bob" "tea" 50 0
                    Examples.shop = (d', inr "e1"))
      <-> 50 <= shop_balance Examples.till
          /\ 0 <= bank_balance Examples.till).
Proof.
  assert (H1 : head (balances Examples.shop) = Some Examples.till)
    by reflexivity.
  assert (H2 : "bob" ∈ prof_id <$> profiles Examples.shop).
  { apply (bool_decide_unpack _). vm_compute. exact I. }
  split; [exact H1|]. split; [exact H2|].
  exact (handle_expense_commits_iff_covered "e1" "t1" "bob" "tea" 50 0
           Examples.shop Examples.till H1 H2 eq_refl eq_refl eq_refl
           eq_refl eq_refl).
Defined.

End ExpenseDecision.

(** ** Who hears of a sale and of a deposit *)
Section OtherNotifications.
Import Sql.

Lemma insert_sale_notifications now row d d' u :
  insert_sale now row d = (d', inr u) ->
  exists ns,
    notifications d' = notifications d ++ ns
    /\ notif_user_id <$> ns
       = filter (fun i => i ≠ sale_created_by row ∧ i ∈ approved_ids d)
           (auth_users d)
    /\ Forall (fun n =>
                 notif_type n = TySale
                 /\ notif_body n
                    = SaleBody (sale_id row) (sale_total row)
                        (sale_created_by row)
                        (prof_name <$> select_profile d (sale_created_by row)))
         ns.
Proof.
  unfold insert_sale, update_balances_for_sale. intros H. destruct u.
  tx_inv.
  match goal with
  | H1 : notify_sale _ _ = _ |- _ =>
      unfold notify_sale in H1; rewrite bind_unfold in H1; simpl in H1;
      inversion H1; subst; clear H1
  end.
  apply update_balances_effect in H as (bs & -> & _).
  eexists. split; [reflexivity|]. split.
  - rewrite <- list_fmap_compose. apply list_fmap_id.
  - apply Forall_fmap, Forall_forall. intros; split; reflexivity.
Qed.

Lemma insert_deposit_notifications now row d d' u :
  insert_deposit now row d = (d', inr u) ->
  exists ns,
    notifications d' = notifications d ++ ns
    /\ notif_user_id <$> ns
       = filter (fun i => i ≠ dep_deposited_by row ∧ i ∈ owner_ids d)
           (auth_users d)
    /\ Forall (fun n =>
                 notif_type n = TyDeposit
                 /\ notif_body n
                    = DepositBody (dep_id row) (dep_amount row)
                        (dep_deposited_by row)
                        (prof_name
                           <$> select_profile d (dep_deposited_by row)))
         ns.
Proof.
  unfold insert_deposit, update_balances_for_deposit. intros H. destruct u.
  tx_inv.
  match goal with
  | H1 : notify_deposit _ _ = _ |- _ =>
      unfold notify_deposit in H1; rewrite bind_unfold in H1; simpl in H1;
      inversion H1; subst; clear H1
  end.
  apply update_balances_effect in H as (bs & -> & _).
  eexists. split; [reflexivity|]. split.
  - rewrite <- list_fmap_compose. apply list_fmap_id.
  - apply Forall_fmap, Forall_forall. intros; split; reflexivity.
Qed.

(** X6: a committed sale row adds one batch of notifications, all of type
    [sale] and all carrying the sale's id, total, creator and the
    creator's name; a user receives one exactly when the user is not the
    creator and has an approved profile. *)
Theorem sale_notification_fan_out now row d d' u :
  insert_into_sales now row d = (d', inr u) ->
  exists ns,
    notifications d' = notifications d ++ ns
    /\ Forall (fun n =>
                 notif_type n = TySale
                 /\ notif_body n
                    = SaleBody (sale_id row) (sale_total row)
                        (sale_created_by row)
                        (prof_name
                           <$> select_profile d (sale_created_by row)))
         ns
    /\ forall i, i ∈ notif_user_id <$> ns <->
                 i ∈ auth_users d
                 /\ i ≠ sale_created_by row
                 /\ exists p, p ∈ profiles d /\ prof_id p = i
                              /\ prof_is_approved p = true.
Proof.
  intros H. unfold insert_into_sales in H. apply run_tx_inr in H.
  apply insert_sale_notifications in H as (ns & Hn & Hids & Hall).
  exists ns. split; [exact Hn|]. split; [exact Hall|].
  intros i. rewrite Hids, list_elem_of_filter. unfold approved_ids.
  rewrite list_elem_of_fmap. split.
  - intros [[Hne (p & -> & Hp)] Hu].
    apply list_elem_of_filter in Hp as [Happ Hp]. eauto 10.
  - intros (Hu & Hne & p & Hp & <- & Happ). split; [|exact Hu].
    split; [exact Hne|]. exists p. split; [reflexivity|].
    apply list_elem_of_filter; auto.
Qed.

(** X7: a committed deposit row adds one batch of notifications, all of
    type [deposit]; a user receives one exactly when the user is not the
    depositor and has a profile with designation Owner, approved or not.
    The receiver of the deposit is notified like any other Owner. *)
Theorem deposit_notification_fan_out now row d d' u :
  insert_into_deposits now row d = (d', inr u) ->
  exists ns,
    notifications d' = notifications d ++ ns
    /\ Forall (fun n =>
                 notif_type n = TyDeposit
                 /\ notif_body n
                    = DepositBody (dep_id row) (dep_amount row)
                        (dep_deposited_by row)
                        (prof_name
                           <$> select_profile d (dep_deposited_by row)))
         ns
    /\ forall i, i ∈ notif_user_id <$> ns <->
                 i ∈ auth_users d
                 /\ i ≠ dep_deposited_by row
                 /\ exists p, p ∈ profiles d /\ prof_id p = i
                              /\ prof_designation p = "Owner".
Proof.
  intros H. unfold insert_into_deposits in H. apply run_tx_inr in H.
  apply insert_deposit_notifications in H as (ns & Hn & Hids & Hall).
  exists ns. split; [exact Hn|]. split; [exact Hall|].
  intros i. rewrite Hids, list_elem_of_filter. unfold owner_ids.
  rewrite list_elem_of_fmap. split.
  - intros [[Hne (p & -> & Hp)] Hu].
    apply list_elem_of_filter in Hp as [Hown Hp]. eauto 10.
  - intros (Hu & Hne & p & Hp & <- & Hown). split; [|exact Hu].
    split; [exact Hne|]. exists p. split; [reflexivity|].
    apply list_elem_of_filter; auto.
Qed.

(** X6 at work: Bob's first sale. *)
Lemma sale_notification_witness :
  insert_into_sales "t1" Examples.first_sale Examples.opening
  = (Examples.after_first_sale, inr tt)
  /\ exists ns,
       notifications Examples.after_first_sale
       = notifications Examples.opening ++ ns
       /\ Forall (fun n =>
                    notif_type n = TySale
                    /\ notif_body n
                       = SaleBody "s1" 298 "bob"
                           (prof_name
                              <$> select_profile Examples.opening "bob"))
            ns
       /\ forall i, i ∈ notif_user_id <$> ns <->
                    i ∈ auth_users Examples.opening
                    /\ i ≠ "bob"
                    /\ exists p, p ∈ profiles Examples.opening
                                 /\ prof_id p = i
                                 /\ prof_is_approved p = true.
Proof.
  assert (H : insert_into_sales "t1" Examples.first_sale Examples.opening
              = (Examples.after_first_sale, inr tt))
    by (vm_compute; reflexivity).
  split; [exact H|].
  exact (sale_notification_fan_out "t1" Examples.first_sale
           Examples.opening _ tt H).
Defined.

(** X7 at work: 60 handed by Bob to Alice. *)
Lemma deposit_notification_witness :
  insert_into_deposits "t1" Examples.banked_60 Examples.shop
  = ((insert_into_deposits "t1" Examples.banked_60 Examples.shop).1, inr tt)
  /\ exists ns,
       notifications
         (insert_into_deposits "t1" Examples.banked_60 Examples.shop).1
       = notifications Examples.shop ++ ns
       /\ Forall (fun n =>
                    notif_type n = TyDeposit
                    /\ notif_body n
                       = DepositBody "d1" 60 "bob"
                           (prof_name
                              <$> select_profile Examples.shop "bob"))
            ns
       /\ forall i, i ∈ notif_user_id <$> ns <->
                    i ∈ auth_users Examples.shop
                    /\ i ≠ "bob"
                    /\ exists p, p ∈ profiles Examples.shop
                                 /\ prof_id p = i
                                 /\ prof_designation p = "Owner".
Proof.
  assert (H : insert_into_deposits "t1" Examples.banked_60 Examples.shop
              = ((insert_into_deposits "t1" Examples.banked_60
                    Examples.shop).1, inr tt))
    by (vm_compute; reflexivity).
  split; [exact H|].
  exact (deposit_notification_fan_out "t1" Examples.banked_60
           Examples.shop _ tt H).
Defined.

End OtherNotifications.

(** ** What the triggers do not check *)
Section UncheckedRows.
Import Sql.

Lemma references_users_ok i d :
  i ∈ auth_users d -> references_users i d = (d, inr tt).
Proof.
  intros Hin. unfold references_users. rewrite bind_unfold. simpl.
  rewrite decide_True by exact Hin. reflexivity.
Qed.

Lemma update_single_row now b g h d :
  balances d = [b] ->
  in_int4 (g b) = true -> in_int4 (h b) = true ->
  update_balances (Some (bal_id b)) (fun r => set_row now r (g r) (h r)) d
  = (set_balances
       [ {| bal_id := bal_id b; shop_balance := g b; bank_balance := h b;
            last_updated := now |} ] d, inr tt).
Proof.
  intros Hbal Hs Hk. unfold update_balances. rewrite Hbal.
  cbn [update_rows]. rewrite decide_True by reflexivity.
  unfold set_row, checked. rewrite Hs, Hk. reflexivity.
Qed.

(** X8: the sales table takes a row whatever its payment says. With one
    balances row, an existing user and creator and figures in the
    [integer] range, the insert commits: the row is appended, no stock is
    touched, and the balances move by the row's cash and online parts,
    whether or not they add up to the total and whatever their sign. *)
Theorem sale_row_commits_unchecked now row d b :
  balances d = [b] ->
  sale_user_id row ∈ auth_users d ->
  sale_created_by row ∈ prof_id <$> profiles d ->
  in_int4 (sale_total row) = true ->
  in_int4 (pay_cash (sale_payment row)) = true ->
  in_int4 (pay_online (sale_payment row)) = true ->
  in_int4 (shop_balance b + pay_cash (sale_payment row)) = true ->
  in_int4 (bank_balance b + pay_online (sale_payment row)) = true ->
  exists d',
    insert_into_sales now row d = (d', inr tt)
    /\ sales d' = sales d ++ [row]
    /\ categories d' = categories d
    /\ current_balances d'
       = Some (shop_balance b + pay_cash (sale_payment row),
               bank_balance b + pay_online (sale_payment row)).
Proof.
  intros Hbal Hu Hc Ht Hpc Hpo Hs Hk.
  unfold insert_into_sales, run_tx, insert_sale.
  rewrite bind_unfold, (references_users_ok _ _ Hu).
  rewrite bind_unfold, (references_profiles_ok _ _ Hc).
  rewrite bind_unfold, (int4_ok _ _ Ht).
  rewrite bind_unfold. cbn [modify].
  destruct (notify_sale_eq row (set_sales (sales d ++ [row]) d))
    as (ns & Hn).
  rewrite bind_unfold, (Hn _ eq_refl).
  unfold update_balances_for_sale.
  rewrite bind_unfold, (int4_ok _ _ Hpc), bind_unfold, (int4_ok _ _ Hpo).
  rewrite bind_unfold.
  match goal with
  | |- context [get_db ?x] =>
      change (get_db x) with (x, inr (A := sql_error) x)
  end.
  cbv beta iota. cbn [balances set_notifications set_sales].
  rewrite Hbal. cbn [head fmap option_fmap option_map].
  rewrite (update_single_row now b
             (fun r => shop_balance r + pay_cash (sale_payment row))
             (fun r => bank_balance r + pay_online (sale_payment row)))
    by assumption.
  eexists. split; [reflexivity|]. auto.
Qed.

(** X9: the deposits table takes a row whatever the shop balance. With
    one balances row, depositor and receiver with profiles and figures in
    the [integer] range, the insert commits, and the amount moves from
    the shop balance to the bank balance with no check against either. *)
Theorem deposit_row_commits_unchecked now row d b :
  balances d = [b] ->
  dep_deposited_by row ∈ prof_id <$> profiles d ->
  dep_received_by row ∈ prof_id <$> profiles d ->
  in_int4 (dep_amount row) = true ->
  in_int4 (shop_balance b - dep_amount row) = true ->
  in_int4 (bank_balance b + dep_amount row) = true ->
  exists d',
    insert_into_deposits now row d = (d', inr tt)
    /\ deposits d' = deposits d ++ [row]
    /\ current_balances d'
       = Some (shop_balance b - dep_amount row,
               bank_balance b + dep_amount row).
Proof.
  intros Hbal Hd Hr Ha Hs Hk.
  unfold insert_into_deposits, run_tx, insert_deposit.
  rewrite bind_unfold, (references_profiles_ok _ _ Hd).
  rewrite bind_unfold, (references_profiles_ok _ _ Hr).
  rewrite bind_unfold, (int4_ok _ _ Ha).
  rewrite bind_unfold. cbn [modify].
  destruct (notify_deposit_eq row (set_deposits (deposits d ++ [row]) d))
    as (ns & Hn).
  rewrite bind_unfold, (Hn _ eq_refl).
  unfold update_balances_for_deposit.
  rewrite bind_unfold.
  match goal with
  | |- context [get_db ?x] =>
      change (get_db x) with (x, inr (A := sql_error) x)
  end.
  cbv beta iota. cbn [balances set_notifications set_deposits].
  rewrite Hbal. cbn [head fmap option_fmap option_map].
  rewrite (update_single_row now b
             (fun r => shop_balance r - dep_amount row)
             (fun r => bank_balance r + dep_amount row))
    by assumption.
  eexists. split; [reflexivity|]. auto.
Qed.

(** X8 at work: 348 online and 50 handed back for a sale of 298, on the
    freshly migrated database. *)
Lemma sale_row_commits_witness :
  balances Examples.opening
  = [ {| bal_id := "b1"; shop_balance := 0; bank_balance := 0;
         last_updated := "t0" |} ]
  /\ "bob" ∈ auth_users Examples.opening
  /\ "bob" ∈ prof_id <$> profiles Examples.opening
  /\ exists d',
       insert_into_sales "t1" Examples.cash_back Examples.opening
       = (d', inr tt)
       /\ sales d' = sales Examples.opening ++ [Examples.cash_back]
       /\ categories d' = categories Examples.opening
       /\ current_balances d' = Some (0 + -50, 0 + 348).
Proof.
  assert (H1 : balances Examples.opening
               = [ {| bal_id := "b1"; shop_balance := 0; bank_balance := 0;
                      last_updated := "t0" |} ]) by reflexivity.
  assert (H2 : "bob" ∈ auth_users Examples.opening).
  { apply (bool_decide_unpack _). vm_compute. exact I. }
  assert (H3 : "bob" ∈ prof_id <$> profiles Examples.opening).
  { apply (bool_decide_unpack _). vm_compute. exact I. }
  split; [exact H1|]. split; [exact H2|]. split; [exact H3|].
  exact (sale_row_commits_unchecked "t1" Examples.cash_back
           Examples.opening _ H1 H2 H3 eq_refl eq_refl eq_refl eq_refl
           eq_refl).
Defined.

(** X9 at work: 60 banked from a database whose till is empty. *)
Lemma deposit_row_commits_witness :
  balances Examples.opening
  = [ {| bal_id := "b1"; shop_balance := 0; bank_balance := 0;
         last_updated := "t0" |} ]
  /\ "bob" ∈ prof_id <$> profiles Examples.opening
  /\ "alice" ∈ prof_id <$> profiles Examples.opening
  /\ exists d',
       insert_into_deposits "t1" Examples.banked_60 Examples.opening
       = (d', inr tt)
       /\ deposits d' = deposits Examples.opening ++ [Examples.banked_60]
       /\ current_balances d' = Some (0 - 60, 0 + 60).
Proof.
  assert (H1 : balances Examples.opening
               = [ {| bal_id := "b1"; shop_balance := 0; bank_balance := 0;
                      last_updated := "t0" |} ]) by reflexivity.
  assert (H2 : "bob" ∈ prof_id <$> profiles Examples.opening).
  { apply (bool_decide_unpack _). vm_compute. exact I. }
  assert (H3 : "alice" ∈ prof_id <$> profiles Examples.opening).
  { apply (bool_decide_unpack _). vm_compute. exact I. }
  split; [exact H1|]. split; [exact H2|]. split; [exact H3|].
  exact (deposit_row_commits_unchecked "t1" Examples.banked_60
           Examples.opening _ H1 H2 H3 eq_refl eq_refl eq_refl).
Defined.

End UncheckedRows.

(** ** What a fetch can and cannot do *)
Section FetchFrames.
Import Client.

(** A fetch that rejects has written nothing. *)
Lemma fetchAllData_rejected env st ls e :
  o_result (fetchAllData env st ls) = inl e ->
  o_store (fetchAllData env st ls) = st
  /\ o_storage (fetchAllData env st ls) = ls.
Proof.
  unfold fetchAllData.
  destruct (fe_getUser env) as [[u|]|e0]; simpl; auto.
  destruct (fe_categories env) as [rc|ec], (fe_sales env) as [rs|es],
    (fe_balances env) as [rb|eb]; simpl; auto;
    try destruct (error rc); try destruct (error rs);
    try destruct (error rb); simpl; auto; discriminate.
Qed.

(** The requests and the result of a fetch do not depend on the store or
    the cache it starts from. *)
Lemma fetchAllData_requests_independent env st ls st' ls' :
  o_requests (fetchAllData env st ls) = o_requests (fetchAllData env st' ls')
  /\ o_result (fetchAllData env st ls) = o_result (fetchAllData env st' ls').
Proof.
  unfold fetchAllData.
  destruct (fe_getUser env) as [[u|]|e0]; simpl; auto.
  destruct (fe_categories env) as [rc|ec], (fe_sales env) as [rs|es],
    (fe_balances env) as [rb|eb]; simpl; auto;
    try destruct (error rc); try destruct (error rs);
    try destruct (error rb); simpl; auto.
Qed.

(** A fetch only reads. *)
Lemma fetchAllData_only_reads env st ls r :
  r ∈ o_requests (fetchAllData env st ls) -> r ∈ fetch_requests.
Proof.
  unfold fetchAllData.
  destruct (fe_getUser env) as [[u|]|e0]; simpl;
    try (intros H; apply list_elem_of_singleton in H; subst; left).
  destruct (fe_categories env) as [rc|ec], (fe_sales env) as [rs|es],
    (fe_balances env) as [rb|eb]; simpl; auto;
    try destruct (error rc); try destruct (error rs);
    try destruct (error rb); simpl; auto.
Qed.

(** X10: completeSale writes to the store and the cache only through the
    fetch that follows a successful [handle_sale]: when its promise
    rejects -- no user, the call refused, or the call made and the fetch
    after it failed -- store and cache are what they were; when it
    fulfils, a user was signed in, [handle_sale] answered without error
    and the store and cache are the ones that fetch leaves. *)
Theorem completeSale_writes_only_by_fetch sale env st ls :
  let o := completeSale sale env st ls in
  let f := fetchAllData (cs_fetch env) st ls in
  (forall e, o_result o = inl e -> o_store o = st /\ o_storage o = ls)
  /\ (o_result o = inr tt ->
      remote_failure (cs_rpc env) = None
      /\ o_store o = o_store f /\ o_storage o = o_storage f
      /\ exists user,
           cs_getUser env = Fulfilled (Some user)
           /\ o_requests o
              = [AuthGetUser;
                 RpcHandleSale user (s_items sale) (s_total sale)
                   (s_payment sale) (cs_now env)] ++ o_requests f).
Proof.
  cbv zeta. unfold completeSale.
  destruct (cs_getUser env) as [[user|]|e0]; simpl;
    [|split; [auto|discriminate]..].
  destruct (cs_rpc env) as [r|e1]; simpl; [|split; [auto|discriminate]].
  destruct (error r) as [e2|] eqn:Hr; simpl; [split; [auto|discriminate]|].
  split.
  - intros e He. apply fetchAllData_rejected in He. exact He.
  - intros _. eauto 10.
Qed.

(** X11: initializeStore leaves [initialized] false in exactly one case:
    a session exists but the fetch finds no signed-in user. The fetch then
    returns without writing, the promise fulfils and the change
    subscription is set up over a store that still reads as not
    initialized. In every other case -- no session, a failed call, a
    completed fetch -- [initialized] ends up true. *)
Theorem initializeStore_initialized session env st ls :
  let o := initializeStore session env st ls in
  (initialized (o_store o) = false
   <-> (exists s, session = Fulfilled (Some s))
       /\ fe_getUser env = Fulfilled None)
  /\ (initialized (o_store o) = false ->
      o_result o = inr tt
      /\ o_requests o
         = [AuthGetSession; AuthGetUser; SubscribeStoreChanges]
      /\ categories (o_store o) = categories st
      /\ o_storage o = ls).
Proof.
  cbv zeta. unfold initializeStore, fetchAllData.
  destruct session as [[s|]|e0]; simpl;
    try (split; [split; [discriminate|intros [[s' Hs] _]; discriminate]
                |discriminate]).
  destruct (fe_getUser env) as [[u|]|e1]; simpl.
  - destruct (fe_categories env) as [rc|ec], (fe_sales env) as [rs|es],
      (fe_balances env) as [rb|eb]; simpl;
      try destruct (error rc); try destruct (error rs);
      try destruct (error rb); simpl;
      (split; [split; [discriminate|intros [_ Hu]; discriminate]
              |discriminate]).
  - split; [split; eauto|auto].
  - split; [split; [discriminate|intros [_ Hu]; discriminate]|discriminate].
Qed.

End FetchFrames.

(** ** What the forms send *)
Section FormGuards.
Import Client Components.

Ltac sent H :=
  repeat
    match type of H with
    | _ ∈ [] => solve [inversion H]
    | _ ∈ _ :: _ => apply elem_of_cons in H as [H|H]
    | _ ∈ _ ++ _ => apply elem_of_app in H as [H|H]
    | _ ∈ o_requests (fetchBalances _ _ _) =>
        apply fetchAllData_only_reads in H; unfold fetch_requests in H
    | _ ∈ o_requests (fetchAllData _ _ _) =>
        apply fetchAllData_only_reads in H; unfold fetch_requests in H
    | _ = _ => first [discriminate H | inversion H; subst; clear H]
    end.

(** X12: the Deposits form sends an insert only for a positive amount
    that is at most the shop balance the store shows, with a depositor
    chosen and a user signed in; the row names the chosen user as
    depositor and the signed-in user as receiver. The balance compared
    with is the store's copy, not the database's. *)
Theorem deposit_insert_is_guarded env v st ls row :
  InsertDeposit row ∈ h_requests (deposit_handleSubmit env v st ls) ->
  dp_amount v = Some (di_amount row)
  /\ 0 < di_amount row <= shopBalance (balances st)
  /\ dp_selectedUser v ≠ ""
  /\ di_deposited_by row = dp_selectedUser v
  /\ de_getUser env = Fulfilled (Some (di_received_by row))
  /\ di_description row = "Manual deposit".
Proof.
  unfold deposit_handleSubmit. intros H.
  destruct (dp_amount v) as [a|]; [|simpl in H; sent H].
  destruct (decide (a <= 0)); [simpl in H; sent H|].
  destruct (decide (a > shopBalance (balances st))); [simpl in H; sent H|].
  destruct (decide (dp_selectedUser v = "")); [simpl in H; sent H|].
  destruct (de_getUser env) as [[user|]|e0]; [|simpl in H; sent H..].
  cbv zeta in H.
  destruct (dp_optimizedSlipImage v) as [img|];
    [destruct (upload_failed (de_upload env))|];
    try (simpl in H; sent H; fail);
    (destruct (de_insert env) as [r|e1];
     [destruct (error r) as [e2|];
      [|destruct (de_fetchDeposits env) as [u|e3],
          (o_result (fetchBalances (de_fetch env) st ls)) as [e4|u']]|]);
    simpl in H; sent H; simpl; repeat split; auto; lia.
Qed.

(** X13: the Expenses form sends an insert only with a purpose, a parsed
    amount and a profile in the store, and only when cash and online part
    add up to the amount; the row carries these figures and the profile's
    id as creator. Neither balance is looked at. *)
Theorem expense_insert_is_guarded env v st ls row :
  InsertExpense row ∈ h_requests (expense_handleSubmit env v st ls) ->
  ex_purpose v ≠ ""
  /\ ei_purpose row = ex_purpose v
  /\ ex_amount v = Some (ei_amount row)
  /\ ei_cash_amount row = default 0 (ex_cashAmount v)
  /\ ei_online_amount row = default 0 (ex_onlineAmount v)
  /\ ei_cash_amount row + ei_online_amount row = ei_amount row
  /\ (up_id <$> userProfile st) = Some (ei_created_by row).
Proof.
  unfold expense_handleSubmit. intros H.
  destruct (ex_amount v) as [a|]; [|simpl in H; sent H].
  destruct (userProfile st) as [p|]; [|simpl in H; sent H].
  destruct (decide (ex_purpose v = "")); [simpl in H; sent H|].
  destruct (decide (default 0 (ex_cashAmount v)
                    + default 0 (ex_onlineAmount v) ≠ a)) as [Hne|Heq];
    [simpl in H; sent H|].
  assert (default 0 (ex_cashAmount v) + default 0 (ex_onlineAmount v) = a)
    as Hsum by (destruct (decide (default 0 (ex_cashAmount v)
                                  + default 0 (ex_onlineAmount v) = a));
                [assumption|contradiction]).
  cbv zeta in H.
  destruct (ex_optimizedReceiptImage v) as [img|];
    [destruct (upload_failed (ee_upload env))|];
    try (simpl in H; sent H; fail);
    (destruct (ee_insert env) as [r|e1];
     [destruct (error r) as [e2|];
      [|destruct (ee_fetchExpenses env) as [u|e3]]|]);
    simpl in H; sent H; simpl; repeat split; auto.
Qed.

(** X14: what the Expenses form sends and what it shows afterwards do not
    depend on the balances in the store: the handler never reads them.
    (The Create Expense button does; see [create_expense_disabled].) *)
Theorem expense_handleSubmit_ignores_balances env v st ls b :
  h_requests (expense_handleSubmit env v (set_balances b st) ls)
  = h_requests (expense_handleSubmit env v st ls)
  /\ h_view (expense_handleSubmit env v (set_balances b st) ls)
     = h_view (expense_handleSubmit env v st ls).
Proof.
  unfold expense_handleSubmit.
  change (userProfile (set_balances b st)) with (userProfile st).
  destruct (ex_amount v) as [a|]; [|auto].
  destruct (userProfile st) as [p|]; [|auto].
  destruct (decide (ex_purpose v = "")); [auto|].
  destruct (decide (default 0 (ex_cashAmount v)
                    + default 0 (ex_onlineAmount v) ≠ a)); [auto|].
  cbv zeta. unfold fetchBalances.
  destruct (fetchAllData_requests_independent (ee_fetch env)
              (set_balances b st) ls st ls) as [Hreq Hres].
  destruct (ex_optimizedReceiptImage v) as [img|];
    [destruct (upload_failed (ee_upload env))|];
    try (simpl; auto; fail);
    (destruct (ee_insert env) as [r|e1];
     [destruct (error r) as [e2|];
      [|destruct (ee_fetchExpenses env) as [u|e3]]|]);
    simpl; rewrite ?Hreq, ?Hres; auto.
Qed.


(** Where the two parsers part: with [150e-2] typed as cash and 150 as
    amount, [parseInt] reads 150 and [Number] reads 1.5; the button is
    enabled against a shop balance of 100 and the row sent carries 150. *)
Example button_and_row_read_cash_differently :
  let v :=
    {| ex_purpose := "stock"; ex_amount := Some 150;
       ex_cashAmount := Some 150; ex_onlineAmount := None;
       ex_receiptImage := None; ex_optimizedReceiptImage := None;
       ex_isLoading := false; ex_error := None |} in
  create_expense_disabled v (Fraction 1) (Integer 0) Examples.mirror = false
  /\ shopBalance (balances Examples.mirror) = 100
  /\ h_requests (expense_handleSubmit (Examples.expense_env Examples.shop)
                   v Examples.mirror Examples.no_cache)
     = [InsertExpense
          {| ei_purpose := "stock"; ei_amount := 150;
             ei_cash_amount := 150; ei_online_amount := 0;
             ei_receipt_image := None; ei_created_by := "bob" |};
        SelectExpenses] ++ fetch_requests.
Proof. vm_compute. auto. Qed.

(** X12 at work: Bob's 200 as the store shows them after the first sale. *)
Lemma deposit_insert_witness :
  InsertDeposit Examples.deposit_of_200
  ∈ h_requests
      (deposit_handleSubmit (Examples.deposit_env Examples.after_first_sale)
         (Examples.deposit_form 200) Examples.bobs_view Examples.no_cache)
  /\ dp_amount (Examples.deposit_form 200) = Some 200
  /\ 0 < 200 <= shopBalance (balances Examples.bobs_view)
  /\ dp_selectedUser (Examples.deposit_form 200) ≠ ""
  /\ "bob" = dp_selectedUser (Examples.deposit_form 200)
  /\ de_getUser (Examples.deposit_env Examples.after_first_sale)
     = Fulfilled (Some "alice")
  /\ "Manual deposit" = "Manual deposit".
Proof.
  assert (H : InsertDeposit Examples.deposit_of_200
              ∈ h_requests
                  (deposit_handleSubmit
                     (Examples.deposit_env Examples.after_first_sale)
                     (Examples.deposit_form 200) Examples.bobs_view
                     Examples.no_cache)).
  { vm_compute. apply elem_of_cons; right. apply elem_of_cons; left.
    reflexivity. }
  split; [exact H|].
  exact (deposit_insert_is_guarded _ _ _ _ _ H).
Defined.

(** X13 at work: Bob's tea, 50 in cash. *)
Lemma expense_insert_witness :
  InsertExpense Examples.tea_insert
  ∈ h_requests
      (expense_handleSubmit (Examples.expense_env Examples.shop)
         Examples.expense_form Examples.mirror Examples.no_cache)
  /\ ex_purpose Examples.expense_form ≠ ""
  /\ "tea" = ex_purpose Examples.expense_form
  /\ ex_amount Examples.expense_form = Some 50
  /\ 50 = default 0 (ex_cashAmount Examples.expense_form)
  /\ 0 = default 0 (ex_onlineAmount Examples.expense_form)
  /\ 50 + 0 = 50
  /\ (up_id <$> userProfile Examples.mirror) = Some "bob".
Proof.
  assert (H : InsertExpense Examples.tea_insert
              ∈ h_requests
                  (expense_handleSubmit (Examples.expense_env Examples.shop)
                     Examples.expense_form Examples.mirror
                     Examples.no_cache)).
  { vm_compute. apply elem_of_cons; left. reflexivity. }
  split; [exact H|].
  exact (expense_insert_is_guarded _ _ _ _ _ H).
Defined.


End FormGuards.

(** ** The inventory list *)
Section InventoryList.
Import Client Components Inventory.

Lemma insert_by_price_perm x l : insert_by_price x l ≡ₚ x :: l.
Proof.
  induction l as [|y l IH]; simpl; [reflexivity|].
  destruct (decide (c_price x <= c_price y)); [reflexivity|].
  rewrite IH. apply Permutation_swap.
Qed.

Lemma sort_by_price_perm l : sort_by_price l ≡ₚ l.
Proof.
  unfold sort_by_price. induction l as [|x l IH]; simpl; [reflexivity|].
  rewrite insert_by_price_perm, IH. reflexivity.
Qed.

Lemma insert_by_price_sorted x l :
  price_sorted l -> price_sorted (insert_by_price x l).
Proof.
  unfold price_sorted. induction l as [|y l IH]; simpl; intros Hs.
  - constructor; [constructor|constructor].
  - destruct (decide (c_price x <= c_price y)) as [Hxy|Hxy].
    + constructor; [exact Hs|]. constructor; [exact Hxy|].
      apply StronglySorted_inv in Hs as [_ Hy].
      eapply Forall_impl; [exact Hy|]. simpl. intros z Hz. lia.
    + apply StronglySorted_inv in Hs as [Hs Hy].
      constructor; [apply IH, Hs|].
      rewrite insert_by_price_perm. constructor; [lia|exact Hy].
Qed.

Lemma sort_by_price_sorted l : price_sorted (sort_by_price l).
Proof.
  unfold sort_by_price. induction l as [|x l IH]; simpl.
  - constructor.
  - apply insert_by_price_sorted, IH.
Qed.

Lemma price_sorted_filter (keep : Category -> Prop)
    `{!forall c, Decision (keep c)} l :
  price_sorted l -> price_sorted (filter keep l).
Proof.
  unfold price_sorted. induction l as [|x l IH]; intros Hs; [constructor|].
  apply StronglySorted_inv in Hs as [Hs Hx].
  rewrite filter_cons. destruct (decide (keep x)); [|apply IH, Hs].
  constructor; [apply IH, Hs|].
  rewrite Forall_forall in Hx. apply Forall_forall. intros y Hy.
  apply list_elem_of_filter in Hy as [_ Hy]. apply Hx, Hy.
Qed.

Lemma prices_distinct_filter (keep : Category -> Prop)
    `{!forall c, Decision (keep c)} l :
  NoDup (c_price <$> l) -> NoDup (c_price <$> filter keep l).
Proof.
  intros Hnd. eapply sublist_NoDup; [exact Hnd|].
  apply fmap_sublist, sublist_filter.
Qed.

(** The list addCategory shows while the insert is under way: the old
    categories and the new one, in ascending price order. *)
Lemma optimistic_list_ascending l new :
  NoDup (c_price <$> l) ->
  c_price new ∉ c_price <$> l ->
  NoDup (c_price <$> sort_by_price (l ++ [new]))
  /\ price_sorted (sort_by_price (l ++ [new])).
Proof.
  intros Hnd Hnew. split; [|apply sort_by_price_sorted].
  rewrite sort_by_price_perm, fmap_app. simpl.
  apply NoDup_app. split; [exact Hnd|]. split.
  - intros p Hp Hp'. apply list_elem_of_singleton in Hp'. subst. auto.
  - apply NoDup_singleton.
Qed.

Lemma no_category_at_price price (l : list Category) :
  ~ Exists (fun cat => c_price cat = price) l ->
  price ∉ c_price <$> l.
Proof.
  intros Hno Hin. apply Hno. apply list_elem_of_fmap in Hin as (c & -> & Hc).
  apply Exists_exists. eauto.
Qed.

(** X15: the Inventory form asks for a new category only for a positive
    price that no category in the store has yet; the row it sends has
    stock 0 and the signed-in user as owner. *)
Theorem new_category_is_guarded env v st ls price stock user created_at :
  InsertCategory price stock user created_at
  ∈ h_requests (handleAddCategory env v st ls) ->
  newPrice v = Some price
  /\ 0 < price
  /\ (price ∉ c_price <$> categories st)
  /\ stock = 0
  /\ ac_getUser env = Fulfilled (Some user).
Proof.
  unfold handleAddCategory. intros H.
  destruct (newPrice v) as [p|]; [|simpl in H; inversion H].
  destruct (decide (0 < p /\ ~ Exists (fun cat => c_price cat = p)
                                 (categories st))) as [[Hpos Hnew]|];
    [|simpl in H; inversion H].
  apply no_category_at_price in Hnew.
  cbv zeta in H. unfold addCategory in H.
  destruct (ac_getUser env) as [[u|]|e0];
    [|simpl in H; apply list_elem_of_singleton in H; discriminate..].
  assert (InsertCategory price stock user created_at
          = InsertCategory p 0 u (ac_now env)) as Heq.
  { destruct (ac_insert env) as [r|e1];
      [destruct (error r) as [e2|]|]; simpl in H;
      repeat
        match type of H with
        | _ ∈ [] => solve [inversion H]
        | _ ∈ _ :: _ => apply elem_of_cons in H as [H|H]
        | _ ∈ _ ++ _ => apply elem_of_app in H as [H|H]
        | _ ∈ o_requests (fetchAllData _ _ _) =>
            apply fetchAllData_only_reads in H; unfold fetch_requests in H
        | _ = _ => first [discriminate H | exact H]
        end. }
  inversion Heq; subst. auto.
Qed.

(** X16: an inventory list in strictly ascending price order stays so
    through handleAddCategory as long as the store holds what the client
    put there: the optimistic list, the list after a refused insert and
    the list left by a failed fetch are all ascending with distinct
    prices. Only a completed fetch replaces the list, by the rows the
    server returned. *)
Theorem handleAddCategory_keeps_list_ascending env v st ls :
  NoDup (c_price <$> categories st) ->
  price_sorted (categories st) ->
  let h := handleAddCategory env v st ls in
  (NoDup (c_price <$> categories (h_store h))
   /\ price_sorted (categories (h_store h)))
  \/ exists rc,
       fe_categories (ac_fetch env) = Fulfilled rc /\ error rc = None
       /\ categories (h_store h)
          = default [] (fmap (M := list) process_category <$> data rc).
Proof.
  intros Hnd Hs. cbv zeta. unfold handleAddCategory.
  destruct (newPrice v) as [p|]; [|left; auto].
  destruct (decide (0 < p /\ ~ Exists (fun cat => c_price cat = p)
                                 (categories st))) as [[Hpos Hnew]|];
    [|left; auto].
  apply no_category_at_price in Hnew.
  unfold addCategory.
  destruct (ac_getUser env) as [[u|]|e0]; [|left; auto..].
  destruct (optimistic_list_ascending (categories st)
              {| c_id := Some (ac_randomUUID env); c_price := p;
                 c_stock := 0; c_user_id := Some u |} Hnd Hnew)
    as [Hnd1 Hs1].
  destruct (ac_insert env) as [r|e1]; [|left; auto].
  destruct (error r) as [e2|].
  - left. simpl. split.
    + apply prices_distinct_filter, Hnd1.
    + apply price_sorted_filter, Hs1.
  - simpl. unfold fetchAllData.
    destruct (fe_getUser (ac_fetch env)) as [[u'|]|e3]; [|left; auto..].
    destruct (fe_categories (ac_fetch env)) as [rc|ec],
      (fe_sales (ac_fetch env)) as [rs|es],
      (fe_balances (ac_fetch env)) as [rb|eb]; try (left; auto; fail).
    destruct (error rc) eqn:Hrc; [left; auto|].
    destruct (error rs); [left; auto|].
    destruct (error rb); [left; auto|].
    right. exists rc. auto.
Qed.

Lemma validStock_range newStock : 0 <= validStock newStock <= 999999.
Proof. unfold validStock. lia. Qed.





(** X17: the stock the Inventory form sends is clamped twice, by the form
    to 0..999999 and by updateStock to at least 0; what reaches the
    database is the form's value, for the id of the category at the index.
    The form sends no other category update. *)
Theorem stock_update_is_clamped index newStock remote v st ls id u :
  UpdateCategory id u ∈ h_requests (handleUpdateStock index newStock remote
                                      v st ls) ->
  u = SetStock (validStock newStock)
  /\ 0 <= validStock newStock <= 999999
  /\ exists c, at_index (categories st) index = Some c
               /\ c_id c = Some id /\ id ≠ "".
Proof.
  unfold handleUpdateStock. intros H.
  destruct (at_index (categories st) index) as [c|] eqn:Hc;
    [|simpl in H; inversion H].
  cbv zeta in H. simpl in H. rewrite updateStock_unfold, Hc in H.
  pose proof (validStock_range newStock) as Hr.
  unfold truthy_id in H.
  destruct (c_id c) as [i|] eqn:Hid; [|simpl in H; inversion H].
  destruct (decide (i = "")) as [Hi|Hi]; [simpl in H; inversion H|].
  destruct (commit_or_revert_spec
              (<[Z.to_nat index := with_stock c (Z.max 0 (validStock newStock))]>
                 (categories st)) remote
              (UpdateCategory i (SetStock (Z.max 0 (validStock newStock))))
              st ls) as (_ & Hreq & _).
  rewrite Hreq in H. apply list_elem_of_singleton in H.
  inversion H; subst. rewrite Z.max_r by lia. eauto 10.
Qed.


(** X15 at work: 99 is a new price for Bob's store; the insert is
    refused. *)
Lemma new_category_witness :
  InsertCategory 99 0 "bob" "t9"
  ∈ h_requests
      (handleAddCategory Examples.add_refused typed_99 Examples.mirror
         Examples.no_cache)
  /\ newPrice typed_99 = Some 99
  /\ 0 < 99
  /\ (99 ∉ c_price <$> categories Examples.mirror)
  /\ 0 = 0
  /\ ac_getUser Examples.add_refused = Fulfilled (Some "bob").
Proof.
  assert (H : InsertCategory 99 0 "bob" "t9"
              ∈ h_requests
                  (handleAddCategory Examples.add_refused typed_99
                     Examples.mirror Examples.no_cache)).
  { vm_compute. apply elem_of_cons; right. apply elem_of_cons; left.
    reflexivity. }
  split; [exact H|].
  exact (new_category_is_guarded _ _ _ _ _ _ _ _ H).
Defined.

(** X16 at work: the refused 99 leaves the two tiers in order. *)
Lemma handleAddCategory_ascending_witness :
  NoDup (c_price <$> categories Examples.mirror)
  /\ price_sorted (categories Examples.mirror)
  /\ ((NoDup (c_price
               <$> categories
                     (h_store
                        (handleAddCategory Examples.add_refused typed_99
                           Examples.mirror Examples.no_cache)))
       /\ price_sorted
            (categories
               (h_store
                  (handleAddCategory Examples.add_refused typed_99
                     Examples.mirror Examples.no_cache))))
      \/ exists rc,
           fe_categories (ac_fetch Examples.add_refused) = Fulfilled rc
           /\ error rc = None
           /\ categories
                (h_store
                   (handleAddCategory Examples.add_refused typed_99
                      Examples.mirror Examples.no_cache))
              = default [] (fmap (M := list) process_category <$> data rc)).
Proof.
  assert (H1 : NoDup (c_price <$> categories Examples.mirror)).
  { apply (bool_decide_unpack _). vm_compute. exact I. }
  assert (H2 : price_sorted (categories Examples.mirror)).
  { repeat constructor; simpl; lia. }
  split; [exact H1|]. split; [exact H2|].
  exact (handleAddCategory_keeps_list_ascending Examples.add_refused
           typed_99 Examples.mirror Examples.no_cache H1 H2).
Defined.

(** X17 at work: five million typed for the tier of 49. *)
Lemma stock_update_witness :
  UpdateCategory "c49" (SetStock 999999)
  ∈ h_requests
      (handleUpdateStock 0 5000000 Examples.ok typed_99 Examples.mirror
         Examples.no_cache)
  /\ SetStock 999999 = SetStock (validStock 5000000)
  /\ 0 <= validStock 5000000 <= 999999
  /\ exists c, at_index (categories Examples.mirror) 0 = Some c
               /\ c_id c = Some "c49" /\ "c49" ≠ "".
Proof.
  assert (H : UpdateCategory "c49" (SetStock 999999)
              ∈ h_requests
                  (handleUpdateStock 0 5000000 Examples.ok typed_99
                     Examples.mirror Examples.no_cache)).
  { vm_compute. apply elem_of_cons; left. reflexivity. }
  split; [exact H|].
  exact (stock_update_is_clamped _ _ _ _ _ _ _ _ H).
Defined.


End InventoryList.

(** ** The pages of the expense list *)
Section ExpensePages.
Import Client ExpenseList.

Lemma page_range currentPage :
  0 <= currentPage ->
  Z.to_nat ((currentPage + 1) * EXPENSES_PER_PAGE - 1
            - currentPage * EXPENSES_PER_PAGE + 1) = 20%nat
  /\ Z.to_nat (EXPENSES_PER_PAGE * (currentPage + 1))
     = (Z.to_nat (currentPage * EXPENSES_PER_PAGE) + 20)%nat.
Proof. unfold EXPENSES_PER_PAGE. lia. Qed.

(** A page that comes back short is the last one. *)
Lemma short_page_is_last {A} (rows : list A) n :
  length (take 20 (drop n rows)) ≠ 20%nat ->
  take (n + 20) rows = rows.
Proof.
  rewrite length_take, length_drop. intros Hshort.
  apply take_ge. lia.
Qed.

(** One call of fetchExpenses against a table that does not change: a
    successful first-page fetch shows the first 20 rows; a successful
    load-more from a list showing the first [page + 1] pages shows the
    first [page + 2]. Once [hasMore] is false the list is the whole table.
    A failed fetch keeps list, page and [hasMore]. *)
Lemma expense_pages_line_up rows query loadMore v :
  answers_from rows query ->
  (loadMore = true -> shows rows v) ->
  let r := fetchExpenses loadMore query v in
  match r.2 with
  | inr _ =>
      shows rows r.1
      /\ page r.1 = (if loadMore then page v + 1 else 0)
      /\ (hasMore r.1 = false -> expenses r.1 = process_expense <$> rows)
  | inl e =>
      e = failed_to_fetch
      /\ expenses r.1 = expenses v /\ page r.1 = page v
      /\ hasMore r.1 = hasMore v
  end.
Proof.
  intros Hq Hv. cbv zeta. unfold fetchExpenses.
  set (currentPage := if loadMore then page v + 1 else 0).
  assert (0 <= currentPage) as Hpage.
  { subst currentPage. destruct loadMore; [|lia].
    destruct (Hv eq_refl) as [Hp _]. lia. }
  destruct (page_range currentPage Hpage) as (Hlen & Hupto).
  destruct (Hq (currentPage * EXPENSES_PER_PAGE)
              ((currentPage + 1) * EXPENSES_PER_PAGE - 1)) as [Hok|Hfail].
  - rewrite Hok. unfold select_range.
    cbn [error data fst snd expenses page hasMore]. rewrite Hlen.
    set (from := Z.to_nat (currentPage * EXPENSES_PER_PAGE)) in *.
    assert ((if loadMore
             then expenses v ++ (process_expense <$> take 20 (drop from rows))
             else process_expense <$> take 20 (drop from rows))
            = process_expense <$> take (from + 20) rows) as Hshown.
    { subst from currentPage. destruct loadMore.
      - destruct (Hv eq_refl) as [Hp ->].
        replace (Z.to_nat (EXPENSES_PER_PAGE * (page v + 1)))
          with (Z.to_nat ((page v + 1) * EXPENSES_PER_PAGE))
          by (f_equal; lia).
        rewrite <- fmap_app, take_take_drop. reflexivity.
      - reflexivity. }
    split; [|split].
    + split; [exact Hpage|]. cbn [expenses page]. rewrite Hupto.
      exact Hshown.
    + reflexivity.
    + intros Hmore. apply bool_decide_eq_false in Hmore.
      rewrite Hshown. f_equal. apply short_page_is_last.
      intros Heq. apply Hmore. rewrite Heq. reflexivity.
  - destruct (query _ _) as [resp|e]; simpl in *.
    + destruct Hfail as [e He]. rewrite He. simpl. auto.
    + auto.
Qed.

Lemma fetch_served rows query loadMore v :
  (forall from to, query from to = served rows from to) ->
  (loadMore = true -> shows rows v) ->
  (fetchExpenses loadMore query v).2 = inr tt
  /\ shows rows (fetchExpenses loadMore query v).1
  /\ page (fetchExpenses loadMore query v).1
     = (if loadMore then page v + 1 else 0).
Proof.
  intros Hq Hv.
  assert (answers_from rows query) as Ha
    by (intros from to; left; apply Hq).
  pose proof (expense_pages_line_up rows query loadMore v Ha Hv) as H.
  cbv zeta in H.
  assert ((fetchExpenses loadMore query v).2 = inr tt) as Hr.
  { unfold fetchExpenses. rewrite Hq. reflexivity. }
  rewrite Hr in H. destruct H as (Hs & Hp & _). auto.
Qed.

(** X19: Load More does not last. The click's fetchExpenses(true) appends
    the next page to a list showing the first [page + 1] pages and raises
    [page] by one; since [page] changed, the mount effect runs
    initializeData again, whose fetchExpenses() puts the list back to the
    first 20 rows and [page] to 0. That changes [page] once more, the
    effect runs a second time with the same result, and there the
    component rests: after Load More the list shows the first page
    only. *)
Theorem load_more_is_undone_by_the_mount_effect env rows session v :
  ie_session env = Fulfilled (Some session) ->
  ie_fetchBalances env = inr tt ->
  (forall from to, ie_query env from to = served rows from to) ->
  shows rows v ->
  let clicked := (fetchExpenses true (ie_query env) v).1 in
  let again := rerun env v clicked in
  let rested := clickLoadMore env v in
  shows rows clicked
  /\ page clicked = page v + 1
  /\ expenses rested = process_expense <$> take 20 rows
  /\ page rested = 0
  /\ rerun env again rested = rested.
Proof.
  intros Hsession Hbalances Hq Hv. cbv zeta. unfold clickLoadMore.
  destruct (fetch_served rows (ie_query env) true v Hq (fun _ => Hv))
    as (_ & Hshows & Hpage).
  set (clicked := (fetchExpenses true (ie_query env) v).1) in *.
  assert (rerun env v clicked
          = (fetchExpenses false (ie_query env) clicked).1) as Hagain.
  { unfold rerun, initializeData.
    rewrite decide_False by lia. rewrite Hsession, Hbalances. reflexivity. }
  rewrite Hagain.
  destruct (fetch_served rows (ie_query env) false clicked Hq
              (fun H => False_rect _ (Bool.diff_false_true H)))
    as (_ & Hshows1 & Hpage1).
  set (again := (fetchExpenses false (ie_query env) clicked).1) in *.
  assert (rerun env clicked again
          = (fetchExpenses false (ie_query env) again).1) as Hrested.
  { unfold rerun, initializeData. destruct Hv as [Hp _].
    rewrite decide_False by lia. rewrite Hsession, Hbalances. reflexivity. }
  rewrite Hrested.
  destruct (fetch_served rows (ie_query env) false again Hq
              (fun H => False_rect _ (Bool.diff_false_true H)))
    as (_ & Hshows2 & Hpage2).
  set (rested := (fetchExpenses false (ie_query env) again).1) in *.
  split; [exact Hshows|]. split; [exact Hpage|].
  split; [|split; [exact Hpage2|]].
  - destruct Hshows2 as [_ ->]. rewrite Hpage2. reflexivity.
  - unfold rerun. rewrite decide_True by lia. reflexivity.
Qed.

(** X19 at work: the second page of a table of 45 is loaded from the
    first. *)
Lemma load_more_witness :
  let clicked := (fetchExpenses true (ie_query env_45) first_page).1 in
  let again := rerun env_45 first_page clicked in
  let rested := clickLoadMore env_45 first_page in
  ie_session env_45 = Fulfilled (Some "bob")
  /\ ie_fetchBalances env_45 = inr tt
  /\ (forall from to, ie_query env_45 from to = served table_45 from to)
  /\ shows table_45 first_page
  /\ shows table_45 clicked
  /\ page clicked = page first_page + 1
  /\ expenses rested = process_expense <$> take 20 table_45
  /\ page rested = 0
  /\ rerun env_45 again rested = rested.
Proof.
  cbv zeta.
  assert (H1 : ie_session env_45 = Fulfilled (Some "bob")) by reflexivity.
  assert (H2 : ie_fetchBalances env_45 = inr tt) by reflexivity.
  assert (H3 : forall from to,
             ie_query env_45 from to = served table_45 from to)
    by (intros from to; reflexivity).
  assert (H4 : shows table_45 first_page).
  { split; [vm_compute; discriminate|vm_compute; reflexivity]. }
  split; [exact H1|]. split; [exact H2|]. split; [exact H3|].
  split; [exact H4|].
  exact (load_more_is_undone_by_the_mount_effect env_45 table_45 "bob"
           first_page H1 H2 H3 H4).
Defined.

(** After the click the list holds 40 expenses; at rest it holds the
    first 20 again. *)
Example load_more_in_numbers :
  length (expenses first_page) = 20%nat
  /\ length (expenses (fetchExpenses true (ie_query env_45) first_page).1)
     = 40%nat
  /\ hasMore (fetchExpenses true (ie_query env_45) first_page).1 = true
  /\ length (expenses (clickLoadMore env_45 first_page)) = 20%nat
  /\ clickLoadMore env_45 first_page = first_page.
Proof. vm_compute. auto. Qed.

End ExpensePages.

(** ** The profile and the prefetch *)
Section ProfileFacts.
Import Client Profile.

Lemma apply_sets_app l1 l2 st :
  apply_sets (l1 ++ l2) st = apply_sets l2 (apply_sets l1 st).
Proof. unfold apply_sets. apply foldl_app. Qed.

Lemma apply_set_profiles sets st :
  sets ≠ [] ->
  apply_sets (set_profile <$> sets) st
  = set_profile (default None (last sets)) st.
Proof.
  revert st. induction sets as [|p sets IH]; intros st Hne; [done|].
  destruct sets as [|q sets]; [reflexivity|].
  change (apply_sets (set_profile <$> p :: q :: sets) st)
    with (apply_sets (set_profile <$> q :: sets) (set_profile p st)).
  rewrite IH by discriminate. reflexivity.
Qed.

(** The store fetchUserProfile leaves: the last profile it set is the one
    its promise resolves to, and none when it rejects. *)
Lemma profile_sets_store env st :
  apply_sets (set_profile <$> po_sets (fetchUserProfile env)) st
  = set_profile (match po_result (fetchUserProfile env) with
                 | inr p => p
                 | inl _ => None
                 end) st.
Proof.
  assert (po_sets (fetchUserProfile env) ≠ []) as Hne.
  { unfold fetchUserProfile.
    destruct (pe_getUser env) as [[user|]|e0]; simpl; try discriminate.
    destruct (pe_profile env) as [r|e1]; simpl; try discriminate.
    destruct (error r), (data r), (pe_signOut env); simpl; discriminate. }
  rewrite apply_set_profiles by exact Hne. f_equal.
  unfold fetchUserProfile.
  destruct (pe_getUser env) as [[user|]|e0]; simpl;
    [|reflexivity|destruct (pe_signOut_caught env); reflexivity].
  destruct (pe_profile env) as [r|e1]; simpl;
    [|destruct (pe_signOut_caught env); reflexivity].
  destruct (error r), (data r), (pe_signOut env);
    simpl; try reflexivity; destruct (pe_signOut_caught env); reflexivity.
Qed.

(** X20: fetchUserProfile always marks the store initialized and writes
    nothing but [userProfile] and [initialized]. The profile left in the
    store is the one the promise resolves to, and none when it rejects. A
    profile is only returned from a profile row, and with the phone number
    9999999999 its designation is Owner whatever the row says. Whenever a
    user was signed in and no profile came back, a sign-out was
    requested. *)
Theorem fetchUserProfile_outcome env st :
  let o := fetchUserProfile env in
  let st' := apply_sets (set_profile <$> po_sets o) st in
  initialized st' = true
  /\ categories st' = categories st /\ sales st' = sales st
  /\ balances st' = balances st
  /\ userProfile st' = match po_result o with
                       | inr p => p
                       | inl _ => None
                       end
  /\ (forall p, po_result o = inr (Some p) ->
        exists user r row,
          pe_getUser env = Fulfilled (Some user)
          /\ pe_profile env = Fulfilled r /\ error r = None
          /\ data r = Some row /\ p = process_profile row
          /\ (rpf_phone row = "9999999999" -> up_designation p = "Owner")
          /\ (rpf_phone row ≠ "9999999999"
              -> up_designation p = rpf_designation row))
  /\ (forall user, pe_getUser env = Fulfilled (Some user) ->
        (forall p, po_result o ≠ inr (Some p)) ->
        SignOut ∈ po_requests o).
Proof.
  cbv zeta. rewrite profile_sets_store. simpl.
  split; [reflexivity|]. split; [reflexivity|]. split; [reflexivity|].
  split; [reflexivity|]. split; [reflexivity|]. split.
  - intros p. unfold fetchUserProfile.
    destruct (pe_getUser env) as [[user|]|e0]; simpl;
      [|discriminate|destruct (pe_signOut_caught env); discriminate].
    destruct (pe_profile env) as [r|e1]; simpl;
      [|destruct (pe_signOut_caught env); discriminate].
    destruct (error r) eqn:Her, (data r) as [row|] eqn:Hdr;
      try (destruct (pe_signOut env); simpl; try discriminate;
           destruct (pe_signOut_caught env); discriminate).
    simpl. intros H; inversion H; subst. exists user, r, row.
    split; [reflexivity|]. split; [reflexivity|]. split; [exact Her|].
    split; [exact Hdr|]. split; [reflexivity|].
    unfold process_profile; simpl. split.
    + intros ->. reflexivity.
    + intros Hph. rewrite decide_False by exact Hph. reflexivity.
  - intros user Hu Hnone. unfold fetchUserProfile in *. rewrite Hu in *.
    simpl in *.
    destruct (pe_profile env) as [r|e1]; simpl in *;
      [|solve [repeat constructor]].
    destruct (error r), (data r), (pe_signOut env); simpl in *;
      try solve [repeat constructor];
      exfalso; eapply Hnone; reflexivity.
Qed.

(** The write of fetchAllData and a write of fetchUserProfile land in
    either order with the same result. *)
Lemma data_set_commutes env ls p st :
  o_store (fetchAllData env (set_profile p st) ls)
  = set_profile p (o_store (fetchAllData env st ls)).
Proof.
  unfold fetchAllData.
  destruct (fe_getUser env) as [[u|]|e0]; simpl; try reflexivity.
  destruct (fe_categories env) as [rc|ec], (fe_sales env) as [rs|es],
    (fe_balances env) as [rb|eb]; simpl; try reflexivity;
    try destruct (error rc); try destruct (error rs);
    try destruct (error rb); reflexivity.
Qed.

Lemma data_set_moves_first env ls sets rest st :
  apply_sets ((set_profile <$> sets)
              ++ (fun s => o_store (fetchAllData env s ls)) :: rest) st
  = apply_sets ((fun s => o_store (fetchAllData env s ls))
                :: (set_profile <$> sets) ++ rest) st.
Proof.
  revert st. induction sets as [|p sets IH]; intros st; [reflexivity|].
  change (apply_sets
            ((set_profile <$> p :: sets)
             ++ (fun s => o_store (fetchAllData env s ls)) :: rest) st)
    with (apply_sets
            ((set_profile <$> sets)
             ++ (fun s => o_store (fetchAllData env s ls)) :: rest)
            (set_profile p st)).
  rewrite IH.
  change (apply_sets
            ((fun s => o_store (fetchAllData env s ls))
             :: (set_profile <$> sets) ++ rest) (set_profile p st))
    with (apply_sets ((set_profile <$> sets) ++ rest)
            (o_store (fetchAllData env (set_profile p st) ls))).
  rewrite data_set_commutes. reflexivity.
Qed.

(** X21: the two fetches that setUserProfile starts side by side write
    disjoint parts of the store, so the store they leave does not depend
    on whose answer arrives first. Whatever profile was passed in, the
    store ends up initialized, with the profile fetchUserProfile found (or
    none), and with the categories, sales and balances of the fetch, or of
    the cache when the fetch failed. *)
Theorem setUserProfile_order_is_immaterial p k env penv st ls :
  let o := fetchUserProfile penv in
  let f := fetchAllData env (hydrate (Some p) st ls) ls in
  setUserProfile (Some p) k env penv st ls
  = (set_profile (match po_result o with
                  | inr found => found
                  | inl _ => None
                  end) (o_store f),
     o_storage f).
Proof.
  cbv zeta. unfold setUserProfile. f_equal.
  rewrite <- fmap_take, <- fmap_drop, data_set_moves_first.
  rewrite <- fmap_app, take_drop.
  change (apply_sets
            ((fun s => o_store (fetchAllData env s ls))
             :: (set_profile <$> po_sets (fetchUserProfile penv)))
            (hydrate (Some p) st ls))
    with (apply_sets (set_profile <$> po_sets (fetchUserProfile penv))
            (o_store (fetchAllData env (hydrate (Some p) st ls) ls))).
  apply profile_sets_store.
Qed.

(** X22: what a completed fetch put in the cache is what the next
    setUserProfile shows before any answer arrives: categories and
    balances come back as fetched, whatever the store held; the sales are
    not cached and stay as they are, and [initialized] is not touched. *)
Theorem cold_start_shows_last_fetch env st ls user p st0 :
  fe_getUser env = Fulfilled (Some user) ->
  o_result (fetchAllData env st ls) = inr tt ->
  let f := fetchAllData env st ls in
  let st' := hydrate (Some p) st0 (o_storage f) in
  categories st' = categories (o_store f)
  /\ balances st' = balances (o_store f)
  /\ sales st' = sales st0
  /\ initialized st' = initialized st0
  /\ userProfile st' = Some p.
Proof.
  intros Hu. cbv zeta. unfold fetchAllData. rewrite Hu.
  destruct (fe_categories env) as [rc|ec], (fe_sales env) as [rs|es],
    (fe_balances env) as [rb|eb]; simpl; try discriminate;
    try destruct (error rc); try destruct (error rs);
    try destruct (error rb); simpl; try discriminate.
  intros _. auto.
Qed.

(** X22 at work: Bob comes back to a freshly loaded page after a fetch of
    the shop. *)
Lemma cold_start_witness :
  fe_getUser (Examples.fetch_of Examples.shop) = Fulfilled (Some "bob")
  /\ o_result (fetchAllData (Examples.fetch_of Examples.shop)
                 initial_store Examples.no_cache) = inr tt
  /\ let f := fetchAllData (Examples.fetch_of Examples.shop) initial_store
                Examples.no_cache in
     let st' := hydrate (Some Examples.bob_profile) initial_store
                  (o_storage f) in
     categories st' = categories (o_store f)
     /\ balances st' = balances (o_store f)
     /\ sales st' = sales initial_store
     /\ initialized st' = initialized initial_store
     /\ userProfile st' = Some Examples.bob_profile.
Proof.
  assert (H1 : fe_getUser (Examples.fetch_of Examples.shop)
               = Fulfilled (Some "bob")) by reflexivity.
  assert (H2 : o_result (fetchAllData (Examples.fetch_of Examples.shop)
                           initial_store Examples.no_cache) = inr tt)
    by reflexivity.
  split; [exact H1|]. split; [exact H2|].
  exact (cold_start_shows_last_fetch (Examples.fetch_of Examples.shop)
           initial_store Examples.no_cache "bob" Examples.bob_profile
           initial_store H1 H2).
Defined.

End ProfileFacts.

(** ** A sale recorded but not fetched *)
Section SaleThenFetch.
Import Client Components.

Lemma set_isProcessingSale_same v :
  isProcessingSale v = false -> set_isProcessingSale false v = v.
Proof. destruct v; simpl; intros ->; reflexivity. Qed.

(** X23: when [handle_sale] has answered without error and the fetch
    that follows fails, handleCompleteSale treats the sale as failed: it
    shows an alert, puts the categories back to the stock before the sale
    and keeps the basket and the payment fields. Store, cache and form are
    then exactly as before the call, so completing the sale again sends
    the same sale a second time. *)
Theorem sale_recorded_but_shown_as_failed env v st ls user fetch_user :
  isProcessingSale v = false ->
  default 0 (cashAmount v) + default 0 (onlineAmount v) = total v ->
  optimizedSlipImage v = None ->
  cs_getUser (se_complete env) = Fulfilled (Some user) ->
  remote_failure (cs_rpc (se_complete env)) = None ->
  fe_getUser (cs_fetch (se_complete env)) = Fulfilled (Some fetch_user) ->
  is_Some (remote_failure (fe_categories (cs_fetch (se_complete env))))
  \/ is_Some (remote_failure (fe_sales (cs_fetch (se_complete env))))
  \/ is_Some (remote_failure (fe_balances (cs_fetch (se_complete env)))) ->
  let h := handleCompleteSale env v st ls in
  RpcHandleSale user (saleItems (categories st) (localQuantities v))
    (total v)
    {| cash := default 0 (cashAmount v);
       online := default 0 (onlineAmount v); slipImage := None |}
    (cs_now (se_complete env))
  ∈ h_requests h
  /\ h_store h = st /\ h_storage h = ls /\ h_view h = v
  /\ (exists e, h_shown h = [sale_alert e])
  /\ handleCompleteSale env (h_view h) (h_store h) (h_storage h) = h.
Proof.
  intros Hidle Hpaid Hslip Huser Hrpc Hfu Hfail. cbv zeta.
  assert (handleCompleteSale env v st ls
          = {| h_store := st; h_storage := ls; h_view := v;
               h_requests :=
                 [AuthGetUser;
                  RpcHandleSale user
                    (saleItems (categories st) (localQuantities v))
                    (total v)
                    {| cash := default 0 (cashAmount v);
                       online := default 0 (onlineAmount v);
                       slipImage := None |}
                    (cs_now (se_complete env))] ++ fetch_requests;
               h_shown := h_shown (handleCompleteSale env v st ls) |}
          /\ exists e, h_shown (handleCompleteSale env v st ls)
                       = [sale_alert e]) as [Heq [e He]].
  { unfold handleCompleteSale. rewrite Hidle.
    rewrite decide_False by (intros Hne; apply Hne, Hpaid).
    rewrite Hslip. unfold completeSale. rewrite Huser.
    destruct (cs_rpc (se_complete env)) as [r|e']; [|discriminate].
    simpl in Hrpc. rewrite Hrpc.
    match goal with
    | |- context [fetchAllData ?fenv ?s ?l] =>
        destruct (fetchAllData_failure fenv fetch_user Hfu s l Hfail)
          as (e & -> & _)
    end.
    simpl. rewrite set_isProcessingSale_same by exact Hidle.
    split; [|eauto]. f_equal. destruct st; reflexivity. }
  rewrite Heq. simpl. split; [right; left|].
  split; [reflexivity|]. split; [reflexivity|]. split; [reflexivity|].
  split; [eauto|]. rewrite He, Heq, He. reflexivity.
Qed.

(** X23 at work: two items of 149 paid with 200 in cash and 98 online. *)
Lemma sale_recorded_witness :
  let v := Examples.basket (Some 200) (Some 98) in
  let h := handleCompleteSale Cases.sale_env_fetch_down v Examples.mirror
             Examples.no_cache in
  isProcessingSale v = false
  /\ default 0 (cashAmount v) + default 0 (onlineAmount v) = total v
  /\ optimizedSlipImage v = None
  /\ (is_Some (remote_failure
                 (fe_categories (Examples.fetch_sales_down Examples.shop)))
      \/ is_Some (remote_failure
                    (fe_sales (Examples.fetch_sales_down Examples.shop)))
      \/ is_Some (remote_failure
                    (fe_balances
                       (Examples.fetch_sales_down Examples.shop))))
  /\ RpcHandleSale "bob"
       (saleItems (categories Examples.mirror) (localQuantities v))
       (total v)
       {| cash := default 0 (cashAmount v);
          online := default 0 (onlineAmount v); slipImage := None |} "t9"
     ∈ h_requests h
  /\ h_store h = Examples.mirror /\ h_storage h = Examples.no_cache
  /\ h_view h = v
  /\ (exists e, h_shown h = [sale_alert e])
  /\ handleCompleteSale Cases.sale_env_fetch_down (h_view h) (h_store h)
       (h_storage h) = h.
Proof.
  cbv zeta.
  assert (H1 : isProcessingSale (Examples.basket (Some 200) (Some 98))
               = false) by reflexivity.
  assert (H2 : default 0 (cashAmount (Examples.basket (Some 200) (Some 98)))
               + default 0
                   (onlineAmount (Examples.basket (Some 200) (Some 98)))
               = total (Examples.basket (Some 200) (Some 98)))
    by reflexivity.
  assert (H3 : optimizedSlipImage (Examples.basket (Some 200) (Some 98))
               = None) by reflexivity.
  assert (H4 : is_Some (remote_failure
                          (fe_categories
                             (Examples.fetch_sales_down Examples.shop)))
               \/ is_Some (remote_failure
                             (fe_sales
                                (Examples.fetch_sales_down Examples.shop)))
               \/ is_Some (remote_failure
                             (fe_balances
                                (Examples.fetch_sales_down Examples.shop))))
    by (right; left; eexists; reflexivity).
  split; [exact H1|]. split; [exact H2|]. split; [exact H3|].
  split; [exact H4|].
  exact (sale_recorded_but_shown_as_failed Cases.sale_env_fetch_down
           (Examples.basket (Some 200) (Some 98)) Examples.mirror
           Examples.no_cache "bob" "bob" H1 H2 H3 eq_refl eq_refl eq_refl
           H4).
Defined.

End SaleThenFetch.

(** ** The basket *)
Section BasketFacts.
Import Client Components Basket.

Lemma updateQuantity_within_stock price quantity cs v :
  within_stock cs (localQuantities v) ->
  within_stock cs (localQuantities (updateQuantity price quantity cs v)).
Proof.
  intros Hv p q. unfold updateQuantity.
  destruct (decide (updatingPrice v = Some price)); [apply Hv|]. simpl.
  destruct (decide (price = p)) as [->|Hne].
  - rewrite lookup_insert_eq. intros H; inversion H; subst; clear H.
    fold (maxStock p cs). lia.
  - rewrite lookup_insert_ne by exact Hne. apply Hv.
Qed.

Lemma updateQuantities_within_stock taps cs : forall v,
  within_stock cs (localQuantities v) ->
  within_stock cs (localQuantities (updateQuantities taps cs v)).
Proof.
  unfold updateQuantities.
  induction taps as [|tap taps IH]; intros v Hv; [exact Hv|].
  simpl. apply IH, updateQuantity_within_stock, Hv.
Qed.

(** With distinct prices the stock clamped to is the category's own. *)
Lemma maxStock_own cs c :
  NoDup (c_price <$> cs) -> c ∈ cs -> maxStock (c_price c) cs = c_stock c.
Proof.
  unfold maxStock. induction cs as [|x cs IH]; intros Hnd Hc;
    [inversion Hc|].
  simpl in Hnd. apply NoDup_cons in Hnd as [Hx Hnd].
  rewrite filter_cons. apply elem_of_cons in Hc as [->|Hc].
  - rewrite decide_True by reflexivity. reflexivity.
  - rewrite decide_False; [apply IH; assumption|].
    intros Heq. apply Hx. rewrite Heq. apply list_elem_of_fmap. eauto.
Qed.

(** X24: however the quantities are changed through updateQuantity over
    a list of categories with distinct prices, every item of the sale that
    handleCompleteSale would build from that list has a positive quantity
    that is at most the stock the item itself carries. *)
Theorem chosen_quantities_within_stock taps cs v it :
  NoDup (c_price <$> cs) ->
  within_stock cs (localQuantities v) ->
  it ∈ saleItems cs (localQuantities (updateQuantities taps cs v)) ->
  0 < si_quantity it <= ic_stock (si_category it).
Proof.
  intros Hnd Hv Hit.
  pose proof (updateQuantities_within_stock taps cs v Hv) as Hw.
  unfold saleItems in Hit.
  apply list_elem_of_fmap in Hit as (c & -> & Hc).
  apply list_elem_of_filter in Hc as [Hpos Hc]. simpl.
  split; [exact Hpos|]. unfold quantity_of in *.
  destruct (localQuantities (updateQuantities taps cs v) !! c_price c)
    as [q|] eqn:Hq; simpl in *; [|lia].
  destruct (Hw _ _ Hq) as [_ [Hz|Hle]]; [lia|].
  rewrite maxStock_own in Hle by assumption. exact Hle.
Qed.

Lemma price_times_quantity_ext lq lq' cs :
  (forall c, c ∈ cs ->
             quantity_of lq (c_price c) = quantity_of lq' (c_price c)) ->
  price_times_quantity lq cs = price_times_quantity lq' cs.
Proof.
  induction cs as [|c cs IH]; intros H; [reflexivity|]. simpl.
  rewrite (H c) by left. rewrite IH; [reflexivity|].
  intros c' Hc'. apply H. right. exact Hc'.
Qed.

Lemma saleItems_ext lq lq' cs :
  (forall c, c ∈ cs ->
             quantity_of lq (c_price c) = quantity_of lq' (c_price c)) ->
  saleItems cs lq = saleItems cs lq'.
Proof.
  induction cs as [|c cs IH]; intros H; [reflexivity|].
  rewrite !saleItems_cons, (H c) by left.
  rewrite IH by (intros c' Hc'; apply H; right; exact Hc').
  unfold sale_item. rewrite (H c) by left. reflexivity.
Qed.

(** Dropping the quantities of vanished prices changes no quantity of a
    price that is still there. *)
Lemma quantity_of_kept (cs : list Category) (m : gmap Z Z) c :
  c ∈ cs ->
  quantity_of
    (filter (fun kv : Z * Z => Exists (fun c => c_price c = kv.1) cs) m)
    (c_price c)
  = quantity_of m (c_price c).
Proof.
  intros Hc. unfold quantity_of.
  destruct (m !! c_price c) as [q|] eqn:Hm.
  - erewrite (proj2 (map_lookup_filter_Some _ m (c_price c) q));
      [reflexivity|].
    split; [exact Hm|]. apply Exists_exists. eauto.
  - rewrite (proj2 (map_lookup_filter_None _ m (c_price c)));
      [reflexivity|]. left. exact Hm.
Qed.

(** updateQuantity writes the same map to [quantities] and to
    [localQuantities]: maps that agree keep agreeing. *)
Lemma updateQuantity_in_step price quantity cs v :
  quantities v = localQuantities v ->
  quantities (updateQuantity price quantity cs v)
  = localQuantities (updateQuantity price quantity cs v).
Proof.
  intros Hv. unfold updateQuantity.
  destruct (decide (updatingPrice v = Some price)); [exact Hv|reflexivity].
Qed.

Lemma updateQuantities_in_step taps cs : forall v,
  quantities v = localQuantities v ->
  quantities (updateQuantities taps cs v)
  = localQuantities (updateQuantities taps cs v).
Proof.
  unfold updateQuantities.
  induction taps as [|tap taps IH]; intros v Hv; [exact Hv|].
  simpl. apply IH, updateQuantity_in_step, Hv.
Qed.

(** X25: with [quantities] and [localQuantities] in agreement, as
    updateQuantity leaves them, the effect that drops the quantities of
    prices no category has any more never changes what is being sold: the
    total that the total effect computes from [localQuantities] and the
    items that handleCompleteSale builds from it are the same before and
    after, and the two maps still agree. What it leaves are the quantities
    that were there for prices some category has; with an empty list it
    does nothing. *)
Theorem sync_quantities_keeps_sale cs v :
  quantities v = localQuantities v ->
  let v' := sync_quantities cs v in
  newTotal cs (localQuantities v') = newTotal cs (localQuantities v)
  /\ saleItems cs (localQuantities v') = saleItems cs (localQuantities v)
  /\ quantities v' = localQuantities v'
  /\ (cs = [] -> v' = v)
  /\ (cs ≠ [] ->
      forall p q, localQuantities v' !! p = Some q <->
                  localQuantities v !! p = Some q
                  /\ exists c, c ∈ cs /\ c_price c = p).
Proof.
  intros Hv. cbv zeta. unfold sync_quantities.
  destruct (decide (0 < length cs)%nat) as [Hlen|Hlen].
  - cbn [localQuantities quantities]. rewrite Hv.
    split; [|split; [|split; [|split]]].
    + unfold newTotal. rewrite !newTotal_from. f_equal.
      apply price_times_quantity_ext. intros c Hc.
      apply quantity_of_kept, Hc.
    + apply saleItems_ext. intros c Hc. apply quantity_of_kept, Hc.
    + reflexivity.
    + intros ->. simpl in Hlen. lia.
    + intros _ p q.
      rewrite map_lookup_filter_Some, Exists_exists. simpl. reflexivity.
  - destruct cs as [|c cs]; [|simpl in Hlen; lia].
    split; [reflexivity|]. split; [reflexivity|]. split; [exact Hv|].
    split; [reflexivity|]. intros Hne. contradiction.
Qed.

(** X25 at work: five of 149 and two of 49 are chosen, then the tier of
    49 is deleted. *)
Lemma sync_quantities_witness :
  let v := updateQuantities two_taps (categories Examples.mirror)
             empty_basket in
  let cs := [Examples.tier "c149" 149 5] in
  let v' := sync_quantities cs v in
  quantities v = localQuantities v
  /\ newTotal cs (localQuantities v') = newTotal cs (localQuantities v)
  /\ saleItems cs (localQuantities v') = saleItems cs (localQuantities v)
  /\ quantities v' = localQuantities v'
  /\ (cs = [] -> v' = v)
  /\ (cs ≠ [] ->
      forall p q, localQuantities v' !! p = Some q <->
                  localQuantities v !! p = Some q
                  /\ exists c, c ∈ cs /\ c_price c = p).
Proof.
  cbv zeta.
  assert (H : quantities
                (updateQuantities two_taps (categories Examples.mirror)
                   empty_basket)
              = localQuantities
                  (updateQuantities two_taps (categories Examples.mirror)
                     empty_basket))
    by (apply updateQuantities_in_step; reflexivity).
  split; [exact H|].
  exact (sync_quantities_keeps_sale [Examples.tier "c149" 149 5] _ H).
Defined.

(** The deleted tier's quantity is gone and the total over what is left
    is unchanged. *)
Example sync_drops_deleted_tier :
  let v := updateQuantities two_taps (categories Examples.mirror)
             empty_basket in
  let cs := [Examples.tier "c149" 149 5] in
  localQuantities v !! 49 = Some 2
  /\ localQuantities v !! 149 = Some 5
  /\ localQuantities (sync_quantities cs v) !! 49 = None
  /\ localQuantities (sync_quantities cs v) !! 149 = Some 5
  /\ newTotal cs (localQuantities v) = 745
  /\ newTotal cs (localQuantities (sync_quantities cs v)) = 745.
Proof. vm_compute. repeat split; reflexivity. Qed.

(** X24 at work: nine items of a tier holding five. *)
Lemma chosen_quantities_witness :
  let it := {| si_category := {| ic_id := "c149"; ic_price := 149;
                                 ic_stock := 5 |};
               si_quantity := 5 |} in
  NoDup (c_price <$> categories Examples.mirror)
  /\ within_stock (categories Examples.mirror)
       (localQuantities empty_basket)
  /\ it ∈ saleItems (categories Examples.mirror)
            (localQuantities
               (updateQuantities two_taps (categories Examples.mirror)
                  empty_basket))
  /\ 0 < si_quantity it <= ic_stock (si_category it).
Proof.
  cbv zeta.
  assert (H1 : NoDup (c_price <$> categories Examples.mirror)).
  { apply (bool_decide_unpack _). vm_compute. exact I. }
  assert (H2 : within_stock (categories Examples.mirror)
                 (localQuantities empty_basket)).
  { intros p q H. simpl in H. rewrite lookup_empty in H. discriminate. }
  assert (H3 : {| si_category := {| ic_id := "c149"; ic_price := 149;
                                    ic_stock := 5 |};
                  si_quantity := 5 |}
               ∈ saleItems (categories Examples.mirror)
                   (localQuantities
                      (updateQuantities two_taps
                         (categories Examples.mirror) empty_basket))).
  { vm_compute. apply elem_of_cons; right. apply elem_of_cons; left.
    reflexivity. }
  split; [exact H1|]. split; [exact H2|]. split; [exact H3|].
  exact (chosen_quantities_within_stock two_taps
           (categories Examples.mirror) empty_basket _ H1 H2 H3).
Defined.

End BasketFacts.

(** ** The forms against the database *)
Section FormsAndLedger.
Import Client Components.

(** What a successful fetch shows as balances is the single row of the
    balances table. *)
Lemma fetched_balances env st ls d user :
  fe_getUser env = Fulfilled (Some user) ->
  fe_balances env = Fulfilled (System.select_balances d) ->
  o_result (fetchAllData env st ls) = inr tt ->
  exists b,
    Sql.balances d = [b]
    /\ balances (o_store (fetchAllData env st ls))
       = {| shopBalance := Sql.shop_balance b;
            bankBalance := Sql.bank_balance b |}.
Proof.
  intros Hu Hb. unfold fetchAllData. rewrite Hu, Hb.
  destruct (fe_categories env) as [rc|ec], (fe_sales env) as [rs|es];
    simpl; try discriminate;
    try (destruct (error rc); discriminate).
  destruct (error rc); [discriminate|].
  destruct (error rs); [discriminate|].
  unfold System.select_balances.
  destruct (Sql.balances d) as [|b [|b' rest]]; simpl; try discriminate.
  intros _. exists b. auto.
Qed.

(** X27: the store's balances after a completed fetch are exactly the
    balances row of the database the balances query was answered from;
    the fetch completes only if that table holds exactly one row. *)
Theorem fetched_balances_mirror_ledger env st ls d user :
  fe_getUser env = Fulfilled (Some user) ->
  fe_balances env = Fulfilled (System.select_balances d) ->
  o_result (fetchAllData env st ls) = inr tt ->
  exists b,
    Sql.balances d = [b]
    /\ Sql.current_balances d
       = Some (shopBalance (balances (o_store (fetchAllData env st ls))),
               bankBalance (balances (o_store (fetchAllData env st ls))))
    /\ cached_balances (o_storage (fetchAllData env st ls))
       = Some (balances (o_store (fetchAllData env st ls))).
Proof.
  intros Hu Hb Hok.
  destruct (fetched_balances env st ls d user Hu Hb Hok) as (b & Hbal & Hst).
  exists b. split; [exact Hbal|]. rewrite Hst. simpl.
  unfold Sql.current_balances. rewrite Hbal. split; [reflexivity|].
  rewrite <- Hst. revert Hok. unfold fetchAllData. rewrite Hu.
  destruct (fe_categories env) as [rc|ec], (fe_sales env) as [rs|es],
    (fe_balances env) as [rb|eb]; simpl; try discriminate;
    try destruct (error rc); try destruct (error rs);
    try destruct (error rb); simpl; try discriminate.
  reflexivity.
Qed.

(** X28: a deposit sent by the Deposits form from a store whose shop
    balance is the database's, and inserted into that database, leaves the
    shop balance at the difference, which is not negative: the form's
    check is sound as long as nothing else has written in between. *)
Theorem fresh_mirror_deposit_keeps_shop_nonneg
    env v st ls row new_id now d d' shop bank :
  Sql.current_balances d = Some (shop, bank) ->
  shopBalance (balances st) = shop ->
  InsertDeposit row ∈ h_requests (deposit_handleSubmit env v st ls) ->
  System.serve new_id now (InsertDeposit row) d = (d', inr tt) ->
  Sql.current_balances d'
  = Some (shop - di_amount row, bank + di_amount row)
  /\ 0 <= shop - di_amount row
  /\ Sql.total_funds d' = Sql.total_funds d.
Proof.
  intros Hcur Hmirror Hsent Hserved.
  assert (0 < di_amount row <= shop) as Hamount.
  { revert Hsent. unfold deposit_handleSubmit.
    destruct (dp_amount v) as [a|]; [|intros H; inversion H].
    destruct (decide (a <= 0)); [intros H; inversion H|].
    destruct (decide (a > shopBalance (balances st)));
      [intros H; inversion H|].
    destruct (decide (dp_selectedUser v = "")); [intros H; inversion H|].
    assert (0 < a <= shop) as Ha by lia.
    destruct (de_getUser env) as [[user|]|e0]; cbv zeta;
      [|simpl; intros H; apply list_elem_of_singleton in H;
        discriminate..].
    destruct (dp_optimizedSlipImage v) as [img|];
      [destruct (upload_failed (de_upload env))|];
      try (destruct (de_insert env) as [r|e1];
           [destruct (error r) as [e2|];
            [|destruct (de_fetchDeposits env) as [u|e3],
                (o_result (fetchBalances (de_fetch env) st ls))
                  as [e4|u']]|]);
      simpl; intros H;
      repeat
        match type of H with
        | _ ∈ [] => solve [inversion H]
        | _ ∈ _ :: _ => apply elem_of_cons in H as [H|H]
        | _ ∈ _ ++ _ => apply elem_of_app in H as [H|H]
        | _ ∈ o_requests (fetchBalances _ _ _) =>
            apply fetchAllData_only_reads in H; unfold fetch_requests in H
        | _ = _ => first [discriminate H | inversion H; subst; clear H]
        end; simpl; exact Ha. }
  simpl in Hserved. unfold Sql.insert_into_deposits in Hserved.
  apply run_tx_inr in Hserved.
  unfold Sql.current_balances in Hcur.
  destruct (Sql.balances d) as [|b rest] eqn:Hbal; [discriminate|].
  simpl in Hcur. inversion Hcur; subst; clear Hcur.
  destruct (deposit_trigger_balances _ _ _ _ _ Hserved b rest Hbal)
    as (rest' & Hafter).
  unfold Sql.total_funds, Sql.current_balances. rewrite Hafter, Hbal.
  simpl. split; [reflexivity|]. split; [lia|]. f_equal. lia.
Qed.

(** X27 at work: a first fetch of the shop. *)
Lemma fetched_balances_witness :
  fe_getUser (Examples.fetch_of Examples.shop) = Fulfilled (Some "bob")
  /\ fe_balances (Examples.fetch_of Examples.shop)
     = Fulfilled (System.select_balances Examples.shop)
  /\ o_result (fetchAllData (Examples.fetch_of Examples.shop) initial_store
                 Examples.no_cache) = inr tt
  /\ exists b,
       Sql.balances Examples.shop = [b]
       /\ Sql.current_balances Examples.shop
          = Some (shopBalance
                    (balances
                       (o_store
                          (fetchAllData (Examples.fetch_of Examples.shop)
                             initial_store Examples.no_cache))),
                  bankBalance
                    (balances
                       (o_store
                          (fetchAllData (Examples.fetch_of Examples.shop)
                             initial_store Examples.no_cache))))
       /\ cached_balances
            (o_storage
               (fetchAllData (Examples.fetch_of Examples.shop)
                  initial_store Examples.no_cache))
          = Some (balances
                    (o_store
                       (fetchAllData (Examples.fetch_of Examples.shop)
                          initial_store Examples.no_cache))).
Proof.
  assert (H1 : fe_getUser (Examples.fetch_of Examples.shop)
               = Fulfilled (Some "bob")) by reflexivity.
  assert (H2 : fe_balances (Examples.fetch_of Examples.shop)
               = Fulfilled (System.select_balances Examples.shop))
    by reflexivity.
  assert (H3 : o_result (fetchAllData (Examples.fetch_of Examples.shop)
                           initial_store Examples.no_cache) = inr tt)
    by reflexivity.
  split; [exact H1|]. split; [exact H2|]. split; [exact H3|].
  exact (fetched_balances_mirror_ledger (Examples.fetch_of Examples.shop)
           initial_store Examples.no_cache Examples.shop "bob" H1 H2 H3).
Defined.

(** X28 at work: Bob's 200 right after the first sale, before Dave's
    expense. *)
Lemma fresh_mirror_deposit_witness :
  let served :=
    System.serve "d7" "t3" (InsertDeposit Examples.deposit_of_200)
      Examples.after_first_sale in
  Sql.current_balances Examples.after_first_sale = Some (200, 98)
  /\ shopBalance (balances Examples.bobs_view) = 200
  /\ InsertDeposit Examples.deposit_of_200
     ∈ h_requests
         (deposit_handleSubmit
            (Examples.deposit_env Examples.after_first_sale)
            (Examples.deposit_form 200) Examples.bobs_view
            Examples.no_cache)
  /\ served = (served.1, inr tt)
  /\ Sql.current_balances served.1 = Some (200 - 200, 98 + 200)
  /\ 0 <= 200 - 200
  /\ Sql.total_funds served.1
     = Sql.total_funds Examples.after_first_sale.
Proof.
  cbv zeta.
  assert (H1 : Sql.current_balances Examples.after_first_sale
               = Some (200, 98)) by (vm_compute; reflexivity).
  assert (H2 : shopBalance (balances Examples.bobs_view) = 200)
    by (vm_compute; reflexivity).
  assert (H3 : InsertDeposit Examples.deposit_of_200
               ∈ h_requests
                   (deposit_handleSubmit
                      (Examples.deposit_env Examples.after_first_sale)
                      (Examples.deposit_form 200) Examples.bobs_view
                      Examples.no_cache)).
  { vm_compute. apply elem_of_cons; right. apply elem_of_cons; left.
    reflexivity. }
  assert (H4 : System.serve "d7" "t3"
                 (InsertDeposit Examples.deposit_of_200)
                 Examples.after_first_sale
               = ((System.serve "d7" "t3"
                     (InsertDeposit Examples.deposit_of_200)
                     Examples.after_first_sale).1, inr tt))
    by (vm_compute; reflexivity).
  split; [exact H1|]. split; [exact H2|]. split; [exact H3|].
  split; [exact H4|].
  exact (fresh_mirror_deposit_keeps_shop_nonneg _ _ _ _ _ _ _ _ _ _ _
           H1 H2 H3 H4).
Defined.

End FormsAndLedger.

(** ** addCategory when the insert fails *)
Section AddCategoryFailure.
Import Client.

(** C7: addCategory does not restore the store when its remote call
    fails. When the insert promise rejects, the [catch] only rethrows: the
    provisional category stays in the list. When the insert resolves with
    an error, the branch commented as the revert filters the provisional
    category out of the re-sorted list instead of putting back the list
    read before the optimistic update: on a list out of price order (as a
    successful updatePrice leaves it) the result is neither the list
    before the call nor the optimistic one. updateStock, updatePrice and
    deleteCategory, on the same stores with the same failures, put the
    captured list back. *)
Theorem addCategory_failure_does_not_restore_store :
  let provisional :=
    {| c_id := Some "new"; c_price := 50; c_stock := 0;
       c_user_id := Some "bob" |} in
  let rejected :=
    addCategory 50 Cases.add_offline Examples.mirror Examples.no_cache in
  let refused :=
    addCategory 50 Examples.add_refused Examples.repriced
      Examples.no_cache in
  (o_result rejected = inl (Error "Failed to fetch")
   /\ categories (o_store rejected)
      = [Examples.tier "c49" 49 3; provisional; Examples.tier "c149" 149 5]
   /\ o_store rejected ≠ Examples.mirror)
  /\ (o_store (updatePrice 0 300 Examples.ok Examples.mirror
                 Examples.no_cache) = Examples.repriced
      /\ o_result refused = inl (PostgrestError "permission denied")
      /\ categories Examples.repriced
         = [Examples.tier "c49" 300 3; Examples.tier "c149" 149 5]
      /\ categories (o_store refused)
         = [Examples.tier "c149" 149 5; Examples.tier "c49" 300 3]
      /\ o_store refused ≠ Examples.repriced
      /\ o_store refused
         ≠ optimisticUpdateCategories
             (sort_by_price (categories Examples.repriced ++ [provisional]))
             Examples.repriced)
  /\ (o_store (updateStock 0 6 Examples.offline Examples.mirror
                 Examples.no_cache) = Examples.mirror
      /\ o_store (updatePrice 0 59 Examples.offline Examples.mirror
                    Examples.no_cache) = Examples.mirror
      /\ o_store (deleteCategory 1 Examples.offline Examples.mirror
                    Examples.no_cache) = Examples.mirror
      /\ o_store (updateStock 0 6 Examples.refused Examples.repriced
                    Examples.no_cache) = Examples.repriced
      /\ o_store (updatePrice 0 59 Examples.refused Examples.repriced
                    Examples.no_cache) = Examples.repriced
      /\ o_store (deleteCategory 1 Examples.refused Examples.repriced
                    Examples.no_cache) = Examples.repriced).
Proof.
  vm_compute. repeat split; try reflexivity; discriminate.
Qed.

End AddCategoryFailure.

(** ** The payment check of [handle_sale] *)
Section PaymentLaw.
Import Sql.








End PaymentLaw.
